(** * PYUSD invoice application: payment-URI builders, amount codec,
      invoice/contract gateway and wallet state synchroniser.

    Shallow embedding of the TypeScript sources (paths under [src/]; some
    files hold two modules one after the other):
    - [services/blockchain/networks.ts]: network table and amount codec;
    - [services/blockchain/web3Service.ts]: class [Web3Service], followed by
      the shared types of [types.ts];
    - [services/blockchain/qrCodeService.ts]: class [QRCodeService], the
      payment-URI builders;
    - [services/blockchain/qrcode.ts], second module: class
      [BlockchainService] (imported elsewhere as [blockchain]);
    - [contexts/BlockchainContext.tsx]: [BlockchainProvider], followed by
      [WalletProvider] (imported elsewhere as [WalletContext]);
    - [components/blockchain/BlockchainInvoicesList.tsx]: the QR action of
      the invoice list.

    JavaScript numbers are IEEE-754 binary64 values; they are modelled with
    the executable specification [SpecFloat] of the standard library, at
    precision 53 and maximal exponent 1024.  JavaScript strings are modelled
    by [string]; the model covers strings whose code units are in the ASCII
    range, which is the case of every address, amount and URI handled here.
    What the sources take from libraries and the platform without computing
    it themselves (the address validator of ethers, the QR encoder,
    [JSON.stringify], the wallet, the contracts and the metadata store) is a
    parameter of the model. *)

From Stdlib Require Import ZArith List String Ascii Bool Lia.
From Stdlib Require Import Floats.SpecFloat.
Import ListNotations.

Open Scope string_scope.
Open Scope Z_scope.

(* ================================================================== *)
(** * JavaScript primitives used by the sources *)
(* ================================================================== *)

Module JS.

(** ** Characters and digit strings *)

Definition code (c : ascii) : Z := Z.of_N (N_of_ascii c).

Definition chr (z : Z) : ascii := ascii_of_N (Z.to_N z).

(** Value of [c] as a digit in radix [b] (letters stand for 10..35, in
    either case), when it is one. *)
Definition digit_value (b : Z) (c : ascii) : option Z :=
  let n := code c in
  let v :=
    if (48 <=? n) && (n <=? 57) then n - 48
    else if (97 <=? n) && (n <=? 122) then n - 87
    else if (65 <=? n) && (n <=? 90) then n - 55
    else 36 in
  if v <? b then Some v else None.

(** Digit [d] (0..35) as a lower-case character, as [Number.prototype.toString]
    prints it. *)
Definition digit_char (d : Z) : ascii :=
  if d <? 10 then chr (48 + d) else chr (87 + d).

Fixpoint radix_digits (fuel : nat) (b n : Z) (acc : string) : string :=
  let acc' := String (digit_char (n mod b)) acc in
  match fuel with
  | O => acc'
  | S f => if n <? b then acc' else radix_digits f b (n / b) acc'
  end.

(** The digits of the non-negative integer [n] in radix [b], most
    significant first, without leading zeros. *)
Definition Z_to_radix (b n : Z) : string :=
  radix_digits (Z.to_nat (Z.log2 n)) b n "".

(** Longest prefix of radix-[b] digits: accumulated value, number of digits
    read and the remaining input. *)
Fixpoint scan_digits (b : Z) (s : string) (acc : Z) (cnt : nat)
  : Z * nat * string :=
  match s with
  | String c r =>
      match digit_value b c with
      | Some d => scan_digits b r (acc * b + d) (S cnt)
      | None => (acc, cnt, s)
      end
  | EmptyString => (acc, cnt, s)
  end.

Fixpoint all_chars (p : ascii -> bool) (s : string) : bool :=
  match s with
  | String c r => p c && all_chars p r
  | EmptyString => true
  end.

Definition is_radix_digit (b : Z) (c : ascii) : bool :=
  match digit_value b c with
  | Some _ => true
  | None => false
  end.

Definition is_hex_digit : ascii -> bool := is_radix_digit 16.

(** ** String methods *)

Fixpoint repeat_char (c : ascii) (n : nat) : string :=
  match n with
  | O => EmptyString
  | S k => String c (repeat_char c k)
  end.

(** [s.padStart(target, c)] for a one-character pad string. *)
Definition padStart (s : string) (target : nat) (c : ascii) : string :=
  repeat_char c (target - String.length s) ++ s.

(** [s.replace(pat, rep)] for a string pattern: the first occurrence only.
    (The replacement strings used by the sources contain no [$].) *)
Fixpoint replace (pat rep s : string) : string :=
  if prefix pat s then rep ++ substring (String.length pat)
                                        (String.length s - String.length pat) s
  else match s with
       | String c r => String c (replace pat rep r)
       | EmptyString => EmptyString
       end.

Definition lower_char (c : ascii) : ascii :=
  let n := code c in
  if (65 <=? n) && (n <=? 90) then chr (n + 32) else c.

Fixpoint toLowerCase (s : string) : string :=
  match s with
  | String c r => String (lower_char c) (toLowerCase r)
  | EmptyString => EmptyString
  end.

(** White space and line terminators of the ASCII range
    (TAB, LF, VT, FF, CR, SP). *)
Definition is_whitespace (c : ascii) : bool :=
  let n := code c in
  ((9 <=? n) && (n <=? 13)) || (n =? 32).

Fixpoint trim_start (s : string) : string :=
  match s with
  | String c r => if is_whitespace c then trim_start r else s
  | EmptyString => s
  end.

(** An optional sign in front of a numeral. *)
Definition scan_sign (s : string) : bool * string :=
  match s with
  | String "-" r => (true, r)
  | String "+" r => (false, r)
  | _ => (false, s)
  end.

(** ** Numbers: IEEE-754 binary64 *)

Definition prec : Z := 53.
Definition emax : Z := 1024.

Definition Number : Type := spec_float.

Definition NaN : Number := S754_nan.

(** The Number value of the non-negative rational [num / den], rounded to
    nearest, ties to even. *)
Definition Number_of_ratio (neg : bool) (num den : Z) : Number :=
  match num with
  | Z0 => S754_zero neg
  | _ =>
      let '(q, e, l) := SFdiv_core_binary prec emax num 0 den 0 in
      binary_round_aux prec emax neg q e l
  end.

(** The Number value of the decimal [m * 10^e], for [m >= 0]. *)
Definition Number_of_decimal (neg : bool) (m e : Z) : Number :=
  if 0 <=? e then Number_of_ratio neg (m * 10 ^ e) 1
  else Number_of_ratio neg m (10 ^ (- e)).

(** The Number value of an integer (an integer literal of the source, or
    the result of reading a digit string). *)
Definition Number_of_Z (z : Z) : Number :=
  Number_of_decimal (z <? 0) (Z.abs z) 0.

Definition Number_mul (x y : Number) : Number := SFmul prec emax x y.

Definition isNaN (x : Number) : bool :=
  match x with S754_nan => true | _ => false end.

(** [x <= 0] *)
Definition Number_le_zero (x : Number) : bool := SFleb x (S754_zero false).

(** [Math.floor] *)
Definition Math_floor (x : Number) : Number :=
  match x with
  | S754_finite s m e =>
      if 0 <=? e then x
      else
        let q := Z.shiftr (Zpos m) (- e) in
        let exact := Z.shiftl q (- e) =? Zpos m in
        if s then Number_of_decimal true (if exact then q else q + 1) 0
        else Number_of_decimal false q 0
  | _ => x
  end.

(** [Math.pow(10, d)] for an integer [d].  ECMAScript leaves the precision
    of [Math.pow] to the implementation; the model takes the correctly
    rounded value, which is the exact power for [0 <= d <= 22]. *)
Definition Math_pow10 (d : Z) : Number := Number_of_decimal false 1 d.

(** The integer part of a finite number and its sign. *)
Definition integer_part (x : Number) : option (bool * Z) :=
  match x with
  | S754_zero s => Some (s, 0)
  | S754_finite s m e =>
      Some (s, if 0 <=? e then Zpos m * 2 ^ e else Z.shiftr (Zpos m) (- e))
  | _ => None
  end.

(** *** [parseFloat] *)

(** The optional exponent part [e|E [+|-] digits] of a decimal literal;
    0 when there is none. *)
Definition scan_exponent (s : string) : Z :=
  match s with
  | String c r =>
      if (code c =? 101) || (code c =? 69) then
        let '(eneg, r1) := scan_sign r in
        let '(ev, en, _) := scan_digits 10 r1 0 0 in
        match en with
        | O => 0
        | _ => if eneg then - ev else ev
        end
      else 0
  | EmptyString => 0
  end.

(** [parseFloat(input)]: leading white space is skipped and the longest
    prefix that is a decimal literal is read; [NaN] when there is none. *)
Definition parseFloat (input : string) : Number :=
  let '(neg, s1) := scan_sign (trim_start input) in
  if prefix "Infinity" s1 then S754_infinity neg
  else
    let '(mi, ni, s2) := scan_digits 10 s1 0 0 in
    let '(m, nf, s3) :=
      match s2 with
      | String "." r => scan_digits 10 r mi 0
      | _ => (mi, O, s2)
      end in
    match ni, nf with
    | O, O => NaN
    | _, _ => Number_of_decimal neg m (scan_exponent s3 - Z.of_nat nf)
    end.

(** *** [parseInt] with no radix argument *)

Definition parseInt (input : string) : Number :=
  let '(neg, s1) := scan_sign (trim_start input) in
  let '(b, s2) :=
    if prefix "0x" s1 || prefix "0X" s1
    then (16, substring 2 (String.length s1 - 2) s1)
    else (10, s1) in
  let '(v, n, _) := scan_digits b s2 0 0 in
  match n with
  | O => NaN
  | _ => Number_of_decimal neg v 0
  end.

(** *** [Number.prototype.toString()], radix 10 *)

(** [num / den < 10^n] *)
Definition below_pow10 (num den n : Z) : bool :=
  if 0 <=? n then num <? 10 ^ n * den else num * 10 ^ (- n) <? den.

(** The integer [n] with [10^(n-1) <= num/den < 10^n]: the least
    [n >= 0] with [num/den < 10^n], then lowered while [num/den < 10^(n-1)]. *)
Fixpoint decimal_exponent_up (fuel : nat) (num den n : Z) : Z :=
  match fuel with
  | O => n
  | S f => if below_pow10 num den n then n
           else decimal_exponent_up f num den (n + 1)
  end.

Fixpoint decimal_exponent_down (fuel : nat) (num den n : Z) : Z :=
  match fuel with
  | O => n
  | S f => if below_pow10 num den (n - 1)
           then decimal_exponent_down f num den (n - 1)
           else n
  end.

Definition decimal_exponent (num den : Z) : Z :=
  decimal_exponent_down 400 num den (decimal_exponent_up 400 num den 0).

(** Shortest digit string: the least [k >= 1] and an integer [s] of [k]
    digits such that the Number value of [s * 10^(n-k)] is [x]; among the
    candidates the one closest to [x], the even one on a tie. *)
Fixpoint shortest_digits (fuel : nat) (x : Number) (num den n0 k : Z)
  : Z * Z :=
  let p := k - n0 in
  let a := if 0 <=? p then num * 10 ^ p else num in
  let b := if 0 <=? p then den else den * 10 ^ (- p) in
  let lo := a / b in
  let hi := lo + 1 in
  let ok_lo := SFeqb (Number_of_decimal false lo (- p)) x in
  let ok_hi := SFeqb (Number_of_decimal false hi (- p)) x in
  let pick :=
    if ok_lo && ok_hi then
      match 2 * (a mod b) ?= b with
      | Lt => lo
      | Gt => hi
      | Eq => if Z.even lo then lo else hi
      end
    else if ok_lo then lo else hi in
  if ok_lo || ok_hi then
    if pick =? 10 ^ k then (1, n0 + 1) else (pick, n0)
  else
    match fuel with
    | O => (lo, n0)
    | S f => shortest_digits f x num den n0 (k + 1)
    end.

(** Layout of the digits [ds] of [s] with decimal point position [n]. *)
Definition layout_digits (ds : string) (n : Z) : string :=
  let k := Z.of_nat (String.length ds) in
  if (k <=? n) && (n <=? 21) then
    ds ++ repeat_char "0" (Z.to_nat (n - k))
  else if (0 <? n) && (n <=? 21) then
    substring 0 (Z.to_nat n) ds ++ "." ++
    substring (Z.to_nat n) (Z.to_nat (k - n)) ds
  else if (-6 <? n) && (n <=? 0) then
    "0." ++ repeat_char "0" (Z.to_nat (- n)) ++ ds
  else
    let e := n - 1 in
    let es := (if e <? 0 then "-" else "+") ++ Z_to_radix 10 (Z.abs e) in
    if k =? 1 then ds ++ "e" ++ es
    else substring 0 1 ds ++ "." ++ substring 1 (Z.to_nat (k - 1)) ds
         ++ "e" ++ es.

Definition Number_toString (x : Number) : string :=
  match x with
  | S754_nan => "NaN"
  | S754_zero _ => "0"
  | S754_infinity s => if s then "-Infinity" else "Infinity"
  | S754_finite s m e =>
      let num := if 0 <=? e then Zpos m * 2 ^ e else Zpos m in
      let den := if 0 <=? e then 1 else 2 ^ (- e) in
      let n0 := decimal_exponent num den in
      let '(d, n) :=
        shortest_digits 20 (S754_finite false m e) num den n0 1 in
      (if s then "-" else "") ++ layout_digits (Z_to_radix 10 d) n
  end.

(** *** [Number.prototype.toString(16)]

    ECMAScript leaves the digits printed in a radix other than 10 to the
    implementation.  The model follows the conversion of V8 (Chrome, Node),
    on the values [parseInt] returns: [NaN], the infinities and integral
    values.  For an integral value with significand [m] of 53 bits and
    exponent [e], the digits that the significand does not reach are filled
    with zeros: while the exponent is positive the value is divided by 16
    and a ["0"] is put in front of the digits printed so far, [k] times in
    all with [k = ceil (e / 4)]; the digits of the integer part of what is
    left, [floor (m * 2^e / 16^k)], are printed above them.  Below 2^53 the
    exponent is not positive and these are the exact digits of the integer,
    on which the engines agree.  (For a value with a fractional part only
    the integer part is printed by the model.) *)
Definition Number_toString16 (x : Number) : string :=
  match x with
  | S754_nan => "NaN"
  | S754_infinity s => if s then "-Infinity" else "Infinity"
  | S754_zero _ => "0"
  | S754_finite s _ e =>
      match integer_part x with
      | Some (_, v) =>
          let k := if 0 <? e then (e + 3) / 4 else 0 in
          (if s then "-" else "")
          ++ Z_to_radix 16 (v / 16 ^ k) ++ repeat_char "0" (Z.to_nat k)
      | None => "NaN"
      end
  end.

(** ** [URLSearchParams.prototype.toString]:
       the application/x-www-form-urlencoded serializer *)

Definition urlencode_char (c : ascii) : string :=
  let n := code c in
  if n =? 32 then "+"
  else if ((48 <=? n) && (n <=? 57)) || ((65 <=? n) && (n <=? 90))
          || ((97 <=? n) && (n <=? 122))
          || (n =? 42) || (n =? 45) || (n =? 46) || (n =? 95)
  then String c EmptyString
  else String "%" (String (chr (let h := n / 16 in
                                if h <? 10 then 48 + h else 55 + h))
                  (String (chr (let l := n mod 16 in
                                if l <? 10 then 48 + l else 55 + l))
                   EmptyString)).

Fixpoint urlencode (s : string) : string :=
  match s with
  | String c r => urlencode_char c ++ urlencode r
  | EmptyString => EmptyString
  end.

Fixpoint URLSearchParams_toString (ps : list (string * string)) : string :=
  match ps with
  | [] => ""
  | [(k, v)] => urlencode k ++ "=" ++ urlencode v
  | (k, v) :: rest =>
      urlencode k ++ "=" ++ urlencode v ++ "&" ++ URLSearchParams_toString rest
  end.

End JS.

(* ================================================================== *)
(** * Exceptions and results *)
(* ================================================================== *)

(** A thrown value, as the [catch (error: any)] clauses read it: only its
    [message] property is used, and it may be missing. *)
Record JsError : Type := mkJsError { message : option string }.

(** [new Error(msg)] *)
Definition Error (msg : string) : JsError := {| message := Some msg |}.

(** Outcome of an expression that may throw. *)
Definition Result (A : Type) : Type := (A + JsError)%type.

(** JavaScript truthiness of an optional string: [undefined], [null] and the
    empty string are falsy. *)
Definition truthy (o : option string) : bool :=
  match o with
  | Some (String _ _) => true
  | _ => false
  end.

(** [error.message || dflt] *)
Definition message_or (e : JsError) (dflt : string) : string :=
  match message e with
  | Some (String c r) => String c r
  | _ => dflt
  end.

(** [o || dflt] on an optional string. *)
Definition string_or (o : option string) (dflt : string) : string :=
  match o with
  | Some (String c r) => String c r
  | _ => dflt
  end.

(** A value interpolated in a template literal: [null] prints as "null". *)
Definition interpolate (o : option string) : string :=
  match o with
  | Some s => s
  | None => "null"
  end.

(* ================================================================== *)
(** * Network registry and amount codec
      ([networks.ts]; the table of [web3Service.ts] has the first two rows) *)
(* ================================================================== *)

Module Networks.
Import JS.

Record Network : Type := {
  chainId : Z;
  name : string;
  currency : string;
  rpcUrl : string;
  blockExplorer : string;
  pyusdAddress : option string;
  isTestnet : bool;
  supported : bool
}.

Definition sepolia : Network := {|
  chainId := 11155111;
  name := "Sepolia Testnet";
  currency := "ETH";
  rpcUrl := "https://sepolia.infura.io/v3/";
  blockExplorer := "https://sepolia.etherscan.io";
  pyusdAddress := Some "0xCaC524BcA292aaade2DF8A05cC58F0a65B1B3bB9";
  isTestnet := true;
  supported := true
|}.

Definition ethereum : Network := {|
  chainId := 1;
  name := "Ethereum Mainnet";
  currency := "ETH";
  rpcUrl := "https://mainnet.infura.io/v3/";
  blockExplorer := "https://etherscan.io";
  pyusdAddress := Some "0x6c3ea9036406852006290770BEdFcAbA0e23A0e8";
  isTestnet := false;
  supported := false
|}.

Definition polygon : Network := {|
  chainId := 137;
  name := "Polygon Mainnet";
  currency := "MATIC";
  rpcUrl := "https://polygon-rpc.com/";
  blockExplorer := "https://polygonscan.com";
  pyusdAddress := None;
  isTestnet := false;
  supported := false
|}.

(** [NETWORKS] of [networks.ts], in declaration order. *)
Definition NETWORKS : list (string * Network) :=
  [("sepolia", sepolia); ("ethereum", ethereum); ("polygon", polygon)].

(** [NETWORKS] of [web3Service.ts], which the QR service imports. *)
Definition WEB3_NETWORKS : list (string * Network) :=
  [("sepolia", sepolia); ("ethereum", ethereum)].


Definition getDefaultNetwork : Network := sepolia.

Definition getSupportedNetworks : list Network :=
  filter supported (map snd NETWORKS).

(** [formatTokenAmount(amount, decimals)]:
    [Math.floor(amount * Math.pow(10, decimals)).toString()] *)
Definition formatTokenAmount (amount : Number) (decimals : Z) : string :=
  let factor := Math_pow10 decimals in
  Number_toString (Math_floor (Number_mul amount factor)).

End Networks.

(* ================================================================== *)
(** * Payment-URI builders ([qrCodeService.ts], class [QRCodeService]) *)
(* ================================================================== *)

Module QRCodeService.
Import JS Networks.

Inductive ECLevel : Type := ecL | ecM | ecQ | ecH.

Record Color : Type := { dark : option string; light : option string }.

(** [QRCodeOptions]: every field is optional. *)
Record QRCodeOptions : Type := {
  width : option Number;
  margin : option Number;
  color : option Color;
  errorCorrectionLevel : option ECLevel
}.

(** The default argument [{}]. *)
Definition noOptions : QRCodeOptions :=
  {| width := None; margin := None; color := None;
     errorCorrectionLevel := None |}.

(** The options object handed to [QRCode.toDataURL]. *)
Record QROptions : Type := {
  q_width : Number;
  q_margin : Number;
  q_dark : string;
  q_light : string;
  q_level : ECLevel
}.

(** [o || d] on an optional number: 0, -0 and NaN are falsy. *)
Definition number_or (o : option Number) (d : Z) : Number :=
  match o with
  | Some (S754_finite s m e) => S754_finite s m e
  | Some (S754_infinity s) => S754_infinity s
  | _ => Number_of_Z d
  end.

Definition level_or (o : option ECLevel) (d : ECLevel) : ECLevel :=
  match o with
  | Some l => l
  | None => d
  end.

Definition qrOptions (options : QRCodeOptions) (w m : Z) (lvl : ECLevel)
  : QROptions :=
  {| q_width := number_or (width options) w;
     q_margin := number_or (margin options) m;
     q_dark :=
       string_or (match color options with Some c => dark c | None => None end)
                 "#000000";
     q_light :=
       string_or (match color options with Some c => light c | None => None end)
                 "#FFFFFF";
     q_level := level_or (errorCorrectionLevel options) lvl |}.

(** [PaymentQRData] of [types.ts], as the structured builder fills it. *)
Record PaymentQRData : Type := {
  pd_type : string;
  pd_invoiceId : Z;
  pd_contractAddress : string;
  pd_tokenAddress : string;
  pd_amount : string;
  pd_chainId : Z;
  pd_recipient : string;
  pd_network : string;
  pd_networkName : string;
  pd_to : string;
  pd_token : string;
  pd_value : string
}.

(** The object every builder resolves to; an absent property is [None]. *)
Record QRResult : Type := {
  success : bool;
  qrCodeDataUrl : option string;
  uri : option string;
  deepLink : option string;
  data : option PaymentQRData;
  error : option string
}.

Definition failure (e : JsError) (dflt : string) : QRResult :=
  {| success := false; qrCodeDataUrl := None; uri := None; deepLink := None;
     data := None; error := Some (message_or e dflt) |}.

(** What [generatePYUSDPaymentQR] writes to the console. *)
Inductive ConsoleEntry : Type :=
| LogUri (uri : string)
| LogQRData (tokenAddress : string) (chainId : Z)
            (contractAddress amount amountInWei : string) (invoiceId : Z)
| LogFailure (e : JsError).

(** The literal [1e6]. *)
Definition lit_1e6 : Number := Number_of_Z 1000000.

(** [Math.floor(parseFloat(amount) * 1e6).toString()] *)
Definition amountInWei (amount : string) : string :=
  Number_toString (Math_floor (Number_mul (parseFloat amount) lit_1e6)).

(** [createMetaMaskDeepLink]: the body of its [try] block cannot throw. *)
Definition createMetaMaskDeepLink (invoiceId : Z) (amount contractAddress : string)
  : string :=
  "ethereum:" ++ interpolate (pyusdAddress sepolia) ++ "@"
  ++ Z_to_radix 10 (chainId sepolia) ++ "/transfer?address=" ++ contractAddress
  ++ "&uint256=" ++ amount.

(** [encodeTransferFunction(to, amount)] *)
Definition encodeTransferFunction (to amount : string) : string :=
  let functionSelector := "a9059cbb" in
  let addressParam := padStart (replace "0x" "" to) 64 "0" in
  let amountParam := padStart (Number_toString16 (parseInt amount)) 64 "0" in
  "0x" ++ functionSelector ++ addressParam ++ amountParam.

Section Service.

(** [ethers.utils.isAddress] *)
Variable isAddress : string -> bool.

(** [QRCode.toDataURL(text, options)]: the data URL, or a rejection. *)
Variable toDataURL : string -> QROptions -> Result string.

(** [JSON.stringify] on a [PaymentQRData] object. *)
Variable JSON_stringify : PaymentQRData -> string.

(** [generatePaymentQR] *)
Definition generatePaymentQR (invoiceId : Z) (amount contractAddress : string)
  (options : QRCodeOptions) : QRResult :=
  let deepLink := createMetaMaskDeepLink invoiceId amount contractAddress in
  match toDataURL deepLink (qrOptions options 256 4 ecH) with
  | inl url =>
      {| success := true; qrCodeDataUrl := Some url; uri := None;
         deepLink := Some deepLink; data := None; error := None |}
  | inr e => failure e "Failed to generate QR code"
  end.

(** The validation and URI construction of [generatePYUSDPaymentQR]: the
    URI and the base-unit amount, or the error that is thrown. *)
Definition generatePYUSDPaymentQR_uri (amount contractAddress : string)
  : Result (string * string) :=
  match pyusdAddress sepolia with
  | Some (String c r) =>
      let pyusd := String c r in
      if negb (truthy (Some contractAddress)) || negb (isAddress contractAddress)
      then inr (Error "Invalid contract address provided")
      else if negb (truthy (Some amount)) || isNaN (parseFloat amount)
              || Number_le_zero (parseFloat amount)
      then inr (Error "Invalid amount provided")
      else
        let wei := amountInWei amount in
        inl ("ethereum:" ++ pyusd ++ "@" ++ Z_to_radix 10 (chainId sepolia)
             ++ "/transfer?address=" ++ contractAddress
             ++ "&uint256=" ++ wei ++ "&gas=100000", wei)
  | _ => inr (Error "PYUSD token address not configured for Sepolia network")
  end.

(** [generatePYUSDPaymentQR], with its console output. *)
Definition generatePYUSDPaymentQR_logged (invoiceId : Z)
  (amount contractAddress : string) (options : QRCodeOptions)
  : QRResult * list ConsoleEntry :=
  match generatePYUSDPaymentQR_uri amount contractAddress with
  | inl (u, wei) =>
      let logs :=
        [LogUri u;
         LogQRData (interpolate (pyusdAddress sepolia)) (chainId sepolia)
                   contractAddress amount wei invoiceId] in
      match toDataURL u (qrOptions options 256 4 ecM) with
      | inl url =>
          ({| success := true; qrCodeDataUrl := Some url; uri := Some u;
              deepLink := None; data := None; error := None |}, logs)
      | inr e =>
          (failure e "Failed to generate PYUSD payment QR",
           (logs ++ [LogFailure e])%list)
      end
  | inr e => (failure e "Failed to generate PYUSD payment QR", [LogFailure e])
  end.

(** [generatePYUSDPaymentQR]: the object it resolves to. *)
Definition generatePYUSDPaymentQR (invoiceId : Z)
  (amount contractAddress : string) (options : QRCodeOptions) : QRResult :=
  fst (generatePYUSDPaymentQR_logged invoiceId amount contractAddress options).

(** The deep link of [generateMetaMaskMobileQR]. *)
Definition mobileDeepLink (amount contractAddress pyusd : string) : string :=
  let network := sepolia in
  let deepLinkParams :=
    [("chainId", "0x" ++ Z_to_radix 16 (chainId sepolia));
     ("chainName", name network);
     ("nativeCurrencyName", currency network);
     ("nativeCurrencySymbol", currency network);
     ("nativeCurrencyDecimals", "18");
     ("rpcUrl", rpcUrl network);
     ("blockExplorerUrl", blockExplorer network);
     ("to", pyusd);
     ("data", encodeTransferFunction contractAddress (amountInWei amount));
     ("gas", "100000");
     ("value", "0x0")] in
  "https://metamask.app.link/dapp/localhost:5174/?"
  ++ URLSearchParams_toString deepLinkParams.

(** [generateMetaMaskMobileQR] *)
Definition generateMetaMaskMobileQR (invoiceId : Z)
  (amount contractAddress : string) (options : QRCodeOptions) : QRResult :=
  match pyusdAddress sepolia with
  | Some (String c r) =>
      let link := mobileDeepLink amount contractAddress (String c r) in
      match toDataURL link (qrOptions options 256 4 ecL) with
      | inl url =>
          {| success := true; qrCodeDataUrl := Some url; uri := None;
             deepLink := Some link; data := None; error := None |}
      | inr e => failure e "Failed to generate MetaMask mobile QR"
      end
  | _ => failure (Error "PYUSD token address not configured")
                 "Failed to generate MetaMask mobile QR"
  end.

(** [generateStructuredPaymentQR] *)
Definition generateStructuredPaymentQR (invoiceId : Z)
  (amount contractAddress : string) (options : QRCodeOptions) : QRResult :=
  match pyusdAddress sepolia with
  | Some (String c r) =>
      let pyusd := String c r in
      let paymentData :=
        {| pd_type := "ethereum-payment";
           pd_invoiceId := invoiceId;
           pd_contractAddress := contractAddress;
           pd_tokenAddress := pyusd;
           pd_amount := amount;
           pd_chainId := chainId sepolia;
           pd_recipient := contractAddress;
           pd_network := "sepolia";
           pd_networkName := "Sepolia Testnet";
           pd_to := contractAddress;
           pd_token := pyusd;
           pd_value := Number_toString (Number_mul (parseFloat amount) lit_1e6)
        |} in
      match toDataURL (JSON_stringify paymentData)
                      (qrOptions options 256 4 ecM) with
      | inl url =>
          {| success := true; qrCodeDataUrl := Some url; uri := None;
             deepLink := None; data := Some paymentData; error := None |}
      | inr e => failure e "Failed to generate structured payment QR"
      end
  | _ => failure (Error "PYUSD token address not configured")
                 "Failed to generate structured payment QR"
  end.

(** [generateGenericPaymentQR] *)
Definition generateGenericPaymentQR (to amount : string) (chain : Z)
  (calldata : option string) (options : QRCodeOptions) : QRResult :=
  match find (fun n => chainId n =? chain) (map snd WEB3_NETWORKS) with
  | None =>
      failure (Error ("Unsupported network: " ++
                      (if chain <? 0 then "-" else "") ++ Z_to_radix 10 (Z.abs chain)))
              "Failed to generate payment QR"
  | Some _ =>
      let params :=
        ((if truthy (Some amount) && negb (String.eqb amount "0")
          then [("value", amount)] else [])
         ++ (match calldata with
             | Some (String c r) => [("data", String c r)]
             | _ => []
             end))%list in
      let query := URLSearchParams_toString params in
      let u :=
        "ethereum:" ++ to ++ "@" ++ Z_to_radix 10 chain
        ++ (if truthy (Some query) then "?" ++ query else "") in
      match toDataURL u (qrOptions options 256 4 ecH) with
      | inl url =>
          {| success := true; qrCodeDataUrl := Some url; uri := Some u;
             deepLink := None; data := None; error := None |}
      | inr e => failure e "Failed to generate payment QR"
      end
  end.

End Service.

End QRCodeService.

(* ================================================================== *)
(** * Shared types ([types.ts]) *)
(* ================================================================== *)

Module Types.

(** [enum InvoiceStatus] *)
Definition UNPAID : Z := 0.
Definition PAID : Z := 1.
Definition FAILED : Z := 2.

(** [interface Invoice]: [amount] is the base-unit amount as a decimal
    string; [status] is the number decoded from the contract's [uint8]. *)
Record Invoice : Type := {
  id : Z;
  creator : string;
  payer : string;
  amount : string;
  status : Z;
  ipfsHash : string;
  createdAt : Z;
  paidAt : Z;
  exists_ : bool
}.

End Types.

(* ================================================================== *)
(** * The QR action of the invoice list
      ([BlockchainInvoicesList.tsx], [handleGenerateQR]) *)
(* ================================================================== *)

Module BlockchainInvoicesList.
Import QRCodeService.

(** The builders of [QRCodeService]. *)
Inductive Builder : Type :=
| PaymentQR            (* generatePaymentQR *)
| PYUSDPaymentQR       (* generatePYUSDPaymentQR: token-transfer deep link *)
| MetaMaskMobileQR     (* generateMetaMaskMobileQR: mobile deep link *)
| StructuredPaymentQR  (* generateStructuredPaymentQR: JSON payload *)
| GenericPaymentQR.    (* generateGenericPaymentQR: generic URI *)

Inductive ToastColor : Type := toast_success | toast_warning | toast_danger.

(** What the handler leaves behind: the builders it called, in call order,
    the modal it opened (image source and the text shown as QR data), and the
    last toast. *)
Record QRAction : Type := {
  attempts : list Builder;
  modal : option (string * string);
  toast : string * ToastColor
}.

Section Handler.

Variable isAddress : string -> bool.
Variable toDataURL : string -> QROptions -> Result string.
Variable JSON_stringify : PaymentQRData -> string.

(** The first fallback: the token-transfer deep link, tried when the
    current result is a failure. *)
Definition fallback_eip (invoice : Types.Invoice) (st : QRResult * list Builder)
  : QRResult * list Builder :=
  let '(qrResult, called) := st in
  if negb (success qrResult) then
    let eipResult :=
      generatePYUSDPaymentQR isAddress toDataURL (Types.id invoice)
        (Types.amount invoice) (Types.creator invoice) noOptions in
    (if success eipResult then
       {| success := true; qrCodeDataUrl := qrCodeDataUrl eipResult;
          uri := None; deepLink := uri eipResult; data := None;
          error := None |}
     else qrResult,
     (called ++ [PYUSDPaymentQR])%list)
  else st.

(** The second fallback: the structured payload. *)
Definition fallback_structured (invoice : Types.Invoice)
  (st : QRResult * list Builder) : QRResult * list Builder :=
  let '(qrResult, called) := st in
  if negb (success qrResult) then
    let structuredResult :=
      generateStructuredPaymentQR toDataURL JSON_stringify (Types.id invoice)
        (Types.amount invoice) (Types.creator invoice) noOptions in
    (if success structuredResult then
       {| success := true; qrCodeDataUrl := qrCodeDataUrl structuredResult;
          uri := None;
          deepLink := option_map JSON_stringify (data structuredResult);
          data := None; error := None |}
     else qrResult,
     (called ++ [StructuredPaymentQR])%list)
  else st.

(** The result the handler displays and the builders it called. *)
Definition selectQR (invoice : Types.Invoice) : QRResult * list Builder :=
  let first :=
    generateMetaMaskMobileQR toDataURL (Types.id invoice)
      (Types.amount invoice) (Types.creator invoice) noOptions in
  fallback_structured invoice (fallback_eip invoice (first, [MetaMaskMobileQR])).

(** [handleGenerateQR] *)
Definition handleGenerateQR (invoice : Types.Invoice) : QRAction :=
  let '(qrResult, called) := selectQR invoice in
  match success qrResult, qrCodeDataUrl qrResult with
  | true, Some (String c r) =>
      {| attempts := called;
         modal := Some (String c r, string_or (deepLink qrResult) "N/A");
         toast := ("QR code generated successfully!", toast_success) |}
  | _, _ =>
      {| attempts := called;
         modal := None;
         toast :=
           ("Failed to generate QR code: "
            ++ string_or (error qrResult)
                 "Failed to generate QR code with all methods",
            toast_danger) |}
  end.

End Handler.

End BlockchainInvoicesList.

(* ================================================================== *)
(** * Invoice/contract gateway
      ([blockchain.ts] class [BlockchainService], [web3Service.ts] class
      [Web3Service], [BlockchainContext.tsx]) *)
(* ================================================================== *)

Module Gateway.
Import JS.

(** ** ethers [BigNumber]: unbounded integers *)

Definition BigNumber_toString (z : Z) : string :=
  (if z <? 0 then "-" else "") ++ Z_to_radix 10 (Z.abs z).

(** [toNumber()] throws when the value does not fit in 53 bits. *)
Definition BigNumber_toNumber (z : Z) : Result Z :=
  if Z.abs z <? 2 ^ 53 then inl z else inr (Error "overflow").

(** [BigNumber.from(s)] on a string: an optionally signed decimal or
    [0x]-prefixed hexadecimal numeral, anything else is rejected. *)
Definition BigNumber_from (s : string) : Result Z :=
  let '(neg, r) :=
    match s with
    | String "-" r => (true, r)
    | _ => (false, s)
    end in
  let '(b, ds) :=
    if prefix "0x" r || prefix "0X" r
    then (16, substring 2 (String.length r - 2) r)
    else (10, r) in
  match scan_digits b ds 0 0 with
  | (v, S _, EmptyString) => inl (if neg then - v else v)
  | _ => inr (Error "invalid BigNumber string")
  end.

(** [gasEstimate.mul(120).div(100)] *)
Definition gas_with_buffer (gasEstimate : Z) : Z :=
  Z.quot (gasEstimate * 120) 100.

(** ** Data exchanged with the outside *)

(** The struct [getInvoice] of the contract returns. *)
Record RawInvoice : Type := {
  raw_id : Z;
  raw_creator : string;
  raw_payer : string;
  raw_amount : Z;
  raw_status : Z;
  raw_ipfsHash : string;
  raw_createdAt : Z;
  raw_paidAt : Z;
  raw_exists : bool
}.

(** A submitted transaction. *)
Record Tx : Type := { hash : string }.

(** A log of a receipt: its event name and its [invoiceId] argument. *)
Record LogEvent : Type := { event : option string; arg_invoiceId : option Z }.

Record Receipt : Type := { events : option (list LogEvent) }.

(** [IPFSResult] / [IPFSUploadResponse] *)
Record IPFSResult : Type := {
  ipfs_success : bool;
  ipfsHash : option string;
  pinataUrl : option string;
  publicUrl : option string;
  ipfs_error : option string
}.

Record InvoiceItem : Type := {
  item_description : string;
  quantity : Number;
  rate : Number;
  item_amount : Number
}.

(** An invoice draft; [A] is the type of its [amount]. *)
Record InvoiceDraft (A : Type) : Type := {
  amount : A;
  companyName : string;
  companyAddress : string;
  clientName : string;
  clientAddress : string;
  description : option string;
  items : list InvoiceItem;
  notes : option string;
  terms : option string;
  dueDate : option string
}.
Arguments amount {A}.

(** [InvoiceCreationData] of [types.ts]: the amount is a number. *)
Definition InvoiceCreationData : Type := InvoiceDraft Number.

(** The untyped draft of [createBlockchainInvoice], whose amount is handed
    to [parseUnits] as a string. *)
Definition InvoiceFormData : Type := InvoiceDraft string.

(** What a gateway method resolves to. *)
Record TxResult : Type := {
  success : bool;
  invoiceId : option Z;
  transactionHash : option string;
  error : option string
}.

Definition tx_failure (e : JsError) (dflt : string) : TxResult :=
  {| success := false; invoiceId := None; transactionHash := None;
     error := Some (message_or e dflt) |}.

(** The fields of the two services that the methods test. *)
Record Service : Type := {
  invoiceContract : option string;   (* its address, when initialised *)
  pyusdContract : option string;
  signer : bool
}.

(** ** External calls and their trace *)

Inductive Call : Type :=
| GetInvoice (invoiceId : Z)
| GetAddress
| BalanceOf (owner : string)
| Allowance (owner spender : string)
| Approve (spender : string) (value : Z)
| ApproveWait
| EstimateGasPayInvoice (invoiceId : Z)
| PayInvoice (invoiceId : Z) (gasLimit : option Z)
| PayWait
| UploadInvoiceData
| EstimateGasCreateInvoice (value : string) (ipfsHash : option string)
| CreateInvoice (value : string) (ipfsHash : option string)
                (gasLimit : option Z)
| CreateWait
| GetWalletState.

(** A call that was issued, and whether it returned (or threw). *)
Record Step : Type := { call : Call; returned : bool }.

(** State-changing calls: the transactions sent to a contract. *)
Definition is_transaction (c : Call) : bool :=
  match c with
  | Approve _ _ | PayInvoice _ _ | CreateInvoice _ _ _ => true
  | _ => false
  end.

(** Calls on the invoice contract that create an invoice. *)
Definition is_create_call (c : Call) : bool :=
  match c with
  | EstimateGasCreateInvoice _ _ | CreateInvoice _ _ _ | CreateWait => true
  | _ => false
  end.

Definition is_approve (c : Call) : bool :=
  match c with
  | Approve _ _ => true
  | _ => false
  end.

Definition is_pay (c : Call) : bool :=
  match c with
  | PayInvoice _ _ => true
  | _ => false
  end.

(** The answers of the outside world: every call of a run is issued at
    most once, so one answer per call describes any execution. *)
Record Env : Type := {
  contract_getInvoice : Z -> Result RawInvoice;
  signer_getAddress : Result string;
  pyusd_balanceOf : string -> Result Z;
  pyusd_allowance : string -> string -> Result Z;
  pyusd_approve : string -> Z -> Result Tx;
  approve_wait : Result Receipt;
  estimateGas_payInvoice : Z -> Result Z;
  contract_payInvoice : Z -> option Z -> Result Tx;
  pay_wait : Result Receipt;
  upload_typed : InvoiceCreationData -> Result IPFSResult;
  upload_form : InvoiceFormData -> Result IPFSResult;
  parseUnits : string -> Z -> Result Z;
  estimateGas_createInvoice : string -> option string -> Result Z;
  contract_createInvoice : string -> option string -> option Z -> Result Tx;
  create_wait : Result Receipt
}.

(** ** The monad of the asynchronous methods: answers are read from the
       environment, issued calls are appended to the trace, and a thrown
       value aborts the rest of the [try] block. *)

Definition M (A : Type) : Type :=
  Env -> list Step -> Result A * list Step.

Definition ret {A : Type} (a : A) : M A := fun _ tr => (inl a, tr).

Definition bind {A B : Type} (m : M A) (k : A -> M B) : M B :=
  fun env tr =>
    match m env tr with
    | (inl a, tr') => k a env tr'
    | (inr e, tr') => (inr e, tr')
    end.

Definition throw {A : Type} (msg : string) : M A :=
  fun _ tr => (inr (Error msg), tr).

Definition lift {A : Type} (r : Result A) : M A := fun _ tr => (r, tr).

(** A pure library function whose behaviour is left to the environment;
    it is no external call and leaves the trace alone. *)
Definition consult {A : Type} (answer : Env -> Result A) : M A :=
  fun env tr => (answer env, tr).

Definition is_ok {A : Type} (r : Result A) : bool :=
  match r with
  | inl _ => true
  | inr _ => false
  end.

(** [await] an external call. *)
Definition await {A : Type} (c : Call) (answer : Env -> Result A) : M A :=
  fun env tr =>
    let r := answer env in
    (r, (tr ++ [{| call := c; returned := is_ok r |}])%list).

Definition try_catch {A : Type} (m : M A) (handler : JsError -> M A) : M A :=
  fun env tr =>
    match m env tr with
    | (inl a, tr') => (inl a, tr')
    | (inr e, tr') => handler e env tr'
    end.

Notation "x <- m ;; k" := (bind m (fun x => k))
  (at level 61, m at next level, right associativity).
Notation "m ;;; k" := (bind m (fun _ => k))
  (at level 61, right associativity).

(** The value a method resolves to and the calls it issued. *)
Definition run {A : Type} (m : M A) (env : Env) : Result A * list Step :=
  m env [].

(** [receipt.events?.find(e => e.event === 'InvoiceCreated')
       ?.args?.invoiceId?.toNumber()] *)
Definition created_invoiceId (receipt : Receipt) : Result (option Z) :=
  match events receipt with
  | None => inl None
  | Some evs =>
      match find (fun e => match event e with
                           | Some n => String.eqb n "InvoiceCreated"
                           | None => false
                           end) evs with
      | Some e =>
          match arg_invoiceId e with
          | Some z =>
              match BigNumber_toNumber z with
              | inl n => inl (Some n)
              | inr err => inr err
              end
          | None => inl None
          end
      | None => inl None
      end
  end.

End Gateway.

(** ** [class BlockchainService] ([blockchain.ts]) *)

Module BlockchainService.
Import JS Gateway.

(** [getInvoice(invoiceId)]: [null] when the service is not initialised,
    the read fails or a field does not fit a number. *)
Definition getInvoice (svc : Service) (invoiceId : Z)
  : M (option Types.Invoice) :=
  try_catch
    (match invoiceContract svc with
     | None => throw "Contract not initialized"
     | Some _ =>
         invoiceData <- await (GetInvoice invoiceId)
                          (fun env => contract_getInvoice env invoiceId) ;;
         id <- lift (BigNumber_toNumber (raw_id invoiceData)) ;;
         createdAt <- lift (BigNumber_toNumber (raw_createdAt invoiceData)) ;;
         paidAt <- lift (BigNumber_toNumber (raw_paidAt invoiceData)) ;;
         ret (Some {| Types.id := id;
                      Types.creator := raw_creator invoiceData;
                      Types.payer := raw_payer invoiceData;
                      Types.amount := BigNumber_toString (raw_amount invoiceData);
                      Types.status := raw_status invoiceData;
                      Types.ipfsHash := raw_ipfsHash invoiceData;
                      Types.createdAt := createdAt;
                      Types.paidAt := paidAt;
                      Types.exists_ := raw_exists invoiceData |})
     end)
    (fun _ => ret None).

(** The body of the [try] block of [payInvoice]. *)
Definition payInvoice_try (svc : Service) (invoiceId : Z) : M TxResult :=
  match invoiceContract svc, pyusdContract svc, signer svc with
  | Some contractAddress, Some _, true =>
      found <- getInvoice svc invoiceId ;;
      match found with
      | None => throw "Invoice not found"
      | Some invoice =>
          if negb (Types.status invoice =? Types.UNPAID)
          then throw "Invoice is not in unpaid status"
          else
            userAddress <- await GetAddress signer_getAddress ;;
            if String.eqb (toLowerCase (Types.creator invoice))
                          (toLowerCase userAddress)
            then throw "Cannot pay your own invoice"
            else
              balance <- await (BalanceOf userAddress)
                           (fun env => pyusd_balanceOf env userAddress) ;;
              due <- lift (BigNumber_from (Types.amount invoice)) ;;
              if balance <? due
              then throw "Insufficient PYUSD balance"
              else
                allowance <- await (Allowance userAddress contractAddress)
                               (fun env => pyusd_allowance env userAddress
                                             contractAddress) ;;
                due' <- lift (BigNumber_from (Types.amount invoice)) ;;
                (if allowance <? due' then
                   approveTx <- await (Approve contractAddress due')
                                  (fun env => pyusd_approve env contractAddress
                                                due') ;;
                   await ApproveWait approve_wait ;;;
                   ret tt
                 else ret tt) ;;;
                payTx <- await (PayInvoice invoiceId None)
                           (fun env => contract_payInvoice env invoiceId None) ;;
                await PayWait pay_wait ;;;
                ret {| success := true; invoiceId := None;
                       transactionHash := Some (hash payTx); error := None |}
      end
  | _, _, _ => throw "Blockchain service not initialized"
  end.

(** [payInvoice(invoiceId)] *)
Definition payInvoice (svc : Service) (invoiceId : Z) : M TxResult :=
  try_catch (payInvoice_try svc invoiceId)
            (fun e => ret (tx_failure e "Failed to pay invoice")).

(** The body of the [try] block of [createInvoice]. *)
Definition createInvoice_try (svc : Service) (invoiceData : InvoiceCreationData)
  : M TxResult :=
  match invoiceContract svc, signer svc with
  | Some _, true =>
      ipfsResult <- await UploadInvoiceData
                      (fun env => upload_typed env invoiceData) ;;
      if negb (ipfs_success ipfsResult) || negb (truthy (ipfsHash ipfsResult))
      then throw (string_or (ipfs_error ipfsResult) "Failed to upload to IPFS")
      else
        let formattedAmount :=
          Networks.formatTokenAmount (amount invoiceData) 6 in
        tx <- await (CreateInvoice formattedAmount (ipfsHash ipfsResult) None)
                (fun env => contract_createInvoice env formattedAmount
                              (ipfsHash ipfsResult) None) ;;
        receipt <- await CreateWait create_wait ;;
        newId <- lift (created_invoiceId receipt) ;;
        ret {| success := true; invoiceId := newId;
               transactionHash := Some (hash tx); error := None |}
  | _, _ => throw "Blockchain service not initialized"
  end.

(** [createInvoice(invoiceData)] *)
Definition createInvoice (svc : Service) (invoiceData : InvoiceCreationData)
  : M TxResult :=
  try_catch (createInvoice_try svc invoiceData)
            (fun e => ret (tx_failure e "Failed to create invoice")).

End BlockchainService.

(** ** [class Web3Service] ([web3Service.ts]) *)

Module Web3Service.
Import JS Gateway.

(** The body of the [try] block of [payInvoice]. *)
Definition payInvoice_try (svc : Service) (invoiceId : Z) : M TxResult :=
  match invoiceContract svc, pyusdContract svc with
  | Some contractAddress, Some _ =>
      invoice <- await (GetInvoice invoiceId)
                   (fun env => contract_getInvoice env invoiceId) ;;
      let due := raw_amount invoice in
      address <- (if signer svc then await GetAddress signer_getAddress
                  else throw "Cannot read properties of null (reading 'getAddress')") ;;
      balance <- await (BalanceOf address)
                   (fun env => pyusd_balanceOf env address) ;;
      if balance <? due
      then throw "Insufficient PYUSD balance"
      else
        allowance <- await (Allowance address contractAddress)
                       (fun env => pyusd_allowance env address contractAddress) ;;
        (if allowance <? due then
           approveTx <- await (Approve contractAddress due)
                          (fun env => pyusd_approve env contractAddress due) ;;
           await ApproveWait approve_wait ;;;
           ret tt
         else ret tt) ;;;
        gasEstimate <- await (EstimateGasPayInvoice invoiceId)
                         (fun env => estimateGas_payInvoice env invoiceId) ;;
        let gasLimit := gas_with_buffer gasEstimate in
        tx <- await (PayInvoice invoiceId (Some gasLimit))
                (fun env => contract_payInvoice env invoiceId (Some gasLimit)) ;;
        await PayWait pay_wait ;;;
        ret {| success := true; invoiceId := None;
               transactionHash := Some (hash tx); error := None |}
  | _, _ => throw "Contracts not initialized"
  end.

(** [payInvoice(invoiceId)] *)
Definition payInvoice (svc : Service) (invoiceId : Z) : M TxResult :=
  try_catch (payInvoice_try svc invoiceId)
            (fun e => ret (tx_failure e "Failed to pay invoice")).

(** The body of the [try] block of [createInvoice]. *)
Definition createInvoice_try (svc : Service) (amount : string)
  (ipfsHash : option string) : M TxResult :=
  match invoiceContract svc with
  | Some _ =>
      amountWei <- consult (fun env => parseUnits env amount 6) ;;
      let value := BigNumber_toString amountWei in
      gasEstimate <- await (EstimateGasCreateInvoice value ipfsHash)
                       (fun env => estimateGas_createInvoice env value ipfsHash) ;;
      let gasLimit := gas_with_buffer gasEstimate in
      tx <- await (CreateInvoice value ipfsHash (Some gasLimit))
              (fun env => contract_createInvoice env value ipfsHash
                            (Some gasLimit)) ;;
      receipt <- await CreateWait create_wait ;;
      newId <- lift (created_invoiceId receipt) ;;
      ret {| success := true; invoiceId := newId;
             transactionHash := Some (hash tx); error := None |}
  | None => throw "Invoice contract not initialized"
  end.

(** [createInvoice(amount, ipfsHash)] *)
Definition createInvoice (svc : Service) (amount : string)
  (ipfsHash : option string) : M TxResult :=
  try_catch (createInvoice_try svc amount ipfsHash)
            (fun e => ret (tx_failure e "Failed to create invoice")).

(** [getWalletState()]: reads only; its failures are caught inside. *)
Definition getWalletState : M unit :=
  fun _ tr => (inl tt, (tr ++ [{| call := GetWalletState; returned := true |}])%list).

End Web3Service.

(** ** The provider of [BlockchainContext.tsx] *)

Module BlockchainContext.
Import JS Gateway.

(** The fields of the provider's [walletState] that the actions test. *)
Record WalletState : Type := {
  isConnected : bool;
  isCorrectNetwork : bool
}.

(** The body of the [try] block of [createBlockchainInvoice]. *)
Definition createBlockchainInvoice_try (walletState : option WalletState)
  (svc : Service) (invoiceData : InvoiceFormData) : M TxResult :=
  match walletState with
  | Some ws =>
      if negb (isConnected ws) then throw "Wallet not connected"
      else if negb (isCorrectNetwork ws)
      then throw "Please switch to Sepolia Testnet"
      else
        ipfsResult <- await UploadInvoiceData
                        (fun env => upload_form env invoiceData) ;;
        if negb (ipfs_success ipfsResult)
        then throw (string_or (ipfs_error ipfsResult) "Failed to upload to IPFS")
        else
          result <- Web3Service.createInvoice svc (amount invoiceData)
                      (ipfsHash ipfsResult) ;;
          (if success result then Web3Service.getWalletState else ret tt) ;;;
          ret result
  | None => throw "Wallet not connected"
  end.

(** [createBlockchainInvoice(invoiceData)] *)
Definition createBlockchainInvoice (walletState : option WalletState)
  (svc : Service) (invoiceData : InvoiceFormData) : M TxResult :=
  try_catch (createBlockchainInvoice_try walletState svc invoiceData)
            (fun e => ret (tx_failure e "Failed to create blockchain invoice")).

(** The body of the [try] block of [payInvoice]. *)
Definition payInvoice_try (walletState : option WalletState) (svc : Service)
  (invoiceId : Z) : M TxResult :=
  match walletState with
  | Some ws =>
      if negb (isConnected ws) then throw "Wallet not connected"
      else if negb (isCorrectNetwork ws)
      then throw "Please switch to Sepolia Testnet"
      else
        result <- Web3Service.payInvoice svc invoiceId ;;
        (if success result then Web3Service.getWalletState else ret tt) ;;;
        ret result
  | None => throw "Wallet not connected"
  end.

(** [payInvoice(invoiceId)] *)
Definition payInvoice (walletState : option WalletState) (svc : Service)
  (invoiceId : Z) : M TxResult :=
  try_catch (payInvoice_try walletState svc invoiceId)
            (fun e => ret (tx_failure e "Failed to pay invoice")).

End BlockchainContext.

(* ================================================================== *)
(** * Wallet state synchroniser ([WalletContext.tsx], [WalletProvider]) *)
(* ================================================================== *)

Module WalletContext.

(** [interface WalletState] of [types.ts] *)
Record WalletState : Type := {
  isConnected : bool;
  address : option string;
  balance : string;
  chainId : option Z;
  network : option Networks.Network;
  isLoading : bool;
  error : option string
}.

(** The initial state, which is also the state [disconnectWallet] sets. *)
Definition disconnected : WalletState := {|
  isConnected := false;
  address := None;
  balance := "0";
  chainId := None;
  network := None;
  isLoading := false;
  error := None
|}.

(** Work scheduled with [setTimeout]. *)
Inductive Timer : Type :=
| RefreshBalance (delay : Z).

(** The provider and what it shares with the wallet extension: the React
    state, whether [window.ethereum] is defined, the provider events that
    have a listener, and the pending timers. *)
Record World : Type := {
  walletState : WalletState;
  ethereum : bool;
  listeners : list string;
  timers : list Timer
}.

Definition setWalletState (f : WalletState -> WalletState) (w : World) : World :=
  {| walletState := f (walletState w); ethereum := ethereum w;
     listeners := listeners w; timers := timers w |}.

(** [window.ethereum.removeAllListeners(name)] *)
Definition removeAllListeners (name : string) (w : World) : World :=
  {| walletState := walletState w; ethereum := ethereum w;
     listeners := filter (fun n => negb (String.eqb n name)) (listeners w);
     timers := timers w |}.

(** [window.ethereum.on(name, handler)] *)
Definition on (name : string) (w : World) : World :=
  {| walletState := walletState w; ethereum := ethereum w;
     listeners := (listeners w ++ [name])%list; timers := timers w |}.

Definition setTimeout (t : Timer) (w : World) : World :=
  {| walletState := walletState w; ethereum := ethereum w;
     listeners := listeners w; timers := (timers w ++ [t])%list |}.

(** [removeEventListeners] *)
Definition removeEventListeners (w : World) : World :=
  if negb (ethereum w) then w
  else removeAllListeners "disconnect"
         (removeAllListeners "connect"
            (removeAllListeners "chainChanged"
               (removeAllListeners "accountsChanged" w))).

(** [setupEventListeners] *)
Definition setupEventListeners (w : World) : World :=
  if negb (ethereum w) then w
  else on "disconnect"
         (on "connect"
            (on "chainChanged"
               (on "accountsChanged"
                  (removeAllListeners "chainChanged"
                     (removeAllListeners "accountsChanged" w))))).

(** [disconnectWallet] *)
Definition disconnectWallet (w : World) : World :=
  removeEventListeners (setWalletState (fun _ => disconnected) w).

(** [accounts[0] !== walletState.address] *)
Definition differs (a : string) (current : option string) : bool :=
  match current with
  | Some c => negb (String.eqb a c)
  | None => true
  end.

(** The listener of ["accountsChanged"].  [captured] is the [walletState]
    of the render in which the listener was installed, which is the one the
    closure reads; [accounts] is [None] for a null or undefined argument. *)
Definition accountsChanged (captured : WalletState)
  (accounts : option (list string)) (w : World) : World :=
  match accounts with
  | None | Some [] => disconnectWallet w
  | Some (first :: _) =>
      if differs first (address captured) then
        setTimeout (RefreshBalance 100)
          (setWalletState
             (fun prev =>
                {| isConnected := isConnected prev;
                   address := Some first;
                   balance := "0";
                   chainId := chainId prev;
                   network := network prev;
                   isLoading := isLoading prev;
                   error := error prev |}) w)
      else w
  end.

(** The listener of ["disconnect"]. *)
Definition disconnected_event (w : World) : World := disconnectWallet w.

End WalletContext.

(* ================================================================== *)
(** * Specification-side definitions *)
(* ================================================================== *)

Module Spec.
Import JS.

Fixpoint take (n : nat) (s : string) : string :=
  match n, s with
  | S k, String c r => String c (take k r)
  | _, _ => EmptyString
  end.

Fixpoint drop (n : nat) (s : string) : string :=
  match n, s with
  | S k, String _ r => drop k r
  | _, _ => s
  end.

(** A 20-byte address in hexadecimal: [0x] and 40 hexadecimal digits. *)
Definition is_hex_address (a : string) : bool :=
  String.eqb (take 2 a) "0x" && (String.length a =? 42)%nat
  && all_chars is_hex_digit (drop 2 a).

(** The value of a string of hexadecimal digits, big-endian. *)
Definition hex_value (w : string) : Z := fst (fst (scan_digits 16 w 0 0)).

(** The decoder of the round-trip property (the repository has none); it
    follows the layout the specification gives for the call data: [0x], the
    4-byte selector [a9059cbb], a 32-byte word holding the address
    left-padded with zeros, and a 32-byte word holding the amount,
    big-endian.  Anything else is rejected. *)
Definition decodeTransferCallData (calldata : string) : option (string * Z) :=
  let selector := take 8 (drop 2 calldata) in
  let addressWord := take 64 (drop 10 calldata) in
  let amountWord := drop 74 calldata in
  if (String.length calldata =? 138)%nat
     && String.eqb (take 2 calldata) "0x"
     && String.eqb selector "a9059cbb"
     && String.eqb (take 24 addressWord) (repeat_char "0" 24)
     && all_chars is_hex_digit addressWord
     && all_chars is_hex_digit amountWord
  then Some ("0x" ++ drop 24 addressWord, hex_value amountWord)
  else None.

(** An integer that a JavaScript number holds exactly: reading it as a
    number gives a value whose integer part is the integer itself. *)
Definition exactly_representable (n : Z) : bool :=
  match integer_part (Number_of_decimal false n 0) with
  | Some (false, v) => v =? n
  | _ => false
  end.

(** [toBaseUnits] as the specification words it, on the decimal amount
    [m * 10^e] ([m >= 0]): the integer [floor (m * 10^e * 10^d)]. *)
Definition toBaseUnits (m e d : Z) : Z :=
  if 0 <=? e + d then m * 10 ^ (e + d) else m / 10 ^ (- (e + d)).

(** ** Properties of a trace of external calls *)
Import Gateway.

Definition no_transaction (tr : list Step) : bool :=
  forallb (fun s => negb (is_transaction (call s))) tr.

Definition no_create_call (tr : list Step) : bool :=
  forallb (fun s => negb (is_create_call (call s))) tr.

Definition approve_issued (tr : list Step) : bool :=
  existsb (fun s => is_approve (call s)) tr.

Definition pay_issued (tr : list Step) : bool :=
  existsb (fun s => is_pay (call s)) tr.

(** Progress of an approval along a trace. *)
Inductive ApprovalPhase : Type :=
| NotRequested      (* no approval transaction so far *)
| Submitted         (* requested, its confirmation not yet returned *)
| Confirmed.        (* [wait()] returned *)

(** Scans a trace: [false] as soon as a payment transaction is submitted
    while an approval is submitted and not confirmed. *)
Fixpoint approval_precedes_payment (phase : ApprovalPhase) (tr : list Step)
  : bool :=
  match tr with
  | [] => true
  | s :: rest =>
      match call s, phase with
      | Approve _ _, _ => approval_precedes_payment Submitted rest
      | ApproveWait, Submitted =>
          approval_precedes_payment
            (if returned s then Confirmed else Submitted) rest
      | PayInvoice _ _, Submitted => false
      | _, _ => approval_precedes_payment phase rest
      end
  end.

(** The confirmation of an approval: [approveTx.wait()] that returned. *)
Definition wait_ok : Step := {| call := ApproveWait; returned := true |}.

(** A call that returned. *)
Definition ok (c : Call) : Step := {| call := c; returned := true |}.

(** The approval of [due] to [contract] and its confirmation, when the
    allowance is strictly below [due]; nothing otherwise. *)
Definition approval_steps (contract : string) (allowance due : Z) : list Step :=
  if allowance <? due then [ok (Approve contract due); wait_ok] else [].

(** The calls of a payment up to the submission [pay] of the payment
    transaction: the reads of the invoice, of the caller's address, of its
    balance and of its allowance, the approval steps that this allowance
    asks for, the gas estimate of the implementations that ask for one, and
    [pay]. *)
Definition payment_steps (caller contract : string) (id allowance due : Z)
  (estimate : list Step) (pay : Step) : list Step :=
  ([ok (GetInvoice id); ok GetAddress; ok (BalanceOf caller);
    ok (Allowance caller contract)]
   ++ approval_steps contract allowance due ++ estimate ++ [pay])%list.

(** Between an approval transaction and any later payment transaction of
    the trace, the confirmation of the approval has returned. *)
Definition approvals_confirmed (tr : list Step) : Prop :=
  forall p1 ap p2 pay post,
    tr = (p1 ++ ap :: p2 ++ pay :: post)%list ->
    is_approve (call ap) = true -> is_pay (call pay) = true ->
    In wait_ok p2.

(** Every payment transaction of the trace comes after a confirmation. *)
Definition payments_after_confirmation (tr : list Step) : Prop :=
  forall p2 pay post,
    tr = (p2 ++ pay :: post)%list -> is_pay (call pay) = true ->
    In wait_ok p2.

(** The metadata upload failed: the call threw, or it resolved to an object
    whose [success] is false. *)
Definition upload_failed (r : Result IPFSResult) : Prop :=
  match r with
  | inl res => ipfs_success res = false
  | inr _ => True
  end.

(** A method resolved to an error object and sent no transaction. *)
Definition rejected_locally (out : Result TxResult * list Step) : Prop :=
  exists res msg,
    fst out = inl res /\ Gateway.success res = false /\
    Gateway.error res = Some msg /\
    no_transaction (snd out) = true.

(** The object [handleGenerateQR] keeps from a fallback builder that
    succeeded: its image and the text [link]. *)
Definition kept (r : QRCodeService.QRResult) (link : option string)
  : QRCodeService.QRResult :=
  {| QRCodeService.success := true;
     QRCodeService.qrCodeDataUrl := QRCodeService.qrCodeDataUrl r;
     QRCodeService.uri := None;
     QRCodeService.deepLink := link;
     QRCodeService.data := None;
     QRCodeService.error := None |}.

End Spec.

(* ================================================================== *)
(** * Concrete inputs and environments *)
(* ================================================================== *)

Module Examples.
Import JS Gateway.

(** The recipient and the URI of the deep-link scenario. *)
Definition recipient : string := "0x3BEa30431539669E94B2E79149654586F7746A16".

Definition token : string := "0xCaC524BcA292aaade2DF8A05cC58F0a65B1B3bB9".

Definition scenario_uri : string :=
  "ethereum:0xCaC524BcA292aaade2DF8A05cC58F0a65B1B3bB9@11155111/transfer?address=0x3BEa30431539669E94B2E79149654586F7746A16&uint256=100500000".

(** A QR encoder that accepts every text. *)
Definition toDataURL_ok (text : string) (o : QRCodeService.QROptions)
  : Result string :=
  inl ("data:image/png;base64," ++ text).

(** A QR encoder that rejects every text: web links with a message, other
    texts with a value that has no message. *)
Definition toDataURL_rejects (text : string) (o : QRCodeService.QROptions)
  : Result string :=
  if prefix "https://" text
  then inr (Error "The amount of data is too big to be stored in a QR Code")
  else inr {| message := None |}.

(** A stand-in for [JSON.stringify]. *)
Definition stringify (p : QRCodeService.PaymentQRData) : string :=
  "value=" ++ QRCodeService.pd_value p.

Definition invoice : Types.Invoice := {|
  Types.id := 123;
  Types.creator := recipient;
  Types.payer := "0x0000000000000000000000000000000000000000";
  Types.amount := "100500000";
  Types.status := Types.UNPAID;
  Types.ipfsHash := "QmT5NvUtoM5nWFfrQdVrFtvGfKFmG7AHE8P34isapyhCxX";
  Types.createdAt := 1730000000;
  Types.paidAt := 0;
  Types.exists_ := true
|}.

Definition service : Service := {|
  invoiceContract := Some "0x66bCb1F1cdf4f0338E79E3685CEe1144954B5a2b";
  pyusdContract := Some token;
  signer := true
|}.

Definition payer_address : string := "0x70997970C51812dc3A010C7d01b50e0d17dc79C8".

Definition raw_invoice (status : Z) : RawInvoice := {|
  raw_id := 7;
  raw_creator := recipient;
  raw_payer := "0x0000000000000000000000000000000000000000";
  raw_amount := 100500000;
  raw_status := status;
  raw_ipfsHash := "QmT5NvUtoM5nWFfrQdVrFtvGfKFmG7AHE8P34isapyhCxX";
  raw_createdAt := 1730000000;
  raw_paidAt := 0;
  raw_exists := true
|}.

Definition pinned : IPFSResult := {|
  ipfs_success := true;
  ipfsHash := Some "QmT5NvUtoM5nWFfrQdVrFtvGfKFmG7AHE8P34isapyhCxX";
  pinataUrl := None;
  publicUrl := None;
  ipfs_error := None
|}.

Definition not_pinned : IPFSResult := {|
  ipfs_success := false;
  ipfsHash := None;
  pinataUrl := None;
  publicUrl := None;
  ipfs_error := Some "Pinata API error: 401"
|}.

(** A chain on which invoice 7 has the given status; the payer holds
    [balance] base units and has approved [allowance] of them; the contract
    reverts a payment of an invoice that is not unpaid; the metadata store
    answers [upload]. *)
Definition chain (status balance allowance : Z) (upload : IPFSResult) : Env := {|
  contract_getInvoice := fun _ => inl (raw_invoice status);
  signer_getAddress := inl payer_address;
  pyusd_balanceOf := fun _ => inl balance;
  pyusd_allowance := fun _ _ => inl allowance;
  pyusd_approve := fun _ _ => inl {| hash := "0xa1" |};
  approve_wait := inl {| events := None |};
  estimateGas_payInvoice :=
    fun _ => if status =? Types.UNPAID then inl 80000
             else inr (Error "execution reverted: Invoice is not unpaid");
  contract_payInvoice :=
    fun _ _ => if status =? Types.UNPAID then inl {| hash := "0xb2" |}
               else inr (Error "execution reverted: Invoice is not unpaid");
  pay_wait := inl {| events := None |};
  upload_typed := fun _ => inl upload;
  upload_form := fun _ => inl upload;
  parseUnits := fun _ _ => inl 2010000;
  estimateGas_createInvoice := fun _ _ => inl 120000;
  contract_createInvoice := fun _ _ _ => inl {| hash := "0xc3" |};
  create_wait :=
    inl {| events := Some [ {| event := Some "InvoiceCreated";
                               arg_invoiceId := Some 8 |} ] |}
|}.

Definition draft {A : Type} (a : A) : InvoiceDraft A := {|
  amount := a;
  companyName := "Acme";
  companyAddress := "1 Main Street";
  clientName := "Globex";
  clientAddress := "2 Side Street";
  description := None;
  items := [];
  notes := None;
  terms := None;
  dueDate := None
|}.

Definition connected : BlockchainContext.WalletState :=
  {| BlockchainContext.isConnected := true;
     BlockchainContext.isCorrectNetwork := true |}.

(** A connected wallet with its four listeners installed. *)
Definition wallet : WalletContext.World := {|
  WalletContext.walletState :=
    {| WalletContext.isConnected := true;
       WalletContext.address := Some payer_address;
       WalletContext.balance := "250.5";
       WalletContext.chainId := Some 11155111;
       WalletContext.network := Some Networks.sepolia;
       WalletContext.isLoading := false;
       WalletContext.error := None |};
  WalletContext.ethereum := true;
  WalletContext.listeners :=
    ["accountsChanged"; "chainChanged"; "connect"; "disconnect"];
  WalletContext.timers := []
|}.

End Examples.

(* ================================================================== *)
(** * More JavaScript primitives: regular expressions and string methods *)
(* ================================================================== *)

Module RegExp.
Import JS.

(** The patterns the sources use, without flags: literal characters and
    character classes, concatenation, the greedy quantifiers [?], [*], [+]
    and [{n}], capture groups and the end-of-input assertion [$]. *)
Inductive Pattern : Type :=
| Empty
| Char (class : ascii -> bool)
| Seq (r1 r2 : Pattern)
| Opt (r : Pattern)
| Star (r : Pattern)
| Plus (r : Pattern)
| Times (n : nat) (r : Pattern)
| Group (index : nat) (r : Pattern)
| EndOfInput.

(** The captures of a match; an index that did not take part is [None]
    ([undefined]). *)
Definition Captures : Type := nat -> option string.

Definition no_captures : Captures := fun _ => None.

Definition capture (i : nat) (text : string) (c : Captures) : Captures :=
  fun j => if Nat.eqb j i then Some text else c j.

(** What is left to match after a pattern: the rest of the input and the
    captures so far. *)
Definition Continuation : Type := string -> Captures -> option Captures.

(** The part of [s] in front of its suffix [rest]. *)
Definition consumed (s rest : string) : string :=
  substring 0 (String.length s - String.length rest) s.

(** A continuation that is entered only when the iteration made progress:
    an iteration of a quantifier that matched the empty string is rejected. *)
Definition progress (s : string) (k : Continuation) : Continuation :=
  fun s' c' =>
    if (String.length s' <? String.length s)%nat then k s' c' else None.

(** Greedy repetition of [step]: one more iteration is tried first, and
    the continuation only when that fails. *)
Fixpoint repeat_greedy (step : string -> Captures -> Continuation -> option Captures)
  (fuel : nat) (s : string) (c : Captures) (k : Continuation)
  : option Captures :=
  match fuel with
  | O => k s c
  | S f =>
      match step s c (progress s (fun s' c' => repeat_greedy step f s' c' k)) with
      | Some out => Some out
      | None => k s c
      end
  end.

(** The backtracking matcher of ECMAScript, in continuation-passing style:
    [exec_from r s c k] matches [r] at the front of [s] and hands the rest to
    [k]; alternatives are tried in priority order and the first overall
    success wins. *)
Fixpoint exec_from (r : Pattern) (s : string) (c : Captures) (k : Continuation)
  {struct r} : option Captures :=
  match r with
  | Empty => k s c
  | Char class =>
      match s with
      | String a rest => if class a then k rest c else None
      | EmptyString => None
      end
  | Seq r1 r2 => exec_from r1 s c (fun s' c' => exec_from r2 s' c' k)
  | Opt r1 =>
      match exec_from r1 s c (progress s k) with
      | Some out => Some out
      | None => k s c
      end
  | Star r1 => repeat_greedy (exec_from r1) (String.length s) s c k
  | Plus r1 =>
      exec_from r1 s c
        (fun s' c' => repeat_greedy (exec_from r1) (String.length s') s' c' k)
  | Times n r1 =>
      (fix times (n : nat) (s : string) (c : Captures) (k : Continuation)
         : option Captures :=
         match n with
         | O => k s c
         | S m => exec_from r1 s c (fun s' c' => times m s' c' k)
         end) n s c k
  | Group i r1 =>
      exec_from r1 s c (fun s' c' => k s' (capture i (consumed s s') c'))
  | EndOfInput =>
      match s with
      | EmptyString => k s c
      | String _ _ => None
      end
  end.

(** A pattern that starts with [^], matched against the whole input (the
    search of [match] and [test] can only succeed at index 0 then). *)
Definition exec (r : Pattern) (input : string) : option Captures :=
  exec_from r input no_captures (fun _ c => Some c).

(** [r.test(input)] *)
Definition test (r : Pattern) (input : string) : bool :=
  match exec r input with
  | Some _ => true
  | None => false
  end.

(** A literal string. *)
Fixpoint literal (w : string) : Pattern :=
  match w with
  | String a rest => Seq (Char (Ascii.eqb a)) (literal rest)
  | EmptyString => Empty
  end.

(** [\d] *)
Definition digit (a : ascii) : bool :=
  (48 <=? code a) && (code a <=? 57).

(** [\w] *)
Definition word (a : ascii) : bool :=
  digit a || ((65 <=? code a) && (code a <=? 90))
  || ((97 <=? code a) && (code a <=? 122)) || (code a =? 95).

(** [.]: any character but a line terminator (LF, CR in the ASCII range). *)
Definition dot (a : ascii) : bool :=
  negb ((code a =? 10) || (code a =? 13)).

End RegExp.

(* ================================================================== *)
(** * Checks on QR content ([qrCodeService.ts], the static methods of
      [QRCodeService]) *)
(* ================================================================== *)

Module QRCodeChecks.
Import JS RegExp.

(** The [data] of an EIP-681 content: the capture groups of the match. *)
Record Eip681 : Type := {
  address : option string;
  chainId : option Number;
  functionName : option string;
  params : option string
}.

Inductive Payload : Type :=
| UrlData (url : string)
| Eip681Data (d : Eip681).

(** What [validatePaymentQR] returns; an absent property is [None]. *)
Record Validation : Type := {
  isValid : bool;
  type : option string;
  data : option Payload
}.

Definition invalid : Validation :=
  {| isValid := false; type := None; data := None |}.

(** [[^@\/]] *)
Definition not_at_or_slash (a : ascii) : bool :=
  negb (Ascii.eqb a "@" || Ascii.eqb a "/").

(** The pattern of [validatePaymentQR]: [^ethereum:], then group 1
    [[^@\/]+], then [@?], then the optional groups 2 [\d+], 3 [\/\w+] and
    4 (a question mark and any characters up to the end of the line), then
    [$]. *)
Definition eip681_pattern : Pattern :=
  Seq (literal "ethereum:")
 (Seq (Group 1 (Plus (Char not_at_or_slash)))
 (Seq (Opt (Char (Ascii.eqb "@")))
 (Seq (Opt (Group 2 (Plus (Char digit))))
 (Seq (Opt (Group 3 (Seq (Char (Ascii.eqb "/")) (Plus (Char word)))))
 (Seq (Opt (Group 4 (Seq (Char (Ascii.eqb "?")) (Star (Char dot)))))
      EndOfInput))))).

(** The object built from a match:
    [chainId ? parseInt(chainId) : undefined] and
    [functionName?.replace('/', '')]. *)
Definition eip681_data (m : Captures) : Eip681 :=
  {| address := m 1%nat;
     chainId :=
       match m 2%nat with
       | Some (String a r) => Some (parseInt (String a r))
       | _ => None
       end;
     functionName := option_map (replace "/" "") (m 3%nat);
     params := m 4%nat |}.

(** [QRCodeService.validatePaymentQR(qrContent)] *)
Definition validatePaymentQR (qrContent : string) : Validation :=
  if prefix "https://metamask.app.link/" qrContent then
    {| isValid := true; type := Some "metamask-deeplink";
       data := Some (UrlData qrContent) |}
  else
    match (if prefix "ethereum:" qrContent
           then exec eip681_pattern qrContent else None) with
    | Some m =>
        {| isValid := true; type := Some "eip-681";
           data := Some (Eip681Data (eip681_data m)) |}
    | None =>
        if prefix "http://" qrContent || prefix "https://" qrContent then
          {| isValid := true; type := Some "url";
             data := Some (UrlData qrContent) |}
        else invalid
    end.

(** [QRCodeService.getRecommendedSize(content)] *)
Definition getRecommendedSize (content : string) : Z :=
  let length := Z.of_nat (String.length content) in
  if length <? 50 then 128
  else if length <? 100 then 192
  else if length <? 200 then 256
  else if length <? 500 then 320
  else 384.

End QRCodeChecks.

(* ================================================================== *)
(** * Shapes of texts: what the printers emit and the patterns accept *)
(* ================================================================== *)

Module Shapes.
Import JS RegExp.

(** The characters [Number.prototype.toString] prints: digits, the point,
    the exponent mark and signs, and the letters of [NaN] and [Infinity]. *)
Definition numeral_char (a : ascii) : bool :=
  digit a
  || existsb (Ascii.eqb a)
       ["."; "e"; "+"; "-"; "N"; "a"; "I"; "n"; "f"; "i"; "t"; "y"]%char.

(** The characters a serialized query is made of: those the
    form-urlencoded serializer leaves or produces, and the separators. *)
Definition urlencoded_char (a : ascii) : bool :=
  word a || existsb (Ascii.eqb a) ["*"; "-"; "."; "+"; "%"; "="; "&"]%char.

(** An optional suffix introduced by the separator [sep]. *)
Definition optional_part (sep : string) (o : option string) : string :=
  match o with
  | Some w => sep ++ w
  | None => ""
  end.

(** The input stops the class [p]: it is empty or starts outside [p]. *)
Definition stops (p : ascii -> bool) (s : string) : Prop :=
  match s with
  | String a _ => p a = false
  | EmptyString => True
  end.

End Shapes.

(* ================================================================== *)
(** * More JavaScript primitives: string positions, [trim], [parseInt]
      with a radix, comparisons of numbers *)
(* ================================================================== *)

Module Builtins.
Import JS.

(** [s.charAt(pos)]: the position is truncated to an integer ([NaN] counts
    as 0); outside the string the result is the empty string. *)
Definition charAt (s : string) (pos : Number) : string :=
  let at_index (z : Z) : string :=
    if z <? 0 then ""
    else match String.get (Z.to_nat z) s with
         | Some a => String a EmptyString
         | None => ""
         end in
  match pos with
  | S754_nan => at_index 0
  | S754_infinity _ => ""
  | _ =>
      match integer_part pos with
      | Some (neg, v) => at_index (if neg then - v else v)
      | None => ""
      end
  end.

(** White space removed at the end. *)
Fixpoint trim_end (s : string) : string :=
  match s with
  | String c r =>
      match trim_end r with
      | EmptyString => if is_whitespace c then EmptyString else String c EmptyString
      | r' => String c r'
      end
  | EmptyString => EmptyString
  end.

(** [s.trim()] *)
Definition trim (s : string) : string := trim_end (trim_start s).

(** [parseInt(input, 16)]: white space and a sign are skipped, a prefix
    [0x] or [0X] is dropped, and the longest run of hexadecimal digits is
    read; [NaN] when there is none. *)
Definition parseInt16 (input : string) : Number :=
  let '(neg, s1) := scan_sign (trim_start input) in
  let s2 :=
    if prefix "0x" s1 || prefix "0X" s1
    then substring 2 (String.length s1 - 2) s1
    else s1 in
  let '(v, n, _) := scan_digits 16 s2 0 0 in
  match n with
  | O => NaN
  | _ => Number_of_decimal neg v 0
  end.

(** [x < 0] *)
Definition Number_lt_zero (x : Number) : bool := SFltb x (S754_zero false).

(** [x > 0] *)
Definition Number_gt_zero (x : Number) : bool := SFltb (S754_zero false) x.

(** The number holding the integer [z], printed by a template literal or
    by [toString()]. *)
Definition integer_text (z : Z) : string := Number_toString (Number_of_Z z).

End Builtins.

(* ================================================================== *)
(** * Payment links of the invoice card
      ([qrcode.ts], first module: the earlier class [QRCodeService]) *)
(* ================================================================== *)

Module PaymentLinks.
Import JS QRCodeService Builtins.

(** [interface QRCodeData] of [types.ts]; the two numbers hold integers. *)
Record QRCodeData : Type := {
  invoiceId : Z;
  contractAddress : string;
  amount : string;
  chainId : Z;
  recipient : string
}.

(** [createMetaMaskDeepLink(qrData)] *)
Definition createMetaMaskDeepLink (qrData : QRCodeData) : string :=
  "ethereum:" ++ contractAddress qrData ++ "@"
  ++ integer_text (chainId qrData) ++ "/payInvoice?uint256="
  ++ integer_text (invoiceId qrData).

(** [encodePayInvoiceData(invoiceId)] *)
Definition encodePayInvoiceData (invoiceId : Z) : string :=
  let functionSignature := "0x8b5d1d1a" in
  let paddedInvoiceId :=
    padStart (Number_toString16 (Number_of_Z invoiceId)) 64 "0" in
  functionSignature ++ paddedInvoiceId.

(** [createMetaMaskPaymentURL(qrData)] *)
Definition createMetaMaskPaymentURL (qrData : QRCodeData) : string :=
  let baseUrl := "https://metamask.app.link/send/" in
  let params :=
    [("address", contractAddress qrData);
     ("chainId", integer_text (chainId qrData));
     ("data", encodePayInvoiceData (invoiceId qrData))] in
  baseUrl ++ "?" ++ URLSearchParams_toString params.

End PaymentLinks.

(* ================================================================== *)
(** * More actions of the provider of [BlockchainContext.tsx] *)
(* ================================================================== *)

Module BlockchainProvider.
Import JS QRCodeService.

Section Encoder.

Variable toDataURL : string -> QROptions -> Result string.

(** [generatePaymentQR(invoiceId, amount)]: the builder it calls catches
    its own failures, so the [catch] clause here is never entered. *)
Definition generatePaymentQR (invoiceId : Z) (amount : string) : QRResult :=
  let contractAddress := "0x0000000000000000000000000000000000000000" in
  QRCodeService.generatePaymentQR toDataURL invoiceId amount contractAddress
    noOptions.

End Encoder.

End BlockchainProvider.

(** ** Shapes of the encoded links *)

Module Shapes2.
Import JS.

(** A character the form-urlencoded serializer leaves as it is. *)
Definition unreserved (a : ascii) : bool :=
  String.eqb (urlencode_char a) (String a EmptyString).

(** The part of the mobile deep link that does not depend on the invoice:
    the dapp host and the Sepolia network description. *)
Definition mobileDeepLink_head : string :=
  "https://metamask.app.link/dapp/localhost:5174/?chainId=0xaa36a7&chainName=Sepolia+Testnet&nativeCurrencyName=ETH&nativeCurrencySymbol=ETH&nativeCurrencyDecimals=18&rpcUrl=https%3A%2F%2Fsepolia.infura.io%2Fv3%2F&blockExplorerUrl=https%3A%2F%2Fsepolia.etherscan.io&to=".

End Shapes2.

(* ================================================================== *)
(** * Metadata store ([ipfsService.ts], class [IPFSService]) *)
(* ================================================================== *)

Module IPFSService.
Import JS RegExp Builtins Gateway.

Definition PINATA_GATEWAY : string := "https://gateway.pinata.cloud/ipfs/".
Definition PUBLIC_GATEWAY : string := "https://ipfs.io/ipfs/".

(** The alphabet of [generateMockIPFSHash]. *)
Definition chars : string :=
  "ABCDEFGHIJKLMNOPQRSTUVWXYZabcdefghijklmnopqrstuvwxyz0123456789".

(** [chars.charAt(Math.floor(x * chars.length))] for the value [x] of one
    call of [Math.random()]. *)
Definition drawn (x : Number) : string :=
  charAt chars
    (Math_floor (Number_mul x (Number_of_Z (Z.of_nat (String.length chars))))).

(** The loop of [generateMockIPFSHash]: [n] more rounds, the next one
    being round [i]; [random i] is what [Math.random()] returns there. *)
Fixpoint mock_rounds (random : nat -> Number) (i n : nat) (result : string)
  : string :=
  match n with
  | O => result
  | S m => mock_rounds random (S i) m (result ++ drawn (random i))
  end.

(** [generateMockIPFSHash()] *)
Definition generateMockIPFSHash (random : nat -> Number) : string :=
  mock_rounds random 0 44 "Qm".

(** [[1-9A-HJ-NP-Za-km-z]] *)
Definition base58 (a : ascii) : bool :=
  let n := code a in
  ((49 <=? n) && (n <=? 57))
  || ((65 <=? n) && (n <=? 72)) || ((74 <=? n) && (n <=? 78))
  || ((80 <=? n) && (n <=? 90))
  || ((97 <=? n) && (n <=? 107)) || ((109 <=? n) && (n <=? 122)).

(** The pattern of [isValidIPFSHash]: [^Qm], 44 characters of the class
    above, [$]. *)
Definition ipfs_hash_pattern : Pattern :=
  Seq (literal "Qm") (Seq (Times 44 (Char base58)) EndOfInput).

(** [IPFSService.isValidIPFSHash(hash)] *)
Definition isValidIPFSHash (hash : string) : bool :=
  test ipfs_hash_pattern hash.

(** [IPFSService.getIPFSUrl(hash, usePublicGateway)] *)
Definition getIPFSUrl (hash : string) (usePublicGateway : bool) : string :=
  let gateway :=
    if usePublicGateway then "https://ipfs.io/ipfs/"
    else "https://gateway.pinata.cloud/ipfs/" in
  gateway ++ hash.

(** An item of the invoice content. *)
Record Item : Type := {
  item_description : string;
  item_quantity : Number;
  item_price : Number;
  item_total : Number
}.

(** The properties [formatInvoiceForIPFS] reads from its argument, an
    object; a property that is absent is [None]. *)
Record InvoiceInput : Type := {
  in_amount : option string;
  in_creator : option string;
  in_description : option string;
  in_dueDate : option string;
  in_companyName : option string;
  in_companyAddress : option string;
  in_clientName : option string;
  in_clientAddress : option string;
  in_items : option (list Item);
  in_notes : option string;
  in_terms : option string
}.

(** [interface IPFSInvoiceData], flattened: the metadata, the invoice with
    its content, and the system part. *)
Record IPFSInvoiceData : Type := {
  metadata_version : string;
  metadata_type : string;
  metadata_createdAt : string;
  metadata_network : string;
  metadata_contract : string;
  invoice_amount : string;
  invoice_currency : string;
  invoice_creator : string;
  invoice_description : string;
  invoice_dueDate : option string;
  content_companyName : string;
  content_companyAddress : string;
  content_clientName : string;
  content_clientAddress : string;
  content_items : list Item;
  content_notes : string;
  content_terms : string;
  system_appVersion : string;
  system_platform : string;
  system_uploadedAt : string
}.

(** [formatInvoiceForIPFS(invoiceData)]; [timestamp] is
    [new Date().toISOString()]. *)
Definition formatInvoiceForIPFS (timestamp : string)
  (invoiceData : InvoiceInput) : IPFSInvoiceData :=
  {| metadata_version := "1.0";
     metadata_type := "blockchain-invoice";
     metadata_createdAt := timestamp;
     metadata_network := "sepolia";
     metadata_contract := "InvoiceManager";
     invoice_amount := string_or (in_amount invoiceData) "0";
     invoice_currency := "PYUSD";
     invoice_creator := string_or (in_creator invoiceData) "";
     invoice_description := string_or (in_description invoiceData) "";
     invoice_dueDate :=
       match in_dueDate invoiceData with
       | Some (String c r) => Some (String c r)
       | _ => None
       end;
     content_companyName := string_or (in_companyName invoiceData) "";
     content_companyAddress := string_or (in_companyAddress invoiceData) "";
     content_clientName := string_or (in_clientName invoiceData) "";
     content_clientAddress := string_or (in_clientAddress invoiceData) "";
     content_items :=
       match in_items invoiceData with
       | Some l => l
       | None => []
       end;
     content_notes := string_or (in_notes invoiceData) "";
     content_terms := string_or (in_terms invoiceData) "";
     system_appVersion := "1.0.0";
     system_platform := "invoice-blockchain-app";
     system_uploadedAt := timestamp |}.

(** [uploadInvoiceData(invoiceData)] for an object, with what it writes to
    the console: the formatted data and the mock hash.  Nothing in the
    [try] block throws then. *)
Definition uploadInvoiceData_logged (timestamp : string)
  (random : nat -> Number) (invoiceData : InvoiceInput)
  : IPFSResult * (IPFSInvoiceData * string) :=
  let formattedData := formatInvoiceForIPFS timestamp invoiceData in
  let mockHash := generateMockIPFSHash random in
  ({| ipfs_success := true;
      ipfsHash := Some mockHash;
      pinataUrl := Some (PINATA_GATEWAY ++ mockHash);
      publicUrl := Some (PUBLIC_GATEWAY ++ mockHash);
      ipfs_error := None |},
   (formattedData, mockHash)).

(** [uploadInvoiceData(invoiceData)]: the object it resolves to. *)
Definition uploadInvoiceData (timestamp : string) (random : nat -> Number)
  (invoiceData : InvoiceInput) : IPFSResult :=
  fst (uploadInvoiceData_logged timestamp random invoiceData).

(** The empty object. *)
Definition no_input : InvoiceInput :=
  {| in_amount := None; in_creator := None; in_description := None;
     in_dueDate := None; in_companyName := None; in_companyAddress := None;
     in_clientName := None; in_clientAddress := None; in_items := None;
     in_notes := None; in_terms := None |}.

(** What [fetch] resolves to: the fields the method reads; [json] is the
    outcome of [response.json()]. *)
Record Response (Data : Type) : Type := {
  ok : bool;
  status : Z;
  json : Result Data
}.
Arguments ok {Data}.
Arguments status {Data}.
Arguments json {Data}.

(** What [retrieveFromIPFS] resolves to. *)
Record Retrieval (Data : Type) : Type := {
  success : bool;
  data : option Data;
  error : option string
}.
Arguments success {Data}.
Arguments data {Data}.
Arguments error {Data}.

Section Retrieve.

Variable Data : Type.

(** [fetch(url)]: a response, or a rejection (the network failed). *)
Variable fetch : string -> Result (Response Data).

Definition retrieved (d : Data) : Retrieval Data :=
  {| success := true; data := Some d; error := None |}.

Definition not_retrieved (e : JsError) : Retrieval Data :=
  {| success := false; data := None;
     error := Some (message_or e "Failed to retrieve from IPFS") |}.

(** [retrieveFromIPFS(ipfsHash)], with the URLs it fetched, in order. *)
Definition retrieveFromIPFS (ipfsHash : string)
  : Retrieval Data * list string :=
  let first := PINATA_GATEWAY ++ ipfsHash in
  let second := PUBLIC_GATEWAY ++ ipfsHash in
  let '(response, fetched) :=
    match fetch first with
    | inl r => (inl r, [first])
    | inr _ => (fetch second, [first; second])
    end in
  match response with
  | inl r =>
      if negb (ok r)
      then (not_retrieved
              (Error ("HTTP error! status: " ++ integer_text (status r))),
            fetched)
      else match json r with
           | inl d => (retrieved d, fetched)
           | inr e => (not_retrieved e, fetched)
           end
  | inr e => (not_retrieved e, fetched)
  end.

End Retrieve.

End IPFSService.

(* ================================================================== *)
(** * Wallet detection ([walletDetectionService.ts],
      class [WalletDetectionService]) *)
(* ================================================================== *)

Module WalletDetectionService.
Import JS Builtins.

(** An injected wallet object: the flags the service reads, and what it
    answers to the two requests of a connection. *)
Record Provider : Type := {
  isMetaMask : bool;
  isCoinbaseWallet : bool;
  isTrust : bool;
  isRainbow : bool;
  eth_requestAccounts : Result (list string);
  eth_chainId : Result string
}.

(** The properties of [window] the service reads; an absent one is [None]. *)
Record Window : Type := {
  ethereum : option Provider;
  coinbaseWalletExtension : option Provider;
  trustwallet : option Provider;
  rainbow : option Provider
}.

(** [interface WalletProvider] (the icon, a display glyph, is left out). *)
Record WalletProvider : Type := {
  id : string;
  name : string;
  installed : bool;
  description : string;
  downloadUrl : option string;
  provider : option Provider
}.

(** [window.ethereum?.flag] as a condition. *)
Definition flagged (flag : Provider -> bool) (o : option Provider) : bool :=
  match o with
  | Some p => flag p
  | None => false
  end.

Definition present (o : option Provider) : bool :=
  match o with
  | Some _ => true
  | None => false
  end.

Definition isMetaMaskInstalled (window : Window) : bool :=
  flagged isMetaMask (ethereum window).

Definition isCoinbaseWalletInstalled (window : Window) : bool :=
  present (coinbaseWalletExtension window)
  || flagged isCoinbaseWallet (ethereum window).

Definition isTrustWalletInstalled (window : Window) : bool :=
  present (trustwallet window) || flagged isTrust (ethereum window).

Definition isRainbowInstalled (window : Window) : bool :=
  present (rainbow window) || flagged isRainbow (ethereum window).

(** [initializeWalletProviders()]: the list it stores in
    [this.availableWallets]. *)
Definition initializeWalletProviders (window : Window) : list WalletProvider :=
  [ {| id := "metamask"; name := "MetaMask";
       installed := isMetaMaskInstalled window;
       description := "Most popular Ethereum wallet";
       downloadUrl := Some "https://metamask.io/download/";
       provider := ethereum window |};
    {| id := "walletconnect"; name := "WalletConnect";
       installed := true;
       description := "Connect to mobile wallets";
       downloadUrl := None;
       provider := None |};
    {| id := "coinbase"; name := "Coinbase Wallet";
       installed := isCoinbaseWalletInstalled window;
       description := "Coinbase self-custody wallet";
       downloadUrl := Some "https://www.coinbase.com/wallet";
       provider := coinbaseWalletExtension window |};
    {| id := "trust"; name := "Trust Wallet";
       installed := isTrustWalletInstalled window;
       description := "Multi-chain mobile wallet";
       downloadUrl := Some "https://trustwallet.com/";
       provider := trustwallet window |};
    {| id := "rainbow"; name := "Rainbow";
       installed := isRainbowInstalled window;
       description := "Fun, simple, and secure";
       downloadUrl := Some "https://rainbow.me/";
       provider := rainbow window |} ].

(** [getAvailableWallets()]: the list is rebuilt and stored. *)
Definition getAvailableWallets (window : Window) : list WalletProvider :=
  initializeWalletProviders window.

(** [getInstalledWallets()] *)
Definition getInstalledWallets (window : Window) : list WalletProvider :=
  filter installed (getAvailableWallets window).

(** [getWalletById(id)], on the stored list. *)
Definition getWalletById (availableWallets : list WalletProvider)
  (walletId : string) : option WalletProvider :=
  find (fun wallet => String.eqb (id wallet) walletId) availableWallets.

(** What [connectWallet] resolves to; an absent property is [None]. *)
Record Connection : Type := {
  success : bool;
  accounts : option (list string);
  chainId : option Number;
  error : option string
}.

(** What a connection leaves behind: the object it resolves to (or the
    value thrown), the requests sent to a wallet, in order, and the names
    of the events of [window.ethereum] that have a listener. *)
Record Run : Type := {
  outcome : Result Connection;
  requests : list string;
  listening : list string
}.

Definition thrown (msg : string) (listeners : list string) : Run :=
  {| outcome := inr (Error msg); requests := []; listening := listeners |}.

(** The two requests of a connection, sent to [p]. *)
Definition request_connection (p : Provider) (listeners : list string) : Run :=
  match eth_requestAccounts p with
  | inr e =>
      {| outcome := inr e; requests := ["eth_requestAccounts"];
         listening := listeners |}
  | inl accounts =>
      match eth_chainId p with
      | inr e =>
          {| outcome := inr e;
             requests := ["eth_requestAccounts"; "eth_chainId"];
             listening := listeners |}
      | inl chainId =>
          {| outcome :=
               inl {| success := true; accounts := Some accounts;
                      chainId := Some (parseInt16 chainId); error := None |};
             requests := ["eth_requestAccounts"; "eth_chainId"];
             listening := listeners |}
      end
  end.

(** [setupAccountChangeListener()], on the listeners of [window.ethereum]. *)
Definition setupAccountChangeListener (listeners : list string) : list string :=
  (filter (fun n => negb (String.eqb n "chainChanged"))
     (filter (fun n => negb (String.eqb n "accountsChanged")) listeners)
   ++ ["accountsChanged"; "chainChanged"])%list.

(** [connectMetaMask()] *)
Definition connectMetaMask (window : Window) (listeners : list string) : Run :=
  match ethereum window with
  | Some p =>
      if negb (isMetaMask p) then thrown "MetaMask is not installed" listeners
      else
        let r := request_connection p listeners in
        match outcome r with
        | inl _ =>
            {| outcome := outcome r; requests := requests r;
               listening := setupAccountChangeListener listeners |}
        | inr _ => r
        end
  | None => thrown "MetaMask is not installed" listeners
  end.

(** [connectCoinbaseWallet()] *)
Definition connectCoinbaseWallet (window : Window) (listeners : list string)
  : Run :=
  let provider :=
    match coinbaseWalletExtension window with
    | Some p => Some p
    | None => ethereum window
    end in
  match provider with
  | Some p =>
      if negb (isCoinbaseWallet p)
      then thrown "Coinbase Wallet is not installed" listeners
      else request_connection p listeners
  | None => thrown "Coinbase Wallet is not installed" listeners
  end.

(** [connectWalletConnect()] *)
Definition connectWalletConnect (listeners : list string) : Run :=
  thrown "WalletConnect integration not yet implemented" listeners.

(** [connectGenericWallet(wallet)] *)
Definition connectGenericWallet (wallet : WalletProvider)
  (listeners : list string) : Run :=
  match provider wallet with
  | Some p => request_connection p listeners
  | None => thrown (name wallet ++ " provider not available") listeners
  end.

(** The body of the [try] block of [connectWallet]. *)
Definition connectWallet_try (availableWallets : list WalletProvider)
  (window : Window) (listeners : list string) (walletId : string) : Run :=
  match getWalletById availableWallets walletId with
  | None => thrown ("Wallet " ++ walletId ++ " not found") listeners
  | Some wallet =>
      if negb (installed wallet)
      then thrown (name wallet ++ " is not installed") listeners
      else if String.eqb walletId "metamask"
      then connectMetaMask window listeners
      else if String.eqb walletId "coinbase"
      then connectCoinbaseWallet window listeners
      else if String.eqb walletId "walletconnect"
      then connectWalletConnect listeners
      else connectGenericWallet wallet listeners
  end.

(** [connectWallet(walletId)]: [availableWallets] is the stored list, built
    when the service was created or the wallets were last listed; [window]
    is the page at the time of the call. *)
Definition connectWallet (availableWallets : list WalletProvider)
  (window : Window) (listeners : list string) (walletId : string) : Run :=
  let r := connectWallet_try availableWallets window listeners walletId in
  match outcome r with
  | inl _ => r
  | inr e =>
      {| outcome :=
           inl {| success := false; accounts := None; chainId := None;
                  error := Some (message_or e ("Failed to connect " ++ walletId)) |};
         requests := requests r;
         listening := listening r |}
  end.

End WalletDetectionService.

(* ================================================================== *)
(** * The invoice form ([WalletConnection.tsx], [BlockchainInvoiceForm]) *)
(* ================================================================== *)

Module BlockchainInvoiceForm.
Import JS Builtins Gateway.

(** The item a new row holds. *)
Definition blank_item : InvoiceItem :=
  {| item_description := ""; quantity := Number_of_Z 1;
     rate := Number_of_Z 0; item_amount := Number_of_Z 0 |}.

(** The initial [formData], to which a successful submission resets. *)
Definition initial_form : InvoiceCreationData :=
  {| amount := Number_of_Z 0;
     companyName := ""; companyAddress := "";
     clientName := ""; clientAddress := "";
     description := Some "";
     items := [blank_item];
     notes := Some ""; terms := Some "";
     dueDate := None |}.

(** [addItem()] *)
Definition addItem (formData : InvoiceCreationData) : InvoiceCreationData :=
  {| amount := amount formData;
     companyName := companyName _ formData;
     companyAddress := companyAddress _ formData;
     clientName := clientName _ formData;
     clientAddress := clientAddress _ formData;
     description := description _ formData;
     items := (items _ formData ++ [blank_item])%list;
     notes := notes _ formData; terms := terms _ formData;
     dueDate := dueDate _ formData |}.

(** [x + y] *)
Definition Number_add (x y : Number) : Number := SFadd prec emax x y.

(** [items.reduce((sum, item) => sum + item.amount, 0)] *)
Definition totalAmount (newItems : list InvoiceItem) : Number :=
  fold_left (fun sum item => Number_add sum (item_amount item)) newItems
            (Number_of_Z 0).

(** [items.filter((_, i) => i !== index)] *)
Fixpoint without (index : nat) (l : list InvoiceItem) : list InvoiceItem :=
  match l, index with
  | [], _ => []
  | _ :: rest, O => rest
  | x :: rest, S i => x :: without i rest
  end.

(** [removeItem(index)] *)
Definition removeItem (index : nat) (formData : InvoiceCreationData)
  : InvoiceCreationData :=
  if (1 <? List.length (items _ formData))%nat then
    let newItems := without index (items _ formData) in
    {| amount := totalAmount newItems;
       companyName := companyName _ formData;
       companyAddress := companyAddress _ formData;
       clientName := clientName _ formData;
       clientAddress := clientAddress _ formData;
       description := description _ formData;
       items := newItems;
       notes := notes _ formData; terms := terms _ formData;
       dueDate := dueDate _ formData |}
  else formData.

(** The value [updateItem] receives for a field of an item. *)
Inductive ItemChange : Type :=
| SetDescription (value : string)
| SetQuantity (value : Number)
| SetRate (value : Number)
| SetAmount (value : Number).

(** [{ ...item, [field]: value }], and the amount computed again when the
    field is the quantity or the rate. *)
Definition changed (change : ItemChange) (item : InvoiceItem) : InvoiceItem :=
  match change with
  | SetDescription value =>
      {| item_description := value; quantity := quantity item;
         rate := rate item; item_amount := item_amount item |}
  | SetQuantity value =>
      {| item_description := item_description item; quantity := value;
         rate := rate item; item_amount := Number_mul value (rate item) |}
  | SetRate value =>
      {| item_description := item_description item;
         quantity := quantity item; rate := value;
         item_amount := Number_mul (quantity item) value |}
  | SetAmount value =>
      {| item_description := item_description item;
         quantity := quantity item; rate := rate item;
         item_amount := value |}
  end.

(** [newItems[index] = ...] for the index of a row of the list; [None]
    stands for an index outside the list, which the rows never pass (the
    array would grow by an object without the other fields). *)
Fixpoint assign (index : nat) (change : ItemChange) (l : list InvoiceItem)
  : option (list InvoiceItem) :=
  match l, index with
  | [], _ => None
  | item :: rest, O => Some (changed change item :: rest)
  | item :: rest, S i =>
      match assign i change rest with
      | Some rest' => Some (item :: rest')
      | None => None
      end
  end.

(** [updateItem(index, field, value)] *)
Definition updateItem (index : nat) (change : ItemChange)
  (formData : InvoiceCreationData) : option InvoiceCreationData :=
  match assign index change (items _ formData) with
  | Some newItems =>
      Some {| amount := totalAmount newItems;
              companyName := companyName _ formData;
              companyAddress := companyAddress _ formData;
              clientName := clientName _ formData;
              clientAddress := clientAddress _ formData;
              description := description _ formData;
              items := newItems;
              notes := notes _ formData; terms := terms _ formData;
              dueDate := dueDate _ formData |}
  | None => None
  end.

(** The fields the text inputs of the form set with [updateFormField]. *)
Inductive TextField : Type :=
| CompanyName | CompanyAddress | ClientName | ClientAddress
| Description | Notes | Terms.

(** [updateFormField(field, value)] *)
Definition updateFormField (field : TextField) (value : string)
  (formData : InvoiceCreationData) : InvoiceCreationData :=
  {| amount := amount formData;
     companyName :=
       match field with CompanyName => value | _ => companyName _ formData end;
     companyAddress :=
       match field with
       | CompanyAddress => value
       | _ => companyAddress _ formData
       end;
     clientName :=
       match field with ClientName => value | _ => clientName _ formData end;
     clientAddress :=
       match field with
       | ClientAddress => value
       | _ => clientAddress _ formData
       end;
     description :=
       match field with
       | Description => Some value
       | _ => description _ formData
       end;
     items := items _ formData;
     notes := match field with Notes => Some value | _ => notes _ formData end;
     terms := match field with Terms => Some value | _ => terms _ formData end;
     dueDate := dueDate _ formData |}.

(** What the user does to the form. *)
Inductive Edit : Type :=
| AddItem
| RemoveItem (index : nat)
| UpdateItem (index : nat) (change : ItemChange)
| UpdateFormField (field : TextField) (value : string).

Definition edit (e : Edit) (formData : InvoiceCreationData)
  : option InvoiceCreationData :=
  match e with
  | AddItem => Some (addItem formData)
  | RemoveItem index => Some (removeItem index formData)
  | UpdateItem index change => updateItem index change formData
  | UpdateFormField field value => Some (updateFormField field value formData)
  end.

(** The form after a sequence of edits. *)
Fixpoint edits (l : list Edit) (formData : InvoiceCreationData)
  : option InvoiceCreationData :=
  match l with
  | [] => Some formData
  | e :: rest =>
      match edit e formData with
      | Some formData' => edits rest formData'
      | None => None
      end
  end.

(** The error of the first item that fails a check. *)
Fixpoint item_error (l : list InvoiceItem) : option string :=
  match l with
  | [] => None
  | item :: rest =>
      if negb (truthy (Some (trim (item_description item))))
      then Some "All items must have a description"
      else if Number_le_zero (quantity item)
      then Some "All items must have quantity > 0"
      else if Number_lt_zero (rate item)
      then Some "All items must have rate >= 0"
      else item_error rest
  end.

(** [validateForm()] *)
Definition validateForm (formData : InvoiceCreationData) : option string :=
  if negb (truthy (Some (trim (companyName _ formData))))
  then Some "Company name is required"
  else if negb (truthy (Some (trim (clientName _ formData))))
  then Some "Client name is required"
  else if Number_le_zero (amount formData)
  then Some "Amount must be greater than 0"
  else if (List.length (items _ formData) =? 0)%nat
  then Some "At least one item is required"
  else item_error (items _ formData).

(** [network?.supported] *)
Definition network_supported (network : option Networks.Network) : bool :=
  match network with
  | Some n => Networks.supported n
  | None => false
  end.

(** [canSubmit()] *)
Definition canSubmit (isConnected : bool) (network : option Networks.Network)
  (isSubmitting : bool) (formData : InvoiceCreationData) : bool :=
  isConnected && network_supported network && negb isSubmitting
  && Number_gt_zero (amount formData)
  && negb (String.eqb (trim (companyName _ formData)) "")
  && negb (String.eqb (trim (clientName _ formData)) "").

(** What a submission shows: an alert, or the toast of a created invoice,
    with which the form is reset and [onInvoiceCreated] is called. *)
Inductive Shown : Type :=
| Alert (message : string)
| Created (toast : string) (invoiceId : Z) (transactionHash : string).

(** [handleSubmit()]: what is shown and the form that is left. *)
Definition handleSubmit (isConnected : bool) (address : option string)
  (network : option Networks.Network) (svc : Service)
  (formData : InvoiceCreationData) : M (Shown * InvoiceCreationData) :=
  try_catch
    (match validateForm formData with
     | Some validationError => ret (Alert validationError, formData)
     | None =>
         if negb isConnected || negb (truthy address)
         then ret (Alert "Please connect your wallet first", formData)
         else if negb (network_supported network)
         then ret (Alert "Please switch to a supported network (Sepolia)",
                   formData)
         else
           result <- BlockchainService.createInvoice svc formData ;;
           match success result, invoiceId result, transactionHash result with
           | true, Some id, Some (String c r) =>
               if id =? 0
               then ret (Alert (string_or (error result)
                                  "Failed to create invoice"), formData)
               else ret (Created ("Invoice #" ++ integer_text id
                                  ++ " created successfully!")
                                 id (String c r),
                         initial_form)
           | _, _, _ =>
               ret (Alert (string_or (error result) "Failed to create invoice"),
                    formData)
           end
     end)
    (fun e => ret (Alert (message_or e "Failed to create invoice"), formData)).

End BlockchainInvoiceForm.

(* ================================================================== *)
(** * Counting the listeners of the wallet provider *)
(* ================================================================== *)

Module WalletChecks.

(** The number of listeners the wallet holds for the event [name]. *)
Definition listeners_for (name : string) (w : WalletContext.World) : nat :=
  List.length (filter (String.eqb name) (WalletContext.listeners w)).

(** [setupEventListeners] called [n] times in a row. *)
Fixpoint setups (n : nat) (w : WalletContext.World) : WalletContext.World :=
  match n with
  | O => w
  | S m => WalletContext.setupEventListeners (setups m w)
  end.

End WalletChecks.

(* ================================================================== *)
(** * Requests to the wallet ([window.ethereum.request]) *)
(* ================================================================== *)

Module WalletRequests.
Import JS.

(** A rejected request: the value thrown, with its [code] property when
    it has a numeric one. *)
Record Rejection : Type := {
  thrown : JsError;
  code : option Z
}.

Definition Answer (A : Type) : Type := (A + Rejection)%type.

(** The parameter of [wallet_addEthereumChain]. *)
Record ChainParams : Type := {
  chainId : string;
  chainName : string;
  currencyName : string;
  currencySymbol : string;
  decimals : Z;
  rpcUrls : list string;
  blockExplorerUrls : list string
}.

(** The options of [wallet_watchAsset] for an ERC-20 token. *)
Record AssetParams : Type := {
  asset_address : string;
  asset_symbol : string;
  asset_decimals : Z;
  asset_image : string
}.

Inductive Request : Type :=
| wallet_switchEthereumChain (chainId : string)
| wallet_addEthereumChain (params : ChainParams)
| wallet_watchAsset (options : AssetParams)
| eth_chainId.

(** The wallet object: what it answers to each request.  A method issues
    each kind of request at most once, so one answer per request describes
    any of its runs. *)
Record Wallet : Type := {
  switchEthereumChain : string -> Answer unit;
  addEthereumChain : ChainParams -> Answer unit;
  watchAsset : AssetParams -> Answer bool;
  chainId_answer : Answer string
}.

(** [switchError.code === 4902] *)
Definition unrecognized_chain (r : Rejection) : bool :=
  match code r with
  | Some c => c =? 4902
  | None => false
  end.

(** [`0x${network.chainId.toString(16)}`] *)
Definition chainIdHex (network : Networks.Network) : string :=
  "0x" ++ Z_to_radix 16 (Networks.chainId network).

End WalletRequests.

(* ================================================================== *)
(** * Network set-up ([utils/networkManager.ts], class [NetworkManager]) *)
(* ================================================================== *)

Module NetworkManager.
Import JS Builtins WalletRequests.

(** What the set-up methods resolve to. *)
Record Outcome : Type := {
  success : bool;
  error : option string
}.

Definition done : Outcome := {| success := true; error := None |}.

Definition failed (e : JsError) (dflt : string) : Outcome :=
  {| success := false; error := Some (message_or e dflt) |}.

(** The chain description [addSepoliaNetwork] sends. *)
Definition sepolia_params : ChainParams :=
  let network := Networks.sepolia in
  {| chainId := chainIdHex network;
     chainName := Networks.name network;
     currencyName := Networks.currency network;
     currencySymbol := Networks.currency network;
     decimals := 18;
     rpcUrls :=
       ["https://sepolia.infura.io/v3/9aa3d95b3bc440fa88ea12eaa4456161"];
     blockExplorerUrls := [Networks.blockExplorer network] |}.

(** [addSepoliaNetwork()], with the requests it sent. *)
Definition addSepoliaNetwork (ethereum : option Wallet)
  : Outcome * list Request :=
  match ethereum with
  | None => (failed (Error "MetaMask is not installed") "Failed to add network",
             [])
  | Some wallet =>
      match addEthereumChain wallet sepolia_params with
      | inl _ => (done, [wallet_addEthereumChain sepolia_params])
      | inr r => (failed (thrown r) "Failed to add network",
                  [wallet_addEthereumChain sepolia_params])
      end
  end.

(** [switchToSepolia()] *)
Definition switchToSepolia (ethereum : option Wallet)
  : Outcome * list Request :=
  match ethereum with
  | None =>
      (failed (Error "MetaMask is not installed") "Failed to switch network",
       [])
  | Some wallet =>
      let chainIdHex := chainIdHex Networks.sepolia in
      match switchEthereumChain wallet chainIdHex with
      | inl _ => (done, [wallet_switchEthereumChain chainIdHex])
      | inr switchError =>
          if unrecognized_chain switchError then
            let '(result, sent) := addSepoliaNetwork ethereum in
            (result, wallet_switchEthereumChain chainIdHex :: sent)
          else
            (failed (thrown switchError) "Failed to switch network",
             [wallet_switchEthereumChain chainIdHex])
      end
  end.

(** The token description [addPYUSDToken] sends. *)
Definition pyusd_asset (address : string) : AssetParams :=
  {| asset_address := address;
     asset_symbol := "PYUSD";
     asset_decimals := 6;
     asset_image :=
       "https://assets.coingecko.com/coins/images/31212/small/PYUSD_Logo_%282%29.png" |}.

(** [addPYUSDToken()] *)
Definition addPYUSDToken (ethereum : option Wallet)
  : Outcome * list Request :=
  match ethereum with
  | None => (failed (Error "MetaMask is not installed") "Failed to add token",
             [])
  | Some wallet =>
      match Networks.pyusdAddress Networks.sepolia with
      | Some (String c r) =>
          let asset := pyusd_asset (String c r) in
          match watchAsset wallet asset with
          | inl _ => (done, [wallet_watchAsset asset])
          | inr e => (failed (thrown e) "Failed to add token",
                      [wallet_watchAsset asset])
          end
      | _ => (failed (Error "PYUSD address not configured for Sepolia")
                     "Failed to add token", [])
      end
  end.

(** [setupSepoliaEnvironment()] *)
Definition setupSepoliaEnvironment (ethereum : option Wallet)
  : Outcome * list Request :=
  let '(networkResult, sent1) := switchToSepolia ethereum in
  if negb (success networkResult)
  then (failed (Error (string_or (error networkResult)
                         "Failed to setup network"))
               "Failed to setup environment",
        sent1)
  else
    let '(tokenResult, sent2) := addPYUSDToken ethereum in
    (done, (sent1 ++ sent2)%list).

(** What [getCurrentNetwork] resolves to. *)
Record NetworkInfo : Type := {
  info_chainId : Number;
  networkName : option string
}.

(** [a === b] on numbers. *)
Definition Number_eq (a b : Number) : bool := SFeqb a b.

(** [getCurrentNetwork()] *)
Definition getCurrentNetwork (ethereum : option Wallet) : NetworkInfo :=
  match ethereum with
  | None => {| info_chainId := Number_of_Z 0; networkName := None |}
  | Some wallet =>
      match chainId_answer wallet with
      | inl chainId =>
          let chainIdNumber := parseInt16 chainId in
          {| info_chainId := chainIdNumber;
             networkName :=
               option_map (fun entry => Networks.name (snd entry))
                 (find (fun entry =>
                          Number_eq (Number_of_Z (Networks.chainId (snd entry)))
                                    chainIdNumber)
                       Networks.WEB3_NETWORKS) |}
      | inr _ => {| info_chainId := Number_of_Z 0; networkName := None |}
      end
  end.


End NetworkManager.

(* ================================================================== *)
(** * Connection of the invoice service
      ([blockchain.ts], class [BlockchainService]: [initialize],
      [switchNetwork], [switchWalletProvider]) *)
(* ================================================================== *)

Module BlockchainSession.
Import JS Gateway WalletRequests.

(** An entry of [CONTRACT_ADDRESSES] ([networks.ts]). *)
Record Contracts : Type := {
  invoiceManager : option string;
  pyusd : option string
}.

Definition CONTRACT_ADDRESSES : list (string * Contracts) :=
  [ ("sepolia",
     {| invoiceManager := Some "0x66bCb1F1cdf4f0338E79E3685CEe1144954B5a2b";
        pyusd := Some "0xCaC524BcA292aaade2DF8A05cC58F0a65B1B3bB9" |});
    ("ethereum",
     {| invoiceManager := None;
        pyusd := Some "0x6c3ea9036406852006290770BEdFcAbA0e23A0e8" |}) ].

(** [table[key]] for a key of the table. *)
Definition entry {A : Type} (table : list (string * A)) (key : string)
  : option A :=
  option_map snd (find (fun e => String.eqb (fst e) key) table).

(** The network ethers reports. *)
Record NetworkInfo : Type := {
  net_chainId : Z;
  net_name : string
}.

(** A wallet object handed to [ethers.providers.Web3Provider]: its flags,
    what it answers to the requests of the wallet API, to
    [eth_requestAccounts] and to the network query of ethers. *)
Record Provider : Type := {
  isMetaMask : bool;
  isCoinbaseWallet : bool;
  isTrust : bool;
  isRainbow : bool;
  wallet : Wallet;
  requestAccounts : Result (list string);
  getNetwork : Result NetworkInfo
}.

(** The fields of the service. *)
Record State : Type := {
  provider : option Provider;
  signer : bool;
  invoiceContract : option string;
  pyusdContract : option string;
  currentNetwork : string
}.

(** The service as it is created. *)
Definition created : State :=
  {| provider := None; signer := false; invoiceContract := None;
     pyusdContract := None; currentNetwork := "sepolia" |}.

(** The part of the state the invoice methods test. *)
Definition service_of (st : State) : Service :=
  {| Gateway.invoiceContract := invoiceContract st;
     Gateway.pyusdContract := pyusdContract st;
     Gateway.signer := signer st |}.

(** [detectProvider()] *)
Definition detectProvider (ethereum : option Provider) : option Provider :=
  match ethereum with
  | Some p =>
      if isMetaMask p then Some p
      else if isCoinbaseWallet p then Some p
      else if isTrust p then Some p
      else if isRainbow p then Some p
      else Some p
  | None => None
  end.

(** [initializeContracts()]: the state with the two contracts, or the
    error thrown. *)
Definition initializeContracts (st : State) : Result State :=
  match entry CONTRACT_ADDRESSES (currentNetwork st) with
  | None =>
      inr (Error "Cannot read properties of undefined (reading 'invoiceManager')")
  | Some contractAddresses =>
      match invoiceManager contractAddresses with
      | Some (String c r) =>
          match entry Networks.NETWORKS (currentNetwork st) with
          | Some networkConfig =>
              match Networks.pyusdAddress networkConfig with
              | Some (String c' r') =>
                  inl {| provider := provider st; signer := signer st;
                         invoiceContract := Some (String c r);
                         pyusdContract := Some (String c' r');
                         currentNetwork := currentNetwork st |}
              | _ => inr (Error ("PYUSD not available on " ++ currentNetwork st))
              end
          | None =>
              inr (Error "Cannot read properties of undefined (reading 'pyusdAddress')")
          end
      | _ => inr (Error ("Invoice Manager contract not deployed on "
                         ++ currentNetwork st))
      end
  end.

(** [initialize(customProvider)]: the value it resolves to and the state
    it leaves.  (The provider is an object ethers accepts.) *)
Definition initialize (customProvider ethereum : option Provider) (st : State)
  : bool * State :=
  let chosen :=
    match customProvider with
    | Some p => Some p
    | None => detectProvider ethereum
    end in
  match chosen with
  | None => (false, st)
  | Some p =>
      let st1 :=
        {| provider := Some p; signer := signer st;
           invoiceContract := invoiceContract st;
           pyusdContract := pyusdContract st;
           currentNetwork := currentNetwork st |} in
      match requestAccounts p with
      | inr _ => (false, st1)
      | inl _ =>
          let st2 :=
            {| provider := Some p; signer := true;
               invoiceContract := invoiceContract st;
               pyusdContract := pyusdContract st;
               currentNetwork := currentNetwork st |} in
          match getNetwork p with
          | inr _ => (false, st2)
          | inl network =>
              match find (fun e => Networks.chainId (snd e)
                                   =? net_chainId network)
                         Networks.NETWORKS with
              | None => (false, st2)
              | Some networkConfig =>
                  let st3 :=
                    {| provider := Some p; signer := true;
                       invoiceContract := invoiceContract st;
                       pyusdContract := pyusdContract st;
                       currentNetwork := fst networkConfig |} in
                  match initializeContracts st3 with
                  | inl st4 => (true, st4)
                  | inr _ => (false, st3)
                  end
              end
          end
      end
  end.

(** The chain description [switchNetwork] sends for a network. *)
Definition chain_params (network : Networks.Network) : ChainParams :=
  {| chainId := chainIdHex network;
     chainName := Networks.name network;
     currencyName := Networks.currency network;
     currencySymbol := Networks.currency network;
     decimals := 18;
     rpcUrls := [Networks.rpcUrl network];
     blockExplorerUrls := [Networks.blockExplorer network] |}.

(** What a method leaves behind: its value, the state, and the requests
    sent to [window.ethereum]. *)
Record Run : Type := {
  value : bool;
  state : State;
  sent : list Request
}.

(** [switchNetwork(networkName)].  (For a name that is no key of the
    registry nothing is sent and the state is left, whether the look-up
    finds nothing or an inherited property of the object.) *)
Definition switchNetwork (networkName : string) (ethereum : option Provider)
  (st : State) : Run :=
  match ethereum with
  | None => {| value := false; state := st; sent := [] |}
  | Some p =>
      match entry Networks.NETWORKS networkName with
      | None => {| value := false; state := st; sent := [] |}
      | Some network =>
          let chainIdHex := chainIdHex network in
          let switched : bool * list Request :=
            match switchEthereumChain (wallet p) chainIdHex with
            | inl _ => (true, [wallet_switchEthereumChain chainIdHex])
            | inr switchError =>
                if unrecognized_chain switchError then
                  match addEthereumChain (wallet p) (chain_params network) with
                  | inl _ =>
                      (true, [wallet_switchEthereumChain chainIdHex;
                              wallet_addEthereumChain (chain_params network)])
                  | inr _ =>
                      (false, [wallet_switchEthereumChain chainIdHex;
                               wallet_addEthereumChain (chain_params network)])
                  end
                else (false, [wallet_switchEthereumChain chainIdHex])
            end in
          if fst switched then
            let st1 :=
              {| provider := provider st; signer := signer st;
                 invoiceContract := invoiceContract st;
                 pyusdContract := pyusdContract st;
                 currentNetwork := networkName |} in
            match initializeContracts st1 with
            | inl st2 => {| value := true; state := st2; sent := snd switched |}
            | inr _ => {| value := false; state := st1; sent := snd switched |}
            end
          else {| value := false; state := st; sent := snd switched |}
      end
  end.

(** [cleanup()]: no listener is ever registered in [eventListeners]. *)
Definition cleanup (st : State) : State :=
  {| provider := None; signer := false; invoiceContract := None;
     pyusdContract := None; currentNetwork := currentNetwork st |}.

(** [switchWalletProvider(provider)] *)
Definition switchWalletProvider (given ethereum : option Provider)
  (st : State) : bool * State :=
  match given with
  | None => (false, st)
  | Some p => initialize (Some p) ethereum (cleanup st)
  end.

(** [getCurrentNetwork()] *)
Definition getCurrentNetwork (st : State) : string := currentNetwork st.

(** [getContractAddress()] *)
Definition getContractAddress (st : State) : option string :=
  match entry CONTRACT_ADDRESSES (currentNetwork st) with
  | Some contracts =>
      match invoiceManager contracts with
      | Some (String c r) => Some (String c r)
      | _ => None
      end
  | None => None
  end.

(** [isInitialized()] *)
Definition isInitialized (st : State) : bool :=
  match provider st, invoiceContract st with
  | Some _, Some _ => signer st
  | _, _ => false
  end.

(** What is done to the service, with the page and the wallet of the
    moment. *)
Inductive Operation : Type :=
| Initialize (customProvider ethereum : option Provider)
| SwitchNetwork (networkName : string) (ethereum : option Provider)
| SwitchWalletProvider (given ethereum : option Provider).

Definition perform (op : Operation) (st : State) : State :=
  match op with
  | Initialize customProvider ethereum =>
      snd (initialize customProvider ethereum st)
  | SwitchNetwork networkName ethereum =>
      state (switchNetwork networkName ethereum st)
  | SwitchWalletProvider given ethereum =>
      snd (switchWalletProvider given ethereum st)
  end.

(** The state after a sequence of operations on the created service. *)
Definition after (ops : list Operation) : State :=
  fold_left (fun st op => perform op st) ops created.

End BlockchainSession.

(* ================================================================== *)
(** * Connection of the web3 service
      ([web3Service.ts], class [Web3Service]: [initialize],
      [connectWallet], [disconnectWallet], [switchToSepolia],
      [getInvoice]) and the wallet actions of the provider of
      [BlockchainContext.tsx] *)
(* ================================================================== *)

Module Web3Session.
Import JS Builtins Gateway WalletRequests.

(** [window.ethereum]: the wallet API and what the wallet and its node
    answer during one connection.  The network is read twice, by
    [connectWallet] and by [initializeContracts]. *)
Record Ethereum : Type := {
  wallet : Wallet;
  requestAccounts : Result (list string);
  getAddress : Result string;
  getNetwork : Result Z;
  getNetwork_again : Result Z;
  getBalance : string -> Result Z;
  balanceOf : string -> Result Z
}.

(** The fields of the service. *)
Record State : Type := {
  provider : bool;
  signer : bool;
  invoiceContract : option string;
  pyusdContract : option string
}.

(** The service as it is created. *)
Definition created : State :=
  {| provider := false; signer := false; invoiceContract := None;
     pyusdContract := None |}.

Definition service_of (st : State) : Service :=
  {| Gateway.invoiceContract := invoiceContract st;
     Gateway.pyusdContract := pyusdContract st;
     Gateway.signer := signer st |}.

(** [interface WalletState] of [web3Service.ts] *)
Record WalletState : Type := {
  isConnected : bool;
  address : option string;
  chainId : option Z;
  balance : string;
  pyusdBalance : string;
  isCorrectNetwork : bool
}.

(** [initialize()]: the value it resolves to and the state it leaves. *)
Definition initialize (ethereum : option Ethereum) (st : State)
  : bool * State :=
  match ethereum with
  | None => (false, st)
  | Some _ =>
      (true, {| provider := true; signer := signer st;
                invoiceContract := invoiceContract st;
                pyusdContract := pyusdContract st |})
  end.

(** What a connection leaves behind: the wallet state it resolves to (or
    the value it rejects with), the state of the service, the events of
    [window.ethereum] that have a listener, one entry per listener, and the
    calls that were awaited, in order. *)
Record Run : Type := {
  outcome : Result WalletState;
  state : State;
  listening : list string;
  calls : list string
}.

Section Connection.

(** [ethers.utils.formatEther] and [ethers.utils.formatUnits]. *)
Variable formatEther : Z -> string.
Variable formatUnits : Z -> Z -> string.

(** [CONTRACT_ADDRESSES] of [web3Service.ts] has the one entry [sepolia]. *)
Definition sepolia_invoiceManager : string :=
  "0x66bCb1F1cdf4f0338E79E3685CEe1144954B5a2b".

(** [initializeContracts()], called with the signer set: the state with
    the contracts, or the error thrown, and the calls awaited. *)
Definition initializeContracts (e : Ethereum) (st : State)
  : Result State * list string :=
  if negb (signer st) then (inr (Error "Signer not available"), [])
  else
    match getNetwork_again e with
    | inr err => (inr err, ["getNetwork"])
    | inl chain =>
        match find (fun n => Networks.chainId n =? chain)
                   (map snd Networks.WEB3_NETWORKS) with
        | None =>
            (inr (Error ("Unsupported network: " ++ integer_text chain)),
             ["getNetwork"])
        | Some networkConfig =>
            (inl {| provider := provider st; signer := signer st;
                    invoiceContract :=
                      if chain =? 11155111
                      then (if String.eqb sepolia_invoiceManager
                                 "0x0000000000000000000000000000000000000000"
                            then invoiceContract st
                            else Some sepolia_invoiceManager)
                      else invoiceContract st;
                    pyusdContract := Networks.pyusdAddress networkConfig |},
             ["getNetwork"])
        end
    end.

Definition rejected (err : JsError) (st : State) (listeners calls : list string)
  : Run :=
  {| outcome := inr err; state := st; listening := listeners;
     calls := calls |}.

(** [connectWallet()] *)
Definition connectWallet (ethereum : option Ethereum) (st : State)
  (listeners : list string) : Run :=
  if negb (provider st)
  then rejected (Error "Web3 not initialized") st listeners []
  else
    match ethereum with
    | None =>
        rejected (Error "Cannot read properties of undefined (reading 'request')")
                 st listeners []
    | Some e =>
        match requestAccounts e with
        | inr err => rejected err st listeners ["eth_requestAccounts"]
        | inl _ =>
            let st1 :=
              {| provider := provider st; signer := true;
                 invoiceContract := invoiceContract st;
                 pyusdContract := pyusdContract st |} in
            match getAddress e with
            | inr err =>
                rejected err st1 listeners ["eth_requestAccounts"; "getAddress"]
            | inl address =>
                match getNetwork e with
                | inr err =>
                    rejected err st1 listeners
                      ["eth_requestAccounts"; "getAddress"; "getNetwork"]
                | inl chain =>
                    let isCorrectNetwork :=
                      chain =? Networks.chainId Networks.sepolia in
                    match getBalance e address with
                    | inr err =>
                        rejected err st1 listeners
                          ["eth_requestAccounts"; "getAddress"; "getNetwork";
                           "getBalance"]
                    | inl balance =>
                        let before :=
                          ["eth_requestAccounts"; "getAddress"; "getNetwork";
                           "getBalance"] in
                        let connected (st' : State) (pyusdBalance : string)
                                      (calls : list string) : Run :=
                          {| outcome :=
                               inl {| isConnected := true;
                                      address := Some address;
                                      chainId := Some chain;
                                      balance := formatEther balance;
                                      pyusdBalance := pyusdBalance;
                                      isCorrectNetwork := isCorrectNetwork |};
                             state := st';
                             listening :=
                               (listeners
                                ++ ["accountsChanged"; "chainChanged"])%list;
                             calls := calls |} in
                        if isCorrectNetwork then
                          match initializeContracts e st1 with
                          | (inr err, awaited) =>
                              rejected err st1 listeners
                                       (before ++ awaited)%list
                          | (inl st2, awaited) =>
                              if truthy (pyusdContract st2) then
                                match balanceOf e address with
                                | inr err =>
                                    rejected err st2 listeners
                                      (before ++ awaited ++ ["balanceOf"])%list
                                | inl pyusdBal =>
                                    connected st2 (formatUnits pyusdBal 6)
                                      (before ++ awaited ++ ["balanceOf"])%list
                                end
                              else connected st2 "0" (before ++ awaited)%list
                          end
                        else connected st1 "0" before
                    end
                end
            end
        end
    end.

End Connection.

(** [disconnectWallet()] *)
Definition disconnectWallet (ethereum : option Ethereum)
  (listeners : list string) : State * list string :=
  (created,
   match ethereum with
   | Some _ =>
       filter (fun n => negb (String.eqb n "chainChanged"))
         (filter (fun n => negb (String.eqb n "accountsChanged")) listeners)
   | None => listeners
   end).

(** The chain description [switchToSepolia] sends. *)
Definition sepolia_params : ChainParams :=
  {| WalletRequests.chainId := "0xaa36a7";
     chainName := "Sepolia Testnet";
     currencyName := "ETH";
     currencySymbol := "ETH";
     decimals := 18;
     rpcUrls := ["https://sepolia.infura.io/v3/"];
     blockExplorerUrls := ["https://sepolia.etherscan.io"] |}.

(** [switchToSepolia()], with the requests it sent.  Without
    [window.ethereum] the first request throws a value without [code]. *)
Definition switchToSepolia (ethereum : option Ethereum)
  : bool * list Request :=
  match ethereum with
  | None => (false, [])
  | Some e =>
      match switchEthereumChain (wallet e) "0xaa36a7" with
      | inl _ => (true, [wallet_switchEthereumChain "0xaa36a7"])
      | inr switchError =>
          if unrecognized_chain switchError then
            match addEthereumChain (wallet e) sepolia_params with
            | inl _ =>
                (true, [wallet_switchEthereumChain "0xaa36a7";
                        wallet_addEthereumChain sepolia_params])
            | inr _ =>
                (false, [wallet_switchEthereumChain "0xaa36a7";
                         wallet_addEthereumChain sepolia_params])
            end
          else (false, [wallet_switchEthereumChain "0xaa36a7"])
      end
  end.

(** [interface InvoiceData], as [getInvoice] fills it; an absent property
    is [None]. *)
Record InvoiceData : Type := {
  id : Z;
  amount : string;
  creator : string;
  payer : option string;
  status : option string;
  ipfsHash : string;
  createdAt : Z;
  paidAt : option Z
}.

(** [statusMap[invoice.status]] *)
Definition statusMap (status : Z) : option string :=
  if status =? 0 then Some "UNPAID"
  else if status =? 1 then Some "PAID"
  else if status =? 2 then Some "FAILED"
  else None.

(** [getInvoice(invoiceId)] *)
Definition getInvoice (formatUnits : Z -> Z -> string) (svc : Service)
  (invoiceId : Z) : M (option InvoiceData) :=
  try_catch
    (match Gateway.invoiceContract svc with
     | None => throw "Invoice contract not initialized"
     | Some _ =>
         invoice <- await (GetInvoice invoiceId)
                      (fun env => contract_getInvoice env invoiceId) ;;
         if negb (raw_exists invoice) then ret None
         else
           id <- lift (BigNumber_toNumber (raw_id invoice)) ;;
           createdAt <- lift (BigNumber_toNumber (raw_createdAt invoice)) ;;
           paidAt <- lift (BigNumber_toNumber (raw_paidAt invoice)) ;;
           ret (Some {| id := id;
                        amount := formatUnits (raw_amount invoice) 6;
                        creator := raw_creator invoice;
                        payer :=
                          if String.eqb (raw_payer invoice)
                               "0x0000000000000000000000000000000000000000"
                          then None else Some (raw_payer invoice);
                        status := statusMap (raw_status invoice);
                        ipfsHash := raw_ipfsHash invoice;
                        createdAt := createdAt;
                        paidAt := if paidAt =? 0 then None else Some paidAt |})
     end)
    (fun _ => ret None).

End Web3Session.

Module BlockchainProviderWallet.
Import JS Gateway.

(** The React state of the provider, the service it drives and the
    listeners of [window.ethereum]. *)
Record World : Type := {
  walletState : option Web3Session.WalletState;
  isLoading : bool;
  error : option string;
  service : Web3Session.State;
  listeners : list string
}.

(** The provider when it is mounted, before its effects run. *)
Definition mounted : World :=
  {| walletState := None; isLoading := false; error := None;
     service := Web3Session.created; listeners := [] |}.

Section Actions.

Variable formatEther : Z -> string.
Variable formatUnits : Z -> Z -> string.

(** The effect that initialises the service when the provider mounts. *)
Definition initialize_effect (ethereum : option Web3Session.Ethereum)
  (w : World) : World :=
  let '(initialized, st) := Web3Session.initialize ethereum (service w) in
  {| walletState := walletState w; isLoading := isLoading w;
     error := if initialized then error w
              else Some "Failed to initialize Web3 service";
     service := st; listeners := listeners w |}.

(** [connectWallet()] of the provider, with the calls awaited. *)
Definition connectWallet (ethereum : option Web3Session.Ethereum) (w : World)
  : World * list string :=
  match ethereum with
  | None =>
      ({| walletState := walletState w; isLoading := false;
          error :=
            Some "MetaMask is not installed. Please install MetaMask to continue.";
          service := service w; listeners := listeners w |}, [])
  | Some _ =>
      let r := Web3Session.connectWallet formatEther formatUnits ethereum
                 (service w) (listeners w) in
      match Web3Session.outcome r with
      | inl newWalletState =>
          ({| walletState := Some newWalletState; isLoading := false;
              error :=
                if negb (Web3Session.isCorrectNetwork newWalletState)
                then Some "Please switch to Sepolia Testnet to use blockchain features"
                else None;
              service := Web3Session.state r;
              listeners := Web3Session.listening r |},
           Web3Session.calls r)
      | inr e =>
          ({| walletState := walletState w; isLoading := false;
              error := Some (message_or e "Failed to connect wallet");
              service := Web3Session.state r;
              listeners := Web3Session.listening r |},
           Web3Session.calls r)
      end
  end.

(** [disconnectWallet()] of the provider. *)
Definition disconnectWallet (ethereum : option Web3Session.Ethereum)
  (w : World) : World :=
  let '(st, ls) := Web3Session.disconnectWallet ethereum (listeners w) in
  {| walletState := None; isLoading := false; error := None;
     service := st; listeners := ls |}.

End Actions.

End BlockchainProviderWallet.

(* ================================================================== *)
(** * Properties *)
(* ================================================================== *)

Import JS Gateway QRCodeService Spec.

(** ** Strings *)

Lemma append_assoc (a b c : string) : (a ++ b) ++ c = a ++ (b ++ c).
Proof. induction a as [|x a IH]; simpl; [reflexivity | now rewrite IH]. Qed.

Lemma append_nil_r (a : string) : a ++ "" = a.
Proof. induction a as [|x a IH]; simpl; [reflexivity | now rewrite IH]. Qed.

Lemma length_append (a b : string) :
  String.length (a ++ b) = (String.length a + String.length b)%nat.
Proof. induction a as [|x a IH]; simpl; [reflexivity | now rewrite IH]. Qed.

Lemma take_app (a b : string) : take (String.length a) (a ++ b) = a.
Proof. induction a as [|x a IH]; simpl; [now destruct b | now rewrite IH]. Qed.

Lemma drop_app (a b : string) : drop (String.length a) (a ++ b) = b.
Proof. induction a as [|x a IH]; simpl; [now destruct b | exact IH]. Qed.

Lemma all_chars_app (p : ascii -> bool) (a b : string) :
  all_chars p (a ++ b) = all_chars p a && all_chars p b.
Proof.
  induction a as [|x a IH]; simpl; [reflexivity|].
  rewrite IH. now rewrite andb_assoc.
Qed.

Lemma length_repeat_char (c : ascii) (n : nat) :
  String.length (repeat_char c n) = n.
Proof. induction n as [|n IH]; simpl; [reflexivity | now rewrite IH]. Qed.

Lemma all_chars_repeat (p : ascii -> bool) (c : ascii) (n : nat) :
  p c = true -> all_chars p (repeat_char c n) = true.
Proof.
  intros H. induction n as [|n IH]; simpl; [reflexivity | now rewrite H, IH].
Qed.

Lemma substring_all (s : string) : substring 0 (String.length s) s = s.
Proof. induction s as [|x s IH]; simpl; [reflexivity | now rewrite IH]. Qed.

Lemma padStart_short (s : string) (target : nat) (c : ascii) :
  (String.length s <= target)%nat ->
  padStart s target c = repeat_char c (target - String.length s) ++ s /\
  String.length (padStart s target c) = target.
Proof.
  intros H. unfold padStart. split; [reflexivity|].
  rewrite length_append, length_repeat_char. lia.
Qed.

(** ** Printing and reading numerals *)

Lemma code_chr (z : Z) : 0 <= z < 256 -> code (chr z) = z.
Proof.
  intros H. unfold code, chr.
  rewrite N_ascii_embedding by lia. lia.
Qed.

Lemma digit_value_digit_char (b d : Z) :
  b <= 36 -> 0 <= d < b -> digit_value b (digit_char d) = Some d.
Proof.
  intros Hb Hd. unfold digit_value, digit_char.
  destruct (d <? 10) eqn:E10.
  - apply Z.ltb_lt in E10. rewrite code_chr by lia.
    replace ((48 <=? 48 + d) && (48 + d <=? 57)) with true
      by (symmetry; apply andb_true_iff; split; apply Z.leb_le; lia).
    replace (48 + d - 48) with d by lia.
    destruct (d <? b) eqn:E; [reflexivity | apply Z.ltb_ge in E; lia].
  - apply Z.ltb_ge in E10. rewrite code_chr by lia.
    replace ((48 <=? 87 + d) && (87 + d <=? 57)) with false
      by (symmetry; apply andb_false_iff; right; apply Z.leb_gt; lia).
    replace ((97 <=? 87 + d) && (87 + d <=? 122)) with true
      by (symmetry; apply andb_true_iff; split; apply Z.leb_le; lia).
    replace (87 + d - 87) with d by lia.
    destruct (d <? b) eqn:E; [reflexivity | apply Z.ltb_ge in E; lia].
Qed.

(** Scanning what [radix_digits] printed reads the number back: the [k]
    digits printed in front of [rest] shift the accumulator by [b^k]. *)
Lemma radix_digits_scan (b : Z) (Hb : 2 <= b <= 36) (f : nat) :
  forall n rest, 0 <= n < b ^ (Z.of_nat f + 1) ->
  exists k : nat,
    (1 <= k)%nat /\
    String.length (radix_digits f b n rest) = (k + String.length rest)%nat /\
    (0 < n -> b ^ (Z.of_nat k - 1) <= n) /\
    n < b ^ Z.of_nat k /\
    forall a c, scan_digits b (radix_digits f b n rest) a c
                = scan_digits b rest (a * b ^ Z.of_nat k + n) (c + k)%nat.
Proof.
  induction f as [|f IH]; intros n rest Hn.
  - exists 1%nat. change (Z.of_nat 0 + 1) with 1 in Hn.
    rewrite Z.pow_1_r in Hn.
    cbn [radix_digits]. rewrite Z.mod_small by lia.
    repeat split; try (simpl; lia).
    intros a c. cbn [scan_digits].
    rewrite digit_value_digit_char by lia.
    f_equal; [ simpl; lia | lia ].
  - cbn [radix_digits]. destruct (n <? b) eqn:E.
    + apply Z.ltb_lt in E. exists 1%nat. rewrite Z.mod_small by lia.
      repeat split; try (simpl; lia).
      intros a c. cbn [scan_digits].
      rewrite digit_value_digit_char by lia.
      f_equal; [ simpl; lia | lia ].
    + apply Z.ltb_ge in E.
      assert (Hq : 0 <= n / b < b ^ (Z.of_nat f + 1)).
      { split; [apply Z.div_pos; lia|].
        apply Z.div_lt_upper_bound; [lia|].
        replace (Z.of_nat (S f) + 1) with (Z.succ (Z.of_nat f + 1)) in Hn
          by lia.
        rewrite Z.pow_succ_r in Hn by lia. lia. }
      destruct (IH (n / b) (String (digit_char (n mod b)) rest) Hq)
        as (k & Hk1 & Hlen & Hlo & Hhi & Hscan).
      exists (S k).
      assert (Hm : 0 <= n mod b < b) by (apply Z.mod_pos_bound; lia).
      assert (Hdm : n = b * (n / b) + n mod b) by (apply Z.div_mod; lia).
      assert (Hq1 : 0 < n / b) by (apply Z.div_str_pos; lia).
      replace (Z.of_nat (S k)) with (Z.succ (Z.of_nat k)) by lia.
      rewrite Z.pow_succ_r by lia.
      repeat split.
      * lia.
      * rewrite Hlen. simpl. lia.
      * intros _.
        replace (Z.succ (Z.of_nat k) - 1) with (Z.succ (Z.of_nat k - 1))
          by lia.
        rewrite Z.pow_succ_r by lia. specialize (Hlo Hq1). nia.
      * nia.
      * intros a c. rewrite Hscan. cbn [scan_digits].
        rewrite digit_value_digit_char by lia.
        f_equal; [ | lia ].
        remember (n / b) as q. remember (n mod b) as r.
        remember (b ^ Z.of_nat k) as P. rewrite Hdm. ring.
Qed.

Lemma Z_to_radix_fuel (b n : Z) :
  2 <= b -> 0 <= n -> 0 <= n < b ^ (Z.of_nat (Z.to_nat (Z.log2 n)) + 1).
Proof.
  intros Hb Hn. split; [lia|].
  rewrite Z2Nat.id by apply Z.log2_nonneg.
  destruct (Z.eq_dec n 0) as [->|Hz].
  - simpl. lia.
  - assert (H := Z.log2_spec n ltac:(lia)).
    replace (Z.log2 n + 1) with (Z.succ (Z.log2 n)) by lia.
    eapply Z.lt_le_trans; [apply H|].
    apply Z.pow_le_mono_l. lia.
Qed.

Lemma radix_digits_app (b : Z) (f : nat) :
  forall n rest, radix_digits f b n rest = radix_digits f b n "" ++ rest.
Proof.
  induction f as [|f IH]; intros n rest; cbn [radix_digits].
  - reflexivity.
  - destruct (n <? b); [reflexivity|].
    rewrite IH. rewrite (IH _ (String _ "")).
    rewrite append_assoc. reflexivity.
Qed.

Lemma Z_to_radix_scan (b n : Z) :
  2 <= b <= 36 -> 0 <= n ->
  exists k : nat,
    (1 <= k)%nat /\
    String.length (Z_to_radix b n) = k /\
    (0 < n -> b ^ (Z.of_nat k - 1) <= n) /\
    forall a c rest, scan_digits b (Z_to_radix b n ++ rest) a c
                = scan_digits b rest (a * b ^ Z.of_nat k + n) (c + k)%nat.
Proof.
  intros Hb Hn. unfold Z_to_radix.
  destruct (radix_digits_scan b Hb (Z.to_nat (Z.log2 n)) n ""
              (Z_to_radix_fuel b n ltac:(lia) Hn))
    as (k & Hk1 & Hlen & Hlo & Hhi & _).
  exists k. repeat split; try assumption.
  - rewrite Hlen. simpl. lia.
  - intros a c rest. rewrite <- radix_digits_app.
    destruct (radix_digits_scan b Hb (Z.to_nat (Z.log2 n)) n rest
              (Z_to_radix_fuel b n ltac:(lia) Hn))
      as (k' & _ & Hlen' & _ & _ & Hscan).
    rewrite Hscan.
    assert (k' = k).
    { rewrite radix_digits_app in Hlen'. rewrite length_append in Hlen'.
      rewrite Hlen in Hlen'. simpl in Hlen'. lia. }
    subst. reflexivity.
Qed.

Lemma is_radix_digit_char (b d : Z) :
  b <= 36 -> 0 <= d < b -> is_radix_digit b (digit_char d) = true.
Proof.
  intros Hb Hd. unfold is_radix_digit.
  now rewrite digit_value_digit_char.
Qed.

Lemma radix_digits_all (b : Z) (Hb : 2 <= b <= 36) (f : nat) :
  forall n rest, all_chars (is_radix_digit b) rest = true ->
  all_chars (is_radix_digit b) (radix_digits f b n rest) = true.
Proof.
  induction f as [|f IH]; intros n rest Hrest; cbn [radix_digits].
  - cbn [all_chars]. rewrite is_radix_digit_char, Hrest;
      [reflexivity | lia | apply Z.mod_pos_bound; lia].
  - assert (Hd : all_chars (is_radix_digit b)
                   (String (digit_char (n mod b)) rest) = true).
    { cbn [all_chars]. rewrite is_radix_digit_char, Hrest;
        [reflexivity | lia | apply Z.mod_pos_bound; lia]. }
    destruct (n <? b); [exact Hd | now apply IH].
Qed.

Lemma Z_to_radix_all (b n : Z) :
  2 <= b <= 36 -> all_chars (is_radix_digit b) (Z_to_radix b n) = true.
Proof. intros Hb. unfold Z_to_radix. now apply radix_digits_all. Qed.

Lemma radix_digits_nonempty (b : Z) (f : nat) :
  forall n rest, exists c r, radix_digits f b n rest = String c r.
Proof.
  induction f as [|f IH]; intros n rest; cbn [radix_digits].
  - eauto.
  - destruct (n <? b); [eauto | apply IH].
Qed.

Lemma Z_to_radix_nonempty (b n : Z) :
  exists c r, Z_to_radix b n = String c r.
Proof. apply radix_digits_nonempty. Qed.

(** A decimal digit is one of the ten characters 0..9. *)
Lemma dec_digit_cases (c : ascii) :
  is_radix_digit 10 c = true ->
  c = "0"%char \/ c = "1"%char \/ c = "2"%char \/ c = "3"%char \/
  c = "4"%char \/ c = "5"%char \/ c = "6"%char \/ c = "7"%char \/
  c = "8"%char \/ c = "9"%char.
Proof.
  destruct c as [[] [] [] [] [] [] [] []]; intros H;
    try discriminate H; tauto.
Qed.

Ltac each_digit c H :=
  destruct (dec_digit_cases c H)
    as [->|[->|[->|[->|[->|[->|[->|[->|[->| ->]]]]]]]]].

(** A non-empty string of decimal digits has no white space to trim, no
    sign and no hexadecimal prefix. *)
Lemma decimal_string_plain (s : string) :
  all_chars (is_radix_digit 10) s = true ->
  trim_start s = s /\ scan_sign s = (false, s) /\
  prefix "0x" s = false /\ prefix "0X" s = false.
Proof.
  destruct s as [|c r]; [intros _; repeat split|].
  cbn [all_chars]. intros H. apply andb_true_iff in H as [Hc Hr].
  assert (Hp : prefix "0x" (String c r) = false /\
               prefix "0X" (String c r) = false).
  { destruct r as [|c2 r2].
    - each_digit c Hc; split; reflexivity.
    - cbn [all_chars] in Hr. apply andb_true_iff in Hr as [Hc2 _].
      each_digit c Hc; each_digit c2 Hc2; split; reflexivity. }
  each_digit c Hc; repeat split; try reflexivity; apply Hp.
Qed.

Lemma scan_decimal (n : Z) :
  0 <= n ->
  exists k, scan_digits 10 (Z_to_radix 10 n) 0 0 = (n, S k, "").
Proof.
  intros Hn.
  destruct (Z_to_radix_scan 10 n ltac:(lia) Hn) as (k & Hk & _ & _ & Hscan).
  specialize (Hscan 0 0%nat "").
  rewrite append_nil_r in Hscan. rewrite Hscan. cbn [scan_digits].
  destruct k as [|k]; [lia|]. exists k. reflexivity.
Qed.

Lemma scan_zeros (b : Z) (j : nat) (rest : string) (c : nat) :
  2 <= b <= 36 ->
  scan_digits b (repeat_char "0" j ++ rest) 0 c
  = scan_digits b rest 0 (c + j)%nat.
Proof.
  intros Hb. revert c. induction j as [|j IH]; intros c; simpl repeat_char.
  - simpl. f_equal. lia.
  - change (String "0" (repeat_char "0" j) ++ rest)
      with (String (digit_char 0) (repeat_char "0" j ++ rest)).
    cbn [scan_digits]. rewrite digit_value_digit_char by lia.
    rewrite Z.mul_0_l, Z.add_0_l. rewrite IH. f_equal. lia.
Qed.

(** [BigNumber.from] reads back what [toString] printed. *)
Lemma BigNumber_from_toString (z : Z) :
  BigNumber_from (BigNumber_toString z) = inl z.
Proof.
  unfold BigNumber_toString, BigNumber_from.
  destruct (z <? 0) eqn:E.
  - apply Z.ltb_lt in E.
    change ("-" ++ Z_to_radix 10 (Z.abs z))
      with (String "-" (Z_to_radix 10 (Z.abs z))).
    cbv iota beta.
    destruct (decimal_string_plain _ (Z_to_radix_all 10 (Z.abs z) ltac:(lia)))
      as (_ & _ & H1 & H2).
    rewrite H1, H2. cbn [orb].
    destruct (scan_decimal (Z.abs z) ltac:(lia)) as [k ->].
    f_equal. lia.
  - apply Z.ltb_ge in E.
    change ("" ++ Z_to_radix 10 (Z.abs z)) with (Z_to_radix 10 (Z.abs z)).
    rewrite Z.abs_eq by lia.
    destruct (decimal_string_plain _ (Z_to_radix_all 10 z ltac:(lia)))
      as (_ & Hs & H1 & H2).
    destruct (Z_to_radix_nonempty 10 z) as (c & r & Hcr).
    assert (Hm : c <> "-"%char).
    { intros ->. rewrite Hcr in Hs. discriminate Hs. }
    rewrite Hcr in *.
    replace (match String c r with
             | String "-" r0 => (true, r0)
             | _ => (false, String c r)
             end)
      with (false, String c r).
    2:{ destruct c as [[] [] [] [] [] [] [] []]; try reflexivity. congruence. }
    rewrite H1, H2. cbn [orb]. rewrite <- Hcr.
    destruct (scan_decimal z ltac:(lia)) as [k ->]. reflexivity.
Qed.

Lemma parseInt_decimal (n : Z) :
  0 <= n -> parseInt (Z_to_radix 10 n) = Number_of_decimal false n 0.
Proof.
  intros Hn. unfold parseInt.
  destruct (decimal_string_plain _ (Z_to_radix_all 10 n ltac:(lia)))
    as (-> & -> & -> & ->).
  cbn [orb].
  destruct (scan_decimal n Hn) as [k ->]. reflexivity.
Qed.

(** ** Integers below 2^53 are held exactly by a number *)

Lemma digits2_size (p : positive) : digits2_pos p = Pos.size p.
Proof. induction p as [p IH|p IH|]; simpl; now rewrite ?IH. Qed.

Lemma Zdigits2_log2 (p : positive) :
  Zdigits2 (Zpos p) = Z.log2 (Zpos p) + 1.
Proof.
  unfold Zdigits2. rewrite digits2_size.
  destruct p as [p|p|]; simpl; try reflexivity; rewrite Pos2Z.inj_succ; lia.
Qed.

Lemma Zdigits2_bound (p : positive) :
  Zpos p < 2 ^ 53 -> 1 <= Zdigits2 (Zpos p) <= 53.
Proof.
  intros H. rewrite Zdigits2_log2.
  assert (0 <= Z.log2 (Zpos p)) by apply Z.log2_nonneg.
  assert (Z.log2 (Zpos p) < 53) by (apply Z.log2_lt_pow2; lia).
  lia.
Qed.

(** Dividing an integer of [d <= 53] bits by one: the quotient is the
    integer shifted to 54 bits, and it is exact. *)
Lemma div_core_integer (p : positive) :
  Zpos p < 2 ^ 53 ->
  SFdiv_core_binary prec emax (Zpos p) 0 1 0
  = (Z.shiftl (Zpos p) (54 - Zdigits2 (Zpos p)),
     Zdigits2 (Zpos p) - 54, loc_Exact).
Proof.
  intros Hp. pose proof (Zdigits2_bound p Hp) as Hd.
  unfold SFdiv_core_binary. change (Zdigits2 1) with 1.
  set (d := Zdigits2 (Zpos p)) in *.
  assert (He : Z.min (fexp prec emax (d + 0 - (1 + 0))) (0 - 0) = d - 54).
  { unfold fexp, emin, prec, emax. lia. }
  rewrite He.
  replace (0 - 0 - (d - 54)) with (54 - d) by lia.
  destruct (54 - d) as [|s|s] eqn:Es; try lia.
  destruct (Z.div_eucl (Z.shiftl (Zpos p) (Zpos s)) 1) as [q r] eqn:E.
  assert (Hq : q = Z.shiftl (Zpos p) (Zpos s) / 1)
    by (unfold Z.div; now rewrite E).
  assert (Hr : r = Z.shiftl (Zpos p) (Zpos s) mod 1)
    by (unfold Z.modulo; now rewrite E).
  rewrite Z.div_1_r in Hq. rewrite Z.mod_1_r in Hr. subst q r.
  reflexivity.
Qed.

(** Rounding such an integer keeps it: the mantissa is the integer
    normalised to 53 bits. *)
Lemma round_integer (p : positive) :
  Zpos p < 2 ^ 53 ->
  let d := Zdigits2 (Zpos p) in
  Number_of_ratio false (Zpos p) 1
  = S754_finite false (Z.to_pos (Zpos p * 2 ^ (53 - d))) (d - 53).
Proof.
  intros Hp d. pose proof (Zdigits2_bound p Hp) as Hd. fold d in Hd.
  unfold Number_of_ratio. rewrite div_core_integer by assumption. fold d.
  set (P := Zpos p * 2 ^ (53 - d)).
  assert (HP : 0 < P)
    by (unfold P; apply Z.mul_pos_pos; [lia | apply Z.pow_pos_nonneg; lia]).
  assert (Hsh : Z.shiftl (Zpos p) (54 - d) = Zpos (xO (Z.to_pos P))).
  { rewrite Z.shiftl_mul_pow2 by lia.
    replace (54 - d) with (Z.succ (53 - d)) by lia.
    rewrite Z.pow_succ_r by lia.
    rewrite (Pos2Z.inj_xO (Z.to_pos P)), Z2Pos.id by assumption.
    unfold P. ring. }
  rewrite Hsh.
  assert (HdP : Zpos (digits2_pos (Z.to_pos P)) = 53).
  { change (Zpos (digits2_pos (Z.to_pos P)))
      with (Zdigits2 (Zpos (Z.to_pos P))).
    rewrite Zdigits2_log2, Z2Pos.id by assumption.
    unfold P. rewrite Z.log2_mul_pow2 by lia.
    unfold d. rewrite Zdigits2_log2. lia. }
  unfold binary_round_aux, shr_fexp.
  assert (H1 : fexp prec emax (Zdigits2 (Zpos (xO (Z.to_pos P))) + (d - 54))
               - (d - 54) = 1).
  { unfold Zdigits2. cbn [digits2_pos]. rewrite Pos2Z.inj_succ, HdP.
    unfold fexp, emin, prec, emax. lia. }
  rewrite H1.
  cbn [shr shr_record_of_loc iter_pos shr_1 shr_m loc_of_shr_record
       round_nearest_even orb].
  assert (H2 : fexp prec emax (Zdigits2 (Zpos (Z.to_pos P)) + (d - 54 + 1))
               - (d - 54 + 1) = 0).
  { unfold Zdigits2. rewrite HdP. unfold fexp, emin, prec, emax. lia. }
  rewrite H2. cbn [shr shr_m shr_record_of_loc].
  replace (d - 54 + 1 <=? emax - prec) with true
    by (symmetry; apply Z.leb_le; unfold emax, prec; lia).
  f_equal. lia.
Qed.

Lemma safe_integer_representable (n : Z) :
  0 <= n < 2 ^ 53 -> exactly_representable n = true.
Proof.
  intros Hn. unfold exactly_representable, Number_of_decimal.
  change (0 <=? 0) with true. cbv iota. change (10 ^ 0) with 1.
  rewrite Z.mul_1_r.
  destruct n as [|p|p]; [reflexivity | | lia].
  rewrite round_integer by lia.
  pose proof (Zdigits2_bound p ltac:(lia)) as Hd.
  set (d := Zdigits2 (Zpos p)) in *.
  assert (HP : 0 < Zpos p * 2 ^ (53 - d))
    by (apply Z.mul_pos_pos; [lia | apply Z.pow_pos_nonneg; lia]).
  cbn [integer_part]. rewrite Z2Pos.id by assumption.
  apply Z.eqb_eq.
  destruct (0 <=? d - 53) eqn:E.
  - apply Z.leb_le in E. replace (d - 53) with 0 by lia.
    replace (53 - d) with 0 by lia. change (2 ^ 0) with 1. lia.
  - rewrite Z.shiftr_div_pow2 by lia.
    replace (- (d - 53)) with (53 - d) by lia.
    apply Z.div_mul. apply Z.pow_nonzero; lia.
Qed.

(** Below 2^53 the hexadecimal digits printed are those of the integer. *)
Lemma toString16_exact (n : Z) :
  0 <= n < 2 ^ 53 ->
  Number_toString16 (Number_of_decimal false n 0) = Z_to_radix 16 n.
Proof.
  intros Hn. destruct n as [|p|p]; [reflexivity | | lia].
  unfold Number_of_decimal.
  change (0 <=? 0) with true. cbv iota. change (10 ^ 0) with 1.
  rewrite Z.mul_1_r. rewrite round_integer by lia.
  pose proof (Zdigits2_bound p ltac:(lia)) as Hd.
  set (d := Zdigits2 (Zpos p)) in *.
  assert (HP : 0 < Zpos p * 2 ^ (53 - d))
    by (apply Z.mul_pos_pos; [lia | apply Z.pow_pos_nonneg; lia]).
  unfold Number_toString16. cbn [integer_part].
  rewrite Z2Pos.id by assumption.
  replace (0 <? d - 53) with false by (symmetry; apply Z.ltb_ge; lia).
  change (16 ^ 0) with 1. rewrite Z.div_1_r.
  change (Z.to_nat 0) with 0%nat. cbn [repeat_char append].
  rewrite append_nil_r. f_equal.
  destruct (0 <=? d - 53) eqn:E.
  - apply Z.leb_le in E. replace (d - 53) with 0 by lia.
    replace (53 - d) with 0 by lia. change (2 ^ 0) with 1. lia.
  - rewrite Z.shiftr_div_pow2 by lia.
    replace (- (d - 53)) with (53 - d) by lia.
    apply Z.div_mul. apply Z.pow_nonzero; lia.
Qed.

(** ** The call data of [transfer(address,uint256)] *)

(** The decoder on call data of the expected layout. *)
Lemma decode_layout (w1 w2 : string) :
  String.length w1 = 64%nat -> String.length w2 = 64%nat ->
  decodeTransferCallData ("0x" ++ "a9059cbb" ++ w1 ++ w2)
  = if String.eqb (take 24 w1) (repeat_char "0" 24)
       && all_chars is_hex_digit w1 && all_chars is_hex_digit w2
    then Some ("0x" ++ drop 24 w1, hex_value w2)
    else None.
Proof.
  intros H1 H2. unfold decodeTransferCallData.
  assert (Hlen : String.length ("0x" ++ "a9059cbb" ++ w1 ++ w2) = 138%nat).
  { change ("0x" ++ "a9059cbb" ++ w1 ++ w2)
      with (String "0" (String "x" (String "a" (String "9" (String "0"
            (String "5" (String "9" (String "c" (String "b" (String "b"
            (w1 ++ w2))))))))))).
    cbn [String.length]. rewrite length_append, H1, H2. reflexivity. }
  rewrite Hlen.
  change (drop 74 ("0x" ++ "a9059cbb" ++ w1 ++ w2)) with (drop 64 (w1 ++ w2)).
  change (drop 10 ("0x" ++ "a9059cbb" ++ w1 ++ w2)) with (w1 ++ w2).
  change (take 8 (drop 2 ("0x" ++ "a9059cbb" ++ w1 ++ w2))) with "a9059cbb".
  change (take 2 ("0x" ++ "a9059cbb" ++ w1 ++ w2)) with "0x".
  rewrite Nat.eqb_refl, !String.eqb_refl. cbn [andb].
  replace (take 64 (w1 ++ w2)) with w1
    by (rewrite <- H1; symmetry; apply take_app).
  replace (drop 64 (w1 ++ w2)) with w2
    by (rewrite <- H1; symmetry; apply drop_app).
  reflexivity.
Qed.

Lemma hex_address_shape (a : string) :
  is_hex_address a = true ->
  exists h, a = String "0" (String "x" h) /\ String.length h = 40%nat /\
            all_chars is_hex_digit h = true.
Proof.
  unfold is_hex_address. intros H.
  apply andb_true_iff in H as [H Hhex]. apply andb_true_iff in H as [Hp Hlen].
  destruct a as [|c1 [|c2 h]]; [discriminate Hp | discriminate Hlen |].
  cbn [take] in Hp. apply String.eqb_eq in Hp. injection Hp as -> ->.
  exists h. apply Nat.eqb_eq in Hlen. cbn [String.length] in Hlen.
  cbn [drop] in Hhex. repeat split; [lia | exact Hhex].
Qed.

Lemma replace_0x (h : string) :
  replace "0x" "" (String "0" (String "x" h)) = h.
Proof.
  cbn [replace].
  replace (prefix "0x" (String "0" (String "x" h))) with true.
  2:{ cbn. now destruct h. }
  cbn [String.length Nat.sub append substring].
  rewrite Nat.sub_0_r. apply substring_all.
Qed.

Lemma hex_length_bound (n : Z) :
  0 <= n < 2 ^ 256 -> (String.length (Z_to_radix 16 n) <= 64)%nat.
Proof.
  intros Hn.
  destruct (Z_to_radix_scan 16 n ltac:(lia) ltac:(lia))
    as (k & Hk & Hlen & Hlo & _).
  rewrite Hlen.
  destruct (Z.eq_dec n 0) as [->|Hz].
  - change (Z_to_radix 16 0) with "0" in Hlen. simpl in Hlen. lia.
  - destruct (Nat.le_gt_cases k 64) as [|Hgt]; [assumption|exfalso].
    specialize (Hlo ltac:(lia)).
    assert (16 ^ 64 <= 16 ^ (Z.of_nat k - 1)) by (apply Z.pow_le_mono_r; lia).
    change (16 ^ 64) with (2 ^ 256) in *. lia.
Qed.

Lemma encode_decode (a : string) (n : Z) :
  is_hex_address a = true -> 0 <= n < 2 ^ 53 ->
  decodeTransferCallData (encodeTransferFunction a (Z_to_radix 10 n))
  = Some (a, n).
Proof.
  intros Ha Hn.
  assert (Hn256 : 0 <= n < 2 ^ 256).
  { split; [lia|]. eapply Z.lt_trans; [apply Hn|]. reflexivity. }
  destruct (hex_address_shape a Ha) as (h & -> & Hlen & Hhex).
  unfold encodeTransferFunction.
  rewrite replace_0x, parseInt_decimal, toString16_exact
    by (lia || assumption).
  destruct (padStart_short h 64 "0" ltac:(lia)) as [-> L1].
  destruct (padStart_short (Z_to_radix 16 n) 64 "0" (hex_length_bound n Hn256))
    as [-> L2].
  rewrite decode_layout by assumption.
  rewrite Hlen. change (64 - 40)%nat with 24%nat.
  replace (take 24 (repeat_char "0" 24 ++ h)) with (repeat_char "0" 24)
    by (symmetry; apply (take_app (repeat_char "0" 24))).
  replace (drop 24 (repeat_char "0" 24 ++ h)) with h
    by (symmetry; apply (drop_app (repeat_char "0" 24))).
  rewrite String.eqb_refl.
  rewrite !all_chars_app, Hhex, !all_chars_repeat by reflexivity.
  replace (all_chars is_hex_digit (Z_to_radix 16 n)) with true
    by (symmetry; apply (Z_to_radix_all 16 n); lia).
  cbn [andb]. unfold hex_value. rewrite scan_zeros by lia.
  destruct (Z_to_radix_scan 16 n ltac:(lia) ltac:(lia))
    as (k & _ & _ & _ & Hscan).
  specialize (Hscan 0 (0 + (64 - String.length (Z_to_radix 16 n)))%nat "").
  rewrite append_nil_r in Hscan. rewrite Hscan. reflexivity.
Qed.

(** C4 (as amended).  For every 20-byte hexadecimal recipient address and
    every integer amount [n] with [0 <= n < 2^53], decoding the call data
    that [encodeTransferFunction] builds from the address and the decimal
    numeral of [n] recovers exactly that address and [n]. *)
Theorem encodeTransferFunction_round_trip (a : string) (n : Z) :
  is_hex_address a = true ->
  0 <= n < 2 ^ 53 ->
  decodeTransferCallData (encodeTransferFunction a (Z_to_radix 10 n))
  = Some (a, n).
Proof. intros Ha Hn. now apply encode_decode. Qed.

Lemma encodeTransferFunction_round_trip_witness :
  is_hex_address Examples.recipient = true /\
  0 <= 100500000 < 2 ^ 53 /\
  decodeTransferCallData
    (encodeTransferFunction Examples.recipient (Z_to_radix 10 100500000))
  = Some (Examples.recipient, 100500000).
Proof.
  split; [reflexivity|]. split; [lia|].
  apply (encodeTransferFunction_round_trip Examples.recipient 100500000).
  - reflexivity.
  - lia.
Defined.

(** C4, as stated, fails on amounts above 2^53: the amount 2^53 + 1 goes
    through a number and comes back as 2^53. *)
Lemma encodeTransferFunction_loses_large_amount :
  is_hex_address Examples.recipient = true /\
  decodeTransferCallData
    (encodeTransferFunction Examples.recipient
       (Z_to_radix 10 9007199254740993))
  = Some (Examples.recipient, 9007199254740992) /\
  decodeTransferCallData
    (encodeTransferFunction Examples.recipient
       (Z_to_radix 10 9007199254740993))
  <> Some (Examples.recipient, 9007199254740993).
Proof.
  split; [reflexivity|].
  split; [vm_compute; reflexivity | vm_compute; discriminate].
Qed.

(** Above 2^53 a digit beyond the significand is printed as zero: the
    amount 2^53 + 2, which a number holds exactly, comes back as 2^53. *)
Example encodeTransferFunction_zero_fills :
  exactly_representable 9007199254740994 = true /\
  Number_toString16 (parseInt "9007199254740994") = "20000000000000" /\
  decodeTransferCallData
    (encodeTransferFunction Examples.recipient "9007199254740994")
  = Some (Examples.recipient, 9007199254740992).
Proof. repeat split; vm_compute; reflexivity. Qed.

(** ** Amount codec *)

(** C2 (code defect).  On the amount 2.01 with 6 decimals the encoder
    returns 2009999, one base unit less than [floor (2.01 * 10^6)], which
    is 2010000: the product is taken in binary floating point before the
    floor.  The scenario amount 100.50 does give 100500000. *)
Theorem formatTokenAmount_below_floor :
  Networks.formatTokenAmount (parseFloat "2.01") 6 = "2009999" /\
  amountInWei "2.01" = "2009999" /\
  Z_to_radix 10 (toBaseUnits 201 (-2) 6) = "2010000" /\
  Networks.formatTokenAmount (parseFloat "100.50") 6 = "100500000" /\
  Z_to_radix 10 (toBaseUnits 10050 (-2) 6) = "100500000".
Proof. repeat split; vm_compute; reflexivity. Qed.

(** ** Traces: what the order check means *)

Lemma split_head {A : Type} (s x : A) (rest p post : list A) :
  s :: rest = (p ++ x :: post)%list ->
  (p = [] /\ x = s /\ rest = post) \/
  (exists p', p = s :: p' /\ rest = (p' ++ x :: post)%list).
Proof.
  destruct p as [|y p]; cbn [app]; intros E; injection E as -> ->.
  - left. auto.
  - right. eauto.
Qed.

Lemma approvals_confirmed_cons (s : Step) (rest : list Step) :
  approvals_confirmed rest ->
  (is_approve (call s) = true -> payments_after_confirmation rest) ->
  approvals_confirmed (s :: rest).
Proof.
  intros HR HQ p1 ap p2 pay post E Hap Hpay.
  destruct (split_head _ _ _ _ _ E) as [(-> & -> & ->) | (p' & -> & ->)].
  - eapply HQ; eauto.
  - eapply HR; eauto.
Qed.

Lemma payments_after_confirmation_cons (s : Step) (rest : list Step) :
  is_pay (call s) = false ->
  (s = wait_ok \/ payments_after_confirmation rest) ->
  payments_after_confirmation (s :: rest).
Proof.
  intros Hs HQ p2 pay post E Hpay.
  destruct (split_head _ _ _ _ _ E) as [(-> & -> & ->) | (p' & -> & ->)].
  - congruence.
  - destruct HQ as [-> | HQ]; [left; reflexivity | right; eapply HQ; eauto].
Qed.

(** A trace that passes the scan has every approval confirmed before any
    later payment. *)
Lemma approval_order_sound (tr : list Step) :
  forall phase, approval_precedes_payment phase tr = true ->
  approvals_confirmed tr /\
  (phase = Submitted -> payments_after_confirmation tr).
Proof.
  induction tr as [|s rest IH]; intros phase H.
  - split.
    + intros p1 ap p2 pay post E. destruct p1; discriminate E.
    + intros _ p2 pay post E. destruct p2; discriminate E.
  - cbn [approval_precedes_payment] in H.
    destruct s as [c r]; cbn [call returned] in H.
    destruct c; destruct phase; try discriminate H;
      try (destruct (IH _ H) as [HR HQ]; split;
           [ apply approvals_confirmed_cons;
             [ exact HR
             | cbn; first [ discriminate | intros _; now apply HQ ] ]
           | first [ discriminate
                   | intros _; apply payments_after_confirmation_cons;
                     [ reflexivity | right; now apply HQ ] ] ]).
    (* the confirmation of a requested approval *)
    destruct r.
    + destruct (IH _ H) as [HR _]. split.
      * apply approvals_confirmed_cons; [exact HR | discriminate].
      * intros _. apply payments_after_confirmation_cons;
          [reflexivity | left; reflexivity].
    + destruct (IH _ H) as [HR HQ]. split.
      * apply approvals_confirmed_cons; [exact HR | discriminate].
      * intros _. apply payments_after_confirmation_cons;
          [reflexivity | right; now apply HQ].
Qed.

(** ** Gateway: case analysis on the answers of the environment *)

Ltac unfold_run :=
  unfold run, try_catch, bind, await, throw, ret, lift, consult, tx_failure.

Ltac answer_case :=
  match goal with
  | |- context [match ?x with _ => _ end] =>
      lazymatch x with
      | context [match _ with _ => _ end] => fail
      | _ => destruct x eqn:?
      end;
      cbn [fst snd app is_ok call returned Gateway.success Gateway.error
           Types.amount Types.status Types.creator] in *
  end.

Ltac answer_cases := repeat answer_case.

Ltac trace_facts :=
  repeat match goal with
         | H : _ \/ _ |- _ => destruct H
         | H : False |- _ => contradiction
         | H : _ /\ _ |- _ => destruct H
         | H : Build_Step _ _ = Build_Step _ _ |- _ =>
             first [ discriminate H | injection H as ? ?
                   | injection H as ? | clear H ]
         | H : inl _ = inl _ |- _ => injection H as H
         | H : inr _ = inl _ |- _ => discriminate H
         | H : inl _ = inr _ |- _ => discriminate H
         | H : Some _ = Some _ |- _ => injection H as H
         | H : (_ <? _) = true |- _ => apply Z.ltb_lt in H
         | H : (_ <? _) = false |- _ => apply Z.ltb_ge in H
         | H : (_ =? _) = true |- _ => apply Z.eqb_eq in H
         | H : (_ =? _) = false |- _ => apply Z.eqb_neq in H
         end; subst.

Ltac same_answer :=
  repeat match goal with
         | H1 : ?f = inl ?a, H2 : ?f = inl ?b |- _ =>
             assert (a = b) by congruence; subst; clear H2
         | H1 : ?f = inl _, H2 : ?f = inr _ |- _ => congruence
         end.

Ltac bool_facts :=
  repeat match goal with
         | H : String.eqb ?a ?a = false |- _ =>
             rewrite String.eqb_refl in H; discriminate H
         | H : negb _ = true |- _ => apply negb_true_iff in H
         | H : negb _ = false |- _ => apply negb_false_iff in H
         | H : _ || _ = false |- _ => apply orb_false_iff in H as [? ?]
         | H : _ && _ = true |- _ => apply andb_true_iff in H as [? ?]
         end.

Section GatewayRuns.

Local Opaque BigNumber_from BigNumber_toString toLowerCase String.eqb
  Networks.formatTokenAmount.

Variable env : Env.
Variable svc : Service.

Lemma Web3Service_allowance_decides (id : Z) (owner spender : string) (a : Z)
  (raw : RawInvoice) :
  let tr := snd (run (Web3Service.payInvoice svc id) env) in
  In {| call := Allowance owner spender; returned := true |} tr ->
  contract_getInvoice env id = inl raw ->
  pyusd_allowance env owner spender = inl a ->
  (approve_issued tr = true <-> a < raw_amount raw).
Proof.
  unfold Web3Service.payInvoice, Web3Service.payInvoice_try. unfold_run.
  cbn zeta. intros Hin Hraw Ha. revert Hin.
  answer_cases.
  all: cbn; intros Hin; trace_facts; same_answer; trace_facts;
    split; intros; try discriminate; try reflexivity; try lia.
Qed.

Lemma Web3Service_approval_needs_allowance (id : Z) :
  let tr := snd (run (Web3Service.payInvoice svc id) env) in
  approve_issued tr = true ->
  exists owner spender,
    In {| call := Allowance owner spender; returned := true |} tr.
Proof.
  unfold Web3Service.payInvoice, Web3Service.payInvoice_try. unfold_run.
  cbn zeta. answer_cases.
  all: cbn; intros H; try discriminate H; eexists; eexists; eauto 10.
Qed.

Lemma Web3Service_approval_order (id : Z) :
  approval_precedes_payment NotRequested
    (snd (run (Web3Service.payInvoice svc id) env)) = true.
Proof.
  unfold Web3Service.payInvoice, Web3Service.payInvoice_try. unfold_run.
  answer_cases; reflexivity.
Qed.

Lemma BlockchainService_allowance_decides (id : Z) (owner spender : string)
  (a : Z) (raw : RawInvoice) :
  let tr := snd (run (BlockchainService.payInvoice svc id) env) in
  In {| call := Allowance owner spender; returned := true |} tr ->
  contract_getInvoice env id = inl raw ->
  pyusd_allowance env owner spender = inl a ->
  (approve_issued tr = true <-> a < raw_amount raw).
Proof.
  unfold BlockchainService.payInvoice, BlockchainService.payInvoice_try,
    BlockchainService.getInvoice. unfold_run.
  cbn zeta. intros Hin Hraw Ha. revert Hin.
  repeat first [ rewrite BigNumber_from_toString | answer_case ].
  all: cbn; intros Hin; trace_facts; same_answer; trace_facts;
    split; intros; try discriminate; try reflexivity; try lia.
Qed.

Lemma BlockchainService_approval_needs_allowance (id : Z) :
  let tr := snd (run (BlockchainService.payInvoice svc id) env) in
  approve_issued tr = true ->
  exists owner spender,
    In {| call := Allowance owner spender; returned := true |} tr.
Proof.
  unfold BlockchainService.payInvoice, BlockchainService.payInvoice_try,
    BlockchainService.getInvoice. unfold_run.
  cbn zeta.
  repeat first [ rewrite BigNumber_from_toString | answer_case ].
  all: cbn; intros H; try discriminate H; eexists; eexists; eauto 10.
Qed.

Lemma BlockchainService_approval_order (id : Z) :
  approval_precedes_payment NotRequested
    (snd (run (BlockchainService.payInvoice svc id) env)) = true.
Proof.
  unfold BlockchainService.payInvoice, BlockchainService.payInvoice_try,
    BlockchainService.getInvoice. unfold_run.
  repeat first [ rewrite BigNumber_from_toString | answer_case ]; reflexivity.
Qed.

(** Whenever [Web3Service.payInvoice] submitted the payment transaction,
    the calls before it are the four reads, the approval steps that the
    allowance read asks for, and the gas estimate. *)
Lemma Web3Service_payment_steps (id : Z) (raw : RawInvoice) :
  let tr := snd (run (Web3Service.payInvoice svc id) env) in
  contract_getInvoice env id = inl raw ->
  pay_issued tr = true ->
  exists caller contract a g r tail,
    signer_getAddress env = inl caller /\
    invoiceContract svc = Some contract /\
    pyusd_allowance env caller contract = inl a /\
    estimateGas_payInvoice env id = inl g /\
    tr = (payment_steps caller contract id a (raw_amount raw)
            [ok (EstimateGasPayInvoice id)]
            {| call := PayInvoice id (Some (gas_with_buffer g));
               returned := r |} ++ tail)%list.
Proof.
  unfold Web3Service.payInvoice, Web3Service.payInvoice_try. unfold_run.
  cbn zeta. intros Hraw. answer_cases.
  all: cbn; intros H; try discriminate H.
  all: injection Hraw as <-.
  all: do 6 eexists.
  all: split; [reflexivity|]; split; [reflexivity|];
       split; [eassumption|]; split; [reflexivity|].
  all: unfold payment_steps, approval_steps.
  all: match goal with
       | E : (_ <? raw_amount _) = _ |- _ => rewrite E
       end.
  all: reflexivity.
Qed.

(** [Web3Service.payInvoice] resolves to a success only after the payment
    transaction was submitted and confirmed, which are then its last two
    calls. *)
Lemma Web3Service_success_pays (id : Z) (res : TxResult) :
  let out := run (Web3Service.payInvoice svc id) env in
  fst out = inl res -> Gateway.success res = true ->
  exists pre g tx,
    estimateGas_payInvoice env id = inl g /\
    contract_payInvoice env id (Some (gas_with_buffer g)) = inl tx /\
    transactionHash res = Some (hash tx) /\
    snd out = (pre ++ [ok (PayInvoice id (Some (gas_with_buffer g)));
                       ok PayWait])%list.
Proof.
  unfold Web3Service.payInvoice, Web3Service.payInvoice_try. unfold_run.
  cbn zeta. answer_cases.
  all: cbn; intros H Hs; injection H as <-; try discriminate Hs.
  all: eexists (_ :: _ :: _ :: _ :: _)%list; do 2 eexists.
  all: split; [reflexivity|]; split; [eassumption|];
       split; [reflexivity|].
  all: first [ instantiate (1 := [_; _; _]%list); reflexivity
             | instantiate (1 := [_]%list); reflexivity ].
Qed.

(** The same two facts for [BlockchainService.payInvoice], which asks for
    no gas estimate. *)
Lemma BlockchainService_payment_steps (id : Z) (raw : RawInvoice) :
  let tr := snd (run (BlockchainService.payInvoice svc id) env) in
  contract_getInvoice env id = inl raw ->
  pay_issued tr = true ->
  exists caller contract a r tail,
    signer_getAddress env = inl caller /\
    invoiceContract svc = Some contract /\
    pyusd_allowance env caller contract = inl a /\
    tr = (payment_steps caller contract id a (raw_amount raw) []
            {| call := PayInvoice id None; returned := r |} ++ tail)%list.
Proof.
  unfold BlockchainService.payInvoice, BlockchainService.payInvoice_try,
    BlockchainService.getInvoice. unfold_run.
  cbn zeta. intros Hraw.
  repeat first [ rewrite BigNumber_from_toString | answer_case ].
  all: cbn; intros H; try discriminate H.
  all: injection Hraw as <-.
  all: do 5 eexists.
  all: split; [reflexivity|]; split; [reflexivity|];
       split; [eassumption|].
  all: unfold payment_steps, approval_steps.
  all: trace_facts.
  all: match goal with
       | E : _ < raw_amount _ |- _ => apply Z.ltb_lt in E; rewrite E
       | E : raw_amount _ <= _ |- _ => apply Z.ltb_ge in E; rewrite E
       end.
  all: reflexivity.
Qed.

Lemma BlockchainService_success_pays (id : Z) (res : TxResult) :
  let out := run (BlockchainService.payInvoice svc id) env in
  fst out = inl res -> Gateway.success res = true ->
  exists pre tx,
    contract_payInvoice env id None = inl tx /\
    transactionHash res = Some (hash tx) /\
    snd out = (pre ++ [ok (PayInvoice id None); ok PayWait])%list.
Proof.
  unfold BlockchainService.payInvoice, BlockchainService.payInvoice_try,
    BlockchainService.getInvoice. unfold_run.
  cbn zeta.
  repeat first [ rewrite BigNumber_from_toString | answer_case ].
  all: cbn; intros H Hs; injection H as <-; try discriminate Hs.
  all: eexists (_ :: _ :: _ :: _ :: _)%list; eexists.
  all: split; [first [eassumption | reflexivity]|]; split; [reflexivity|].
  all: first [ instantiate (1 := [_; _]%list); reflexivity
             | instantiate (1 := []%list); reflexivity ].
Qed.

(** [BlockchainService.payInvoice] sends no transaction and resolves to an
    error when the invoice is not unpaid, when the caller is its creator, or
    when the caller's balance is below its amount. *)
Lemma BlockchainService_rejects (id : Z) (raw : RawInvoice) :
  contract_getInvoice env id = inl raw ->
  raw_status raw <> Types.UNPAID
  \/ signer_getAddress env = inl (raw_creator raw)
  \/ (exists caller bal,
        signer_getAddress env = inl caller /\
        pyusd_balanceOf env caller = inl bal /\ bal < raw_amount raw) ->
  rejected_locally (run (BlockchainService.payInvoice svc id) env).
Proof.
  unfold rejected_locally.
  unfold BlockchainService.payInvoice, BlockchainService.payInvoice_try,
    BlockchainService.getInvoice. unfold_run.
  intros Hraw Hcase.
  repeat first [ rewrite BigNumber_from_toString | answer_case ].
  all: cbn [fst snd]; try (eexists; eexists; repeat split; reflexivity).
  all: exfalso; destruct Hcase as [H | [H | (caller & bal & H1 & H2 & H3)]];
    trace_facts; same_answer; bool_facts; trace_facts; same_answer;
    try congruence; try lia.
Qed.

(** Both implementations answer a balance below the amount with the same
    error, after three reads and nothing else. *)
Lemma Web3Service_insufficient_balance (id : Z) (raw : RawInvoice)
  (ic pc caller : string) (bal : Z) :
  invoiceContract svc = Some ic -> pyusdContract svc = Some pc ->
  signer svc = true ->
  contract_getInvoice env id = inl raw ->
  signer_getAddress env = inl caller ->
  pyusd_balanceOf env caller = inl bal ->
  bal < raw_amount raw ->
  run (Web3Service.payInvoice svc id) env
  = (inl {| Gateway.success := false; invoiceId := None;
            transactionHash := None;
            Gateway.error := Some "Insufficient PYUSD balance" |},
     [ {| call := GetInvoice id; returned := true |};
       {| call := GetAddress; returned := true |};
       {| call := BalanceOf caller; returned := true |} ]).
Proof.
  intros Hic Hpc Hs Hraw Hcaller Hbal Hlt.
  unfold Web3Service.payInvoice, Web3Service.payInvoice_try. unfold_run.
  rewrite Hic, Hpc, Hs, Hraw, Hcaller, Hbal.
  cbn [fst snd app is_ok].
  replace (bal <? raw_amount raw) with true by (symmetry; now apply Z.ltb_lt).
  reflexivity.
Qed.

Lemma BlockchainService_insufficient_balance (id : Z) (raw : RawInvoice)
  (ic pc caller : string) (bal : Z) :
  invoiceContract svc = Some ic -> pyusdContract svc = Some pc ->
  signer svc = true ->
  contract_getInvoice env id = inl raw ->
  Z.abs (raw_id raw) < 2 ^ 53 -> Z.abs (raw_createdAt raw) < 2 ^ 53 ->
  Z.abs (raw_paidAt raw) < 2 ^ 53 ->
  raw_status raw = Types.UNPAID ->
  signer_getAddress env = inl caller ->
  toLowerCase (raw_creator raw) <> toLowerCase caller ->
  pyusd_balanceOf env caller = inl bal ->
  bal < raw_amount raw ->
  run (BlockchainService.payInvoice svc id) env
  = (inl {| Gateway.success := false; invoiceId := None;
            transactionHash := None;
            Gateway.error := Some "Insufficient PYUSD balance" |},
     [ {| call := GetInvoice id; returned := true |};
       {| call := GetAddress; returned := true |};
       {| call := BalanceOf caller; returned := true |} ]).
Proof.
  intros Hic Hpc Hs Hraw H1 H2 H3 Hst Hcaller Hne Hbal Hlt.
  unfold BlockchainService.payInvoice, BlockchainService.payInvoice_try,
    BlockchainService.getInvoice. unfold_run.
  unfold BigNumber_toNumber.
  rewrite Hic, Hpc, Hs, Hraw.
  cbn [fst snd app is_ok].
  apply Z.ltb_lt in H1, H2, H3. rewrite H1, H2, H3.
  cbn [Types.status Types.creator Types.amount].
  rewrite Hst. change (Types.UNPAID =? Types.UNPAID) with true. cbn [negb].
  rewrite Hcaller. cbn [fst snd app is_ok].
  apply String.eqb_neq in Hne. rewrite Hne.
  rewrite Hbal, BigNumber_from_toString. cbn [fst snd app is_ok].
  replace (bal <? raw_amount raw) with true by (symmetry; now apply Z.ltb_lt).
  reflexivity.
Qed.

Lemma BlockchainService_createInvoice_upload (draft : InvoiceCreationData) :
  let out := run (BlockchainService.createInvoice svc draft) env in
  (upload_failed (upload_typed env draft) ->
   exists res msg,
     fst out = inl res /\ Gateway.success res = false /\
     Gateway.error res = Some msg /\ no_create_call (snd out) = true) /\
  (no_create_call (snd out) = false ->
   exists ipfs h rest,
     upload_typed env draft = inl ipfs /\ ipfs_success ipfs = true /\
     Gateway.ipfsHash ipfs = Some h /\
     snd out = {| call := UploadInvoiceData; returned := true |} :: rest).
Proof.
  unfold BlockchainService.createInvoice, BlockchainService.createInvoice_try.
  unfold_run. unfold upload_failed.
  answer_cases; cbn [fst snd]; split; intros H; trace_facts; bool_facts;
    try discriminate; try contradiction; try congruence;
    try (eexists; eexists; repeat split; reflexivity).
  all: match goal with
       | Hh : truthy (Gateway.ipfsHash ?i) = true |- _ =>
           destruct (Gateway.ipfsHash i) as [h|] eqn:Eh; [|discriminate Hh];
           eexists; exists h; eexists; repeat split; eauto
       end.
Qed.

Lemma createBlockchainInvoice_upload
  (ws : option BlockchainContext.WalletState) (draft : InvoiceFormData) :
  let out := run (BlockchainContext.createBlockchainInvoice ws svc draft) env in
  (upload_failed (upload_form env draft) ->
   exists res msg,
     fst out = inl res /\ Gateway.success res = false /\
     Gateway.error res = Some msg /\ no_create_call (snd out) = true) /\
  (no_create_call (snd out) = false ->
   exists ipfs rest,
     upload_form env draft = inl ipfs /\ ipfs_success ipfs = true /\
     snd out = {| call := UploadInvoiceData; returned := true |} :: rest).
Proof.
  unfold BlockchainContext.createBlockchainInvoice,
    BlockchainContext.createBlockchainInvoice_try,
    Web3Service.createInvoice, Web3Service.createInvoice_try,
    Web3Service.getWalletState.
  unfold_run. unfold upload_failed.
  answer_cases; cbn [fst snd]; split; intros H; trace_facts; bool_facts;
    try discriminate; try contradiction; try congruence;
    try (eexists; eexists; repeat split; reflexivity);
    try (eexists; eexists; repeat split; eauto).
Qed.

End GatewayRuns.

(** C6.  In both implementations of [payInvoice], once the allowance has
    been read, an approval transaction is issued exactly when the allowance
    is strictly below the invoice amount; no approval is issued without that
    read; and between an approval transaction and the payment transaction
    the confirmation of the approval ([approveTx.wait()]) has returned.
    Moreover the payment transaction is never submitted without that read:
    whenever it was submitted, the calls before it are, in this order, the
    reads of the invoice, of the caller's address, of its balance and of its
    allowance for the invoice contract, then the approval of the invoice
    amount and its confirmation when that allowance is strictly below the
    amount and nothing when it is not, then (in [Web3Service]) the gas
    estimate; and a success is reported only when the last two calls are the
    payment transaction and its confirmation, both returned. *)
Theorem payInvoice_approval_before_payment (env : Env) (svc : Service)
  (id : Z) (raw : RawInvoice) (owner spender : string) (a : Z) :
  contract_getInvoice env id = inl raw ->
  pyusd_allowance env owner spender = inl a ->
  let tb := snd (run (BlockchainService.payInvoice svc id) env) in
  let tw := snd (run (Web3Service.payInvoice svc id) env) in
  (In {| call := Allowance owner spender; returned := true |} tb ->
   (approve_issued tb = true <-> a < raw_amount raw)) /\
  (In {| call := Allowance owner spender; returned := true |} tw ->
   (approve_issued tw = true <-> a < raw_amount raw)) /\
  (approve_issued tb = true ->
   exists o s, In {| call := Allowance o s; returned := true |} tb) /\
  (approve_issued tw = true ->
   exists o s, In {| call := Allowance o s; returned := true |} tw) /\
  approvals_confirmed tb /\ approvals_confirmed tw /\
  (pay_issued tb = true ->
   exists caller contract allowance r tail,
     signer_getAddress env = inl caller /\
     invoiceContract svc = Some contract /\
     pyusd_allowance env caller contract = inl allowance /\
     tb = (payment_steps caller contract id allowance (raw_amount raw) []
             {| call := PayInvoice id None; returned := r |} ++ tail)%list) /\
  (pay_issued tw = true ->
   exists caller contract allowance g r tail,
     signer_getAddress env = inl caller /\
     invoiceContract svc = Some contract /\
     pyusd_allowance env caller contract = inl allowance /\
     estimateGas_payInvoice env id = inl g /\
     tw = (payment_steps caller contract id allowance (raw_amount raw)
             [ok (EstimateGasPayInvoice id)]
             {| call := PayInvoice id (Some (gas_with_buffer g));
                returned := r |} ++ tail)%list) /\
  (forall res,
     fst (run (BlockchainService.payInvoice svc id) env) = inl res ->
     Gateway.success res = true ->
     exists pre tx,
       contract_payInvoice env id None = inl tx /\
       transactionHash res = Some (hash tx) /\
       tb = (pre ++ [ok (PayInvoice id None); ok PayWait])%list) /\
  (forall res,
     fst (run (Web3Service.payInvoice svc id) env) = inl res ->
     Gateway.success res = true ->
     exists pre g tx,
       estimateGas_payInvoice env id = inl g /\
       contract_payInvoice env id (Some (gas_with_buffer g)) = inl tx /\
       transactionHash res = Some (hash tx) /\
       tw = (pre ++ [ok (PayInvoice id (Some (gas_with_buffer g)));
                     ok PayWait])%list).
Proof.
  intros Hraw Ha tb tw.
  split; [|split; [|split; [|split; [|split; [|split;
    [|split; [|split; [|split]]]]]]]].
  - intros Hin. exact (BlockchainService_allowance_decides env svc id owner
                         spender a raw Hin Hraw Ha).
  - intros Hin. exact (Web3Service_allowance_decides env svc id owner
                         spender a raw Hin Hraw Ha).
  - apply BlockchainService_approval_needs_allowance.
  - apply Web3Service_approval_needs_allowance.
  - apply (approval_order_sound tb NotRequested).
    apply BlockchainService_approval_order.
  - apply (approval_order_sound tw NotRequested).
    apply Web3Service_approval_order.
  - exact (BlockchainService_payment_steps env svc id raw Hraw).
  - exact (Web3Service_payment_steps env svc id raw Hraw).
  - exact (BlockchainService_success_pays env svc id).
  - exact (Web3Service_success_pays env svc id).
Qed.

Lemma payInvoice_approval_before_payment_witness :
  let contract := "0x66bCb1F1cdf4f0338E79E3685CEe1144954B5a2b" in
  let env := Examples.chain Types.UNPAID 250000000 0 Examples.pinned in
  let tb :=
    snd (run (BlockchainService.payInvoice Examples.service 7) env) in
  let tw := snd (run (Web3Service.payInvoice Examples.service 7) env) in
  contract_getInvoice env 7 = inl (Examples.raw_invoice Types.UNPAID) /\
  pyusd_allowance env Examples.payer_address contract = inl 0 /\
  In (ok (Allowance Examples.payer_address contract)) tb /\
  In (ok (Allowance Examples.payer_address contract)) tw /\
  (approve_issued tb = true <-> 0 < 100500000) /\
  (approve_issued tw = true <-> 0 < 100500000) /\
  approvals_confirmed tb /\ approvals_confirmed tw /\
  tb = (payment_steps Examples.payer_address contract 7 0 100500000 []
          (ok (PayInvoice 7 None)) ++ [ok PayWait])%list /\
  tw = (payment_steps Examples.payer_address contract 7 0 100500000
          [ok (EstimateGasPayInvoice 7)]
          (ok (PayInvoice 7 (Some 96000))) ++ [ok PayWait])%list /\
  approval_steps contract 0 100500000
  = [ok (Approve contract 100500000); wait_ok] /\
  fst (run (Web3Service.payInvoice Examples.service 7) env)
  = inl {| Gateway.success := true; invoiceId := None;
           transactionHash := Some "0xb2"; Gateway.error := None |} /\
  (exists pre g tx,
     estimateGas_payInvoice env 7 = inl g /\
     contract_payInvoice env 7 (Some (gas_with_buffer g)) = inl tx /\
     Some "0xb2" = Some (hash tx) /\
     tw = (pre ++ [ok (PayInvoice 7 (Some (gas_with_buffer g)));
                   ok PayWait])%list).
Proof.
  intros contract env tb tw.
  pose proof (payInvoice_approval_before_payment env Examples.service 7
                (Examples.raw_invoice Types.UNPAID) Examples.payer_address
                contract 0 eq_refl eq_refl)
    as (Hb & Hw & _ & _ & Hob & How & _ & _ & _ & Sw).
  assert (Hinb : In (ok (Allowance Examples.payer_address contract)) tb).
  { vm_compute. tauto. }
  assert (Hinw : In (ok (Allowance Examples.payer_address contract)) tw).
  { vm_compute. tauto. }
  split; [reflexivity|]. split; [reflexivity|].
  split; [exact Hinb|]. split; [exact Hinw|].
  split; [exact (Hb Hinb)|]. split; [exact (Hw Hinw)|].
  split; [exact Hob|]. split; [exact How|].
  split; [vm_compute; reflexivity|]. split; [vm_compute; reflexivity|].
  split; [reflexivity|]. split; [vm_compute; reflexivity|].
  apply (Sw _ eq_refl eq_refl).
Defined.

(** With an allowance that covers the amount, no approval is issued and the
    payment follows the allowance read at once. *)
Example payInvoice_without_approval :
  let contract := "0x66bCb1F1cdf4f0338E79E3685CEe1144954B5a2b" in
  let env :=
    Examples.chain Types.UNPAID 250000000 100500000 Examples.pinned in
  snd (run (BlockchainService.payInvoice Examples.service 7) env)
  = (payment_steps Examples.payer_address contract 7 100500000 100500000 []
       (ok (PayInvoice 7 None)) ++ [ok PayWait])%list /\
  snd (run (Web3Service.payInvoice Examples.service 7) env)
  = (payment_steps Examples.payer_address contract 7 100500000 100500000
       [ok (EstimateGasPayInvoice 7)]
       (ok (PayInvoice 7 (Some 96000))) ++ [ok PayWait])%list /\
  approval_steps contract 100500000 100500000 = [] /\
  approve_issued
    (snd (run (Web3Service.payInvoice Examples.service 7) env)) = false.
Proof. intros contract env. repeat split; vm_compute; reflexivity. Qed.

(** C9.  Both [createInvoice] paths upload the draft first: when the upload
    fails (it throws or resolves with [success] false) the method resolves
    to an error object and no call for creating the invoice is issued on the
    contract; and whenever such a call was issued, the trace starts with an
    upload that succeeded. *)
Theorem createInvoice_upload_first (env : Env) (svc : Service)
  (ws : option BlockchainContext.WalletState)
  (typed : InvoiceCreationData) (form : InvoiceFormData) :
  let out1 := run (BlockchainService.createInvoice svc typed) env in
  let out2 := run (BlockchainContext.createBlockchainInvoice ws svc form) env in
  (upload_failed (upload_typed env typed) ->
   exists res msg,
     fst out1 = inl res /\ Gateway.success res = false /\
     Gateway.error res = Some msg /\ no_create_call (snd out1) = true) /\
  (upload_failed (upload_form env form) ->
   exists res msg,
     fst out2 = inl res /\ Gateway.success res = false /\
     Gateway.error res = Some msg /\ no_create_call (snd out2) = true) /\
  (no_create_call (snd out1) = false ->
   exists ipfs rest,
     upload_typed env typed = inl ipfs /\ ipfs_success ipfs = true /\
     snd out1 = {| call := UploadInvoiceData; returned := true |} :: rest) /\
  (no_create_call (snd out2) = false ->
   exists ipfs rest,
     upload_form env form = inl ipfs /\ ipfs_success ipfs = true /\
     snd out2 = {| call := UploadInvoiceData; returned := true |} :: rest).
Proof.
  intros out1 out2.
  destruct (BlockchainService_createInvoice_upload env svc typed) as [A1 B1].
  destruct (createBlockchainInvoice_upload env svc ws form) as [A2 B2].
  split; [exact A1|]. split; [exact A2|]. split; [|exact B2].
  intros H. destruct (B1 H) as (ipfs & h & rest & E1 & E2 & _ & E3).
  eauto.
Qed.

Lemma createInvoice_upload_first_witness :
  let env := Examples.chain Types.UNPAID 250000000 0 Examples.not_pinned in
  upload_failed (upload_typed env (Examples.draft (parseFloat "2.01"))) /\
  upload_failed (upload_form env (Examples.draft "2.01")) /\
  run (BlockchainService.createInvoice Examples.service
         (Examples.draft (parseFloat "2.01"))) env
  = (inl {| Gateway.success := false; invoiceId := None;
            transactionHash := None;
            Gateway.error := Some "Pinata API error: 401" |},
     [ {| call := UploadInvoiceData; returned := true |} ]) /\
  exists res msg,
    fst (run (BlockchainContext.createBlockchainInvoice
                (Some Examples.connected) Examples.service
                (Examples.draft "2.01")) env) = inl res /\
    Gateway.success res = false /\ Gateway.error res = Some msg /\
    no_create_call
      (snd (run (BlockchainContext.createBlockchainInvoice
                   (Some Examples.connected) Examples.service
                   (Examples.draft "2.01")) env)) = true.
Proof.
  intros env.
  split; [reflexivity|]. split; [reflexivity|].
  split; [vm_compute; reflexivity|].
  apply (createInvoice_upload_first env Examples.service
           (Some Examples.connected) (Examples.draft (parseFloat "2.01"))
           (Examples.draft "2.01")).
  reflexivity.
Defined.

(** C5 (code defect).  On a chain where invoice 7 is already paid, the
    payer holds enough tokens and has approved none, [Web3Service.payInvoice]
    does not reject locally: it sends and confirms an approval transaction
    and only fails when the contract reverts the gas estimate of the payment.
    [BlockchainService.payInvoice] rejects the same call after the single
    read of the invoice. *)
Theorem Web3Service_payInvoice_skips_status_check :
  let env := Examples.chain Types.PAID 250000000 0 Examples.pinned in
  raw_status (Examples.raw_invoice Types.PAID) <> Types.UNPAID /\
  run (Web3Service.payInvoice Examples.service 7) env
  = (inl {| Gateway.success := false; invoiceId := None;
            transactionHash := None;
            Gateway.error :=
              Some "execution reverted: Invoice is not unpaid" |},
     [ {| call := GetInvoice 7; returned := true |};
       {| call := GetAddress; returned := true |};
       {| call := BalanceOf Examples.payer_address; returned := true |};
       {| call := Allowance Examples.payer_address
                    "0x66bCb1F1cdf4f0338E79E3685CEe1144954B5a2b";
          returned := true |};
       {| call := Approve "0x66bCb1F1cdf4f0338E79E3685CEe1144954B5a2b"
                    100500000;
          returned := true |};
       {| call := ApproveWait; returned := true |};
       {| call := EstimateGasPayInvoice 7; returned := false |} ]) /\
  no_transaction (snd (run (Web3Service.payInvoice Examples.service 7) env))
  = false /\
  run (BlockchainService.payInvoice Examples.service 7) env
  = (inl {| Gateway.success := false; invoiceId := None;
            transactionHash := None;
            Gateway.error := Some "Invoice is not in unpaid status" |},
     [ {| call := GetInvoice 7; returned := true |} ]).
Proof.
  intros env. split; [discriminate|].
  repeat split; vm_compute; reflexivity.
Qed.

(** ** Payment-URI builders *)

Import BlockchainInvoicesList.

Section Builders.

Variable isAddress : string -> bool.
Variable toDataURL : string -> QROptions -> Result string.
Variable JSON_stringify : PaymentQRData -> string.

(** The URI of the token-transfer builder, whenever it builds one. *)
Lemma token_transfer_uri_form (amount addr u wei : string) :
  generatePYUSDPaymentQR_uri isAddress amount addr = inl (u, wei) ->
  wei = amountInWei amount /\
  u = "ethereum:0xCaC524BcA292aaade2DF8A05cC58F0a65B1B3bB9@11155111/transfer?address="
      ++ addr ++ "&uint256=" ++ amountInWei amount ++ "&gas=100000".
Proof.
  unfold generatePYUSDPaymentQR_uri.
  cbn [Networks.pyusdAddress Networks.sepolia].
  destruct (negb (truthy (Some addr)) || negb (isAddress addr));
    [discriminate|].
  destruct (negb (truthy (Some amount)) || isNaN (parseFloat amount)
            || Number_le_zero (parseFloat amount)); [discriminate|].
  intros H. injection H as <- <-. split; reflexivity.
Qed.

(** C1 (as amended).  For invoice id 123, amount "100.50", the scenario
    recipient and the Sepolia token, whenever the address validator accepts
    the recipient, the token-transfer builder builds the scenario URI
    followed by [&gas=100000], with base-unit amount 100500000; and when the
    QR encoder accepts that text the builder resolves to a success carrying
    exactly this URI. *)
Theorem generatePYUSDPaymentQR_scenario (options : QRCodeOptions) :
  isAddress Examples.recipient = true ->
  generatePYUSDPaymentQR_uri isAddress "100.50" Examples.recipient
  = inl (Examples.scenario_uri ++ "&gas=100000", "100500000") /\
  forall url,
    toDataURL (Examples.scenario_uri ++ "&gas=100000")
              (qrOptions options 256 4 ecM) = inl url ->
    generatePYUSDPaymentQR isAddress toDataURL 123 "100.50"
      Examples.recipient options
    = {| QRCodeService.success := true; qrCodeDataUrl := Some url;
         uri := Some (Examples.scenario_uri ++ "&gas=100000");
         deepLink := None; data := None; QRCodeService.error := None |}.
Proof.
  intros Hv.
  assert (E : generatePYUSDPaymentQR_uri isAddress "100.50" Examples.recipient
              = inl (Examples.scenario_uri ++ "&gas=100000", "100500000")).
  { unfold generatePYUSDPaymentQR_uri.
    cbn [Networks.pyusdAddress Networks.sepolia].
    rewrite Hv. vm_compute. reflexivity. }
  split; [exact E|].
  intros url Hurl.
  unfold generatePYUSDPaymentQR, generatePYUSDPaymentQR_logged.
  rewrite E, Hurl. reflexivity.
Qed.

(** C10.  The object [generatePYUSDPaymentQR] resolves to, and so its URI,
    is the same for any two invoice ids; the id only reaches the console. *)
Theorem generatePYUSDPaymentQR_ignores_invoiceId (id1 id2 : Z)
  (amount addr : string) (options : QRCodeOptions) :
  generatePYUSDPaymentQR isAddress toDataURL id1 amount addr options
  = generatePYUSDPaymentQR isAddress toDataURL id2 amount addr options.
Proof.
  unfold generatePYUSDPaymentQR, generatePYUSDPaymentQR_logged.
  destruct (generatePYUSDPaymentQR_uri isAddress amount addr) as [[u wei]|e];
    [|reflexivity].
  destruct (toDataURL u (qrOptions options 256 4 ecM)); reflexivity.
Qed.

(** C8 (as amended).  The token-transfer builder [generatePYUSDPaymentQR]
    validates before it builds: for a recipient the address validator
    rejects, or an amount that does not read as a number or is not positive,
    it resolves to a failure that carries no URI, no image and no deep link,
    with the message naming the address, respectively the amount. *)
Theorem generatePYUSDPaymentQR_rejects_invalid (id : Z) (amount addr : string)
  (options : QRCodeOptions) :
  isAddress addr = false \/ isNaN (parseFloat amount) = true
  \/ Number_le_zero (parseFloat amount) = true ->
  exists msg,
    generatePYUSDPaymentQR isAddress toDataURL id amount addr options
    = {| QRCodeService.success := false; qrCodeDataUrl := None; uri := None;
         deepLink := None; data := None; QRCodeService.error := Some msg |}
    /\ (isAddress addr = false -> msg = "Invalid contract address provided")
    /\ (isAddress addr = true -> addr <> "" ->
        msg = "Invalid amount provided").
Proof.
  intros H.
  unfold generatePYUSDPaymentQR, generatePYUSDPaymentQR_logged,
    generatePYUSDPaymentQR_uri.
  cbn [Networks.pyusdAddress Networks.sepolia].
  set (bad_amount := negb (truthy (Some amount)) || isNaN (parseFloat amount)
                     || Number_le_zero (parseFloat amount)).
  destruct (negb (truthy (Some addr)) || negb (isAddress addr)) eqn:Eaddr.
  - exists "Invalid contract address provided". split; [reflexivity|].
    split; [reflexivity|]. intros Hv Hne.
    rewrite Hv in Eaddr. destruct addr; [congruence | discriminate Eaddr].
  - apply orb_false_iff in Eaddr as [_ Hv]. apply negb_false_iff in Hv.
    assert (Hbad : bad_amount = true).
    { unfold bad_amount. rewrite <- orb_assoc. apply orb_true_iff. right.
      apply orb_true_iff. destruct H as [H | H]; [congruence | exact H]. }
    rewrite Hbad. exists "Invalid amount provided". split; [reflexivity|].
    split; [congruence | reflexivity].
Qed.

(** The result [handleGenerateQR] displays and the builders it called, by
    cases on which builder succeeds first. *)
Lemma selectQR_cases (invoice : Types.Invoice) :
  selectQR isAddress toDataURL JSON_stringify invoice
  = (if QRCodeService.success
          (generateMetaMaskMobileQR toDataURL (Types.id invoice)
             (Types.amount invoice) (Types.creator invoice) noOptions)
     then (generateMetaMaskMobileQR toDataURL (Types.id invoice)
             (Types.amount invoice) (Types.creator invoice) noOptions,
           [MetaMaskMobileQR])
     else if QRCodeService.success
               (generatePYUSDPaymentQR isAddress toDataURL (Types.id invoice)
                  (Types.amount invoice) (Types.creator invoice) noOptions)
     then (kept (generatePYUSDPaymentQR isAddress toDataURL (Types.id invoice)
                   (Types.amount invoice) (Types.creator invoice) noOptions)
                (uri (generatePYUSDPaymentQR isAddress toDataURL
                        (Types.id invoice) (Types.amount invoice)
                        (Types.creator invoice) noOptions)),
           [MetaMaskMobileQR; PYUSDPaymentQR])
     else if QRCodeService.success
               (generateStructuredPaymentQR toDataURL JSON_stringify
                  (Types.id invoice) (Types.amount invoice)
                  (Types.creator invoice) noOptions)
     then (kept (generateStructuredPaymentQR toDataURL JSON_stringify
                   (Types.id invoice) (Types.amount invoice)
                   (Types.creator invoice) noOptions)
                (option_map JSON_stringify
                   (data (generateStructuredPaymentQR toDataURL JSON_stringify
                            (Types.id invoice) (Types.amount invoice)
                            (Types.creator invoice) noOptions))),
           [MetaMaskMobileQR; PYUSDPaymentQR; StructuredPaymentQR])
     else (generateMetaMaskMobileQR toDataURL (Types.id invoice)
             (Types.amount invoice) (Types.creator invoice) noOptions,
           [MetaMaskMobileQR; PYUSDPaymentQR; StructuredPaymentQR])).
Proof.
  unfold selectQR, fallback_structured, fallback_eip, kept.
  destruct (QRCodeService.success (generateMetaMaskMobileQR _ _ _ _ _)) eqn:E1;
    cbn [negb app].
  - rewrite E1. reflexivity.
  - destruct (QRCodeService.success (generatePYUSDPaymentQR _ _ _ _ _ _))
      eqn:E2; cbn [negb app QRCodeService.success].
    + reflexivity.
    + rewrite E1. cbn [negb app].
      destruct (QRCodeService.success
                  (generateStructuredPaymentQR _ _ _ _ _ _)); reflexivity.
Qed.

Lemma handleGenerateQR_attempts (invoice : Types.Invoice) :
  attempts (handleGenerateQR isAddress toDataURL JSON_stringify invoice)
  = snd (selectQR isAddress toDataURL JSON_stringify invoice).
Proof.
  unfold handleGenerateQR.
  destruct (selectQR isAddress toDataURL JSON_stringify invoice) as [r called].
  destruct (QRCodeService.success r); [|reflexivity].
  destruct (qrCodeDataUrl r) as [[|c s]|]; reflexivity.
Qed.

(** C3 (as amended).  [handleGenerateQR] calls the mobile deep-link builder
    first, the token-transfer builder only if that failed, and the
    structured JSON builder only if both failed; it never calls the generic
    builder.  The first builder that succeeds provides the displayed result.
    When all three fail the action opens no modal and reports the error of
    the mobile deep-link builder, the first one called. *)
Theorem handleGenerateQR_fallback_order (invoice : Types.Invoice) :
  let mobile :=
    generateMetaMaskMobileQR toDataURL (Types.id invoice)
      (Types.amount invoice) (Types.creator invoice) noOptions in
  let eip :=
    generatePYUSDPaymentQR isAddress toDataURL (Types.id invoice)
      (Types.amount invoice) (Types.creator invoice) noOptions in
  let structured :=
    generateStructuredPaymentQR toDataURL JSON_stringify (Types.id invoice)
      (Types.amount invoice) (Types.creator invoice) noOptions in
  let action := handleGenerateQR isAddress toDataURL JSON_stringify invoice in
  selectQR isAddress toDataURL JSON_stringify invoice
  = (if QRCodeService.success mobile then (mobile, [MetaMaskMobileQR])
     else if QRCodeService.success eip
     then (kept eip (uri eip), [MetaMaskMobileQR; PYUSDPaymentQR])
     else if QRCodeService.success structured
     then (kept structured (option_map JSON_stringify (data structured)),
           [MetaMaskMobileQR; PYUSDPaymentQR; StructuredPaymentQR])
     else (mobile, [MetaMaskMobileQR; PYUSDPaymentQR; StructuredPaymentQR]))
  /\ attempts action
     = snd (selectQR isAddress toDataURL JSON_stringify invoice)
  /\ ~ In GenericPaymentQR (attempts action)
  /\ (QRCodeService.success mobile = false ->
      QRCodeService.success eip = false ->
      QRCodeService.success structured = false ->
      modal action = None /\
      toast action
      = ("Failed to generate QR code: "
         ++ string_or (QRCodeService.error mobile)
              "Failed to generate QR code with all methods",
         toast_danger)).
Proof.
  cbv zeta.
  split; [apply selectQR_cases|]. split; [apply handleGenerateQR_attempts|].
  split.
  - rewrite handleGenerateQR_attempts, selectQR_cases.
    repeat match goal with
           | |- context [if ?b then _ else _] => destruct b
           end; cbn; intuition discriminate.
  - intros E1 E2 E3. unfold handleGenerateQR.
    rewrite selectQR_cases, E1, E2, E3, E1.
    split; reflexivity.
Qed.

End Builders.

(** The invoice id does reach the console of [generatePYUSDPaymentQR]. *)
Example console_carries_invoiceId :
  snd (generatePYUSDPaymentQR_logged is_hex_address Examples.toDataURL_ok 123
         "100.50" Examples.recipient noOptions)
  = [ LogUri (Examples.scenario_uri ++ "&gas=100000");
      LogQRData Examples.token 11155111 Examples.recipient "100.50"
        "100500000" 123 ].
Proof. vm_compute. reflexivity. Qed.

Lemma generatePYUSDPaymentQR_scenario_witness :
  is_hex_address Examples.recipient = true /\
  generatePYUSDPaymentQR is_hex_address Examples.toDataURL_ok 123 "100.50"
    Examples.recipient noOptions
  = {| QRCodeService.success := true;
       qrCodeDataUrl :=
         Some ("data:image/png;base64,"
               ++ Examples.scenario_uri ++ "&gas=100000");
       uri := Some (Examples.scenario_uri ++ "&gas=100000");
       deepLink := None; data := None; QRCodeService.error := None |}.
Proof.
  split; [reflexivity|].
  apply (proj2 (generatePYUSDPaymentQR_scenario is_hex_address
                  Examples.toDataURL_ok noOptions eq_refl)).
  reflexivity.
Defined.

(** C1, as stated, fails: the URI that is built is not the bare scenario
    URI, it carries the extra parameter [gas=100000]. *)
Lemma generatePYUSDPaymentQR_scenario_has_gas :
  uri (generatePYUSDPaymentQR is_hex_address Examples.toDataURL_ok 123
         "100.50" Examples.recipient noOptions)
  = Some (Examples.scenario_uri ++ "&gas=100000")
  /\ uri (generatePYUSDPaymentQR is_hex_address Examples.toDataURL_ok 123
            "100.50" Examples.recipient noOptions)
     <> Some Examples.scenario_uri.
Proof. split; [vm_compute; reflexivity | vm_compute; discriminate]. Qed.

Lemma generatePYUSDPaymentQR_rejects_invalid_witness :
  is_hex_address "not-an-address" = false /\
  exists msg,
    generatePYUSDPaymentQR is_hex_address Examples.toDataURL_ok 123 "100.50"
      "not-an-address" noOptions
    = {| QRCodeService.success := false; qrCodeDataUrl := None; uri := None;
         deepLink := None; data := None; QRCodeService.error := Some msg |}
    /\ (is_hex_address "not-an-address" = false ->
        msg = "Invalid contract address provided")
    /\ (is_hex_address "not-an-address" = true -> "not-an-address" <> "" ->
        msg = "Invalid amount provided").
Proof.
  split; [reflexivity|].
  apply (generatePYUSDPaymentQR_rejects_invalid is_hex_address
           Examples.toDataURL_ok 123 "100.50" "not-an-address" noOptions).
  left. reflexivity.
Defined.

(** C8, as stated, fails on the other builders: [generatePaymentQR] emits a
    deep link for a malformed recipient and a negative amount. *)
Lemma generatePaymentQR_emits_unvalidated :
  is_hex_address "not-an-address" = false /\
  Number_le_zero (parseFloat "-5") = true /\
  generatePaymentQR Examples.toDataURL_ok 1 "-5" "not-an-address" noOptions
  = {| QRCodeService.success := true;
       qrCodeDataUrl :=
         Some "data:image/png;base64,ethereum:0xCaC524BcA292aaade2DF8A05cC58F0a65B1B3bB9@11155111/transfer?address=not-an-address&uint256=-5";
       uri := None;
       deepLink :=
         Some "ethereum:0xCaC524BcA292aaade2DF8A05cC58F0a65B1B3bB9@11155111/transfer?address=not-an-address&uint256=-5";
       data := None; QRCodeService.error := None |}.
Proof. repeat split; vm_compute; reflexivity. Qed.

Lemma handleGenerateQR_fallback_order_witness :
  let mobile :=
    generateMetaMaskMobileQR Examples.toDataURL_rejects 123 "100500000"
      Examples.recipient noOptions in
  QRCodeService.success mobile = false /\
  attempts (handleGenerateQR is_hex_address Examples.toDataURL_rejects
              Examples.stringify Examples.invoice)
  = [MetaMaskMobileQR; PYUSDPaymentQR; StructuredPaymentQR] /\
  modal (handleGenerateQR is_hex_address Examples.toDataURL_rejects
           Examples.stringify Examples.invoice) = None /\
  toast (handleGenerateQR is_hex_address Examples.toDataURL_rejects
           Examples.stringify Examples.invoice)
  = ("Failed to generate QR code: "
     ++ string_or (QRCodeService.error mobile)
          "Failed to generate QR code with all methods",
     toast_danger).
Proof.
  intros mobile.
  pose proof (handleGenerateQR_fallback_order is_hex_address
                Examples.toDataURL_rejects Examples.stringify
                Examples.invoice) as (Hsel & Hatt & _ & Hfail).
  split; [reflexivity|].
  split; [rewrite Hatt, Hsel; reflexivity|].
  apply Hfail; reflexivity.
Defined.

(** C3, as stated, fails.  With an encoder that accepts every text the
    only builder called is the mobile deep-link builder, and its link, not
    the token-transfer URI, is displayed.  With an encoder that rejects every
    text the structured builder is called, the generic one is not, and the
    error reported is that of the first builder, not of the last. *)
Lemma handleGenerateQR_not_claimed_order :
  attempts (handleGenerateQR is_hex_address Examples.toDataURL_ok
              Examples.stringify Examples.invoice)
  = [MetaMaskMobileQR] /\
  hd_error (attempts (handleGenerateQR is_hex_address Examples.toDataURL_ok
                        Examples.stringify Examples.invoice))
  <> Some PYUSDPaymentQR /\
  attempts (handleGenerateQR is_hex_address Examples.toDataURL_rejects
              Examples.stringify Examples.invoice)
  = [MetaMaskMobileQR; PYUSDPaymentQR; StructuredPaymentQR] /\
  QRCodeService.error
    (generateStructuredPaymentQR Examples.toDataURL_rejects Examples.stringify
       123 "100500000" Examples.recipient noOptions)
  = Some "Failed to generate structured payment QR" /\
  toast (handleGenerateQR is_hex_address Examples.toDataURL_rejects
           Examples.stringify Examples.invoice)
  = ("Failed to generate QR code: The amount of data is too big to be stored in a QR Code",
     toast_danger).
Proof.
  split; [vm_compute; reflexivity|].
  split; [vm_compute; discriminate|].
  repeat split; vm_compute; reflexivity.
Qed.

(** ** Wallet state synchroniser *)

(** C7.  From any connected state, and whatever state the listener
    captured, the ["accountsChanged"] listener called with no account (an
    empty list, or no list) leaves the wallet state disconnected, with
    address and chain id cleared and balance "0", in that one step: no timer
    is scheduled. *)
Theorem accountsChanged_empty_disconnects
  (captured : WalletContext.WalletState) (accounts : option (list string))
  (w : WalletContext.World) :
  WalletContext.isConnected (WalletContext.walletState w) = true ->
  accounts = None \/ accounts = Some [] ->
  let w' := WalletContext.accountsChanged captured accounts w in
  WalletContext.walletState w' = WalletContext.disconnected /\
  WalletContext.isConnected (WalletContext.walletState w') = false /\
  WalletContext.address (WalletContext.walletState w') = None /\
  WalletContext.chainId (WalletContext.walletState w') = None /\
  WalletContext.balance (WalletContext.walletState w') = "0" /\
  WalletContext.timers w' = WalletContext.timers w.
Proof.
  intros _ [-> | ->]; cbn [WalletContext.accountsChanged];
    unfold WalletContext.disconnectWallet, WalletContext.removeEventListeners,
      WalletContext.setWalletState, WalletContext.removeAllListeners;
    cbn [WalletContext.ethereum WalletContext.walletState
         WalletContext.timers WalletContext.listeners];
    destruct (WalletContext.ethereum w); cbn; repeat split; reflexivity.
Qed.

Lemma accountsChanged_empty_disconnects_witness :
  WalletContext.isConnected (WalletContext.walletState Examples.wallet) = true /\
  WalletContext.walletState
    (WalletContext.accountsChanged
       (WalletContext.walletState Examples.wallet) (Some []) Examples.wallet)
  = WalletContext.disconnected /\
  WalletContext.listeners
    (WalletContext.accountsChanged
       (WalletContext.walletState Examples.wallet) (Some []) Examples.wallet)
  = [].
Proof.
  split; [reflexivity|].
  split; [|reflexivity].
  apply (accountsChanged_empty_disconnects
           (WalletContext.walletState Examples.wallet) (Some [])
           Examples.wallet eq_refl (or_intror eq_refl)).
Defined.

(* ================================================================== *)
(** * Properties of the code beside the payment flow *)
(* ================================================================== *)

Import RegExp QRCodeChecks Shapes Shapes2.

(** ** Strings, continued *)

Lemma all_chars_weaken (p q : ascii -> bool) (s : string) :
  (forall a, p a = true -> q a = true) ->
  all_chars p s = true -> all_chars q s = true.
Proof.
  intros Hpq. induction s as [|x s IH]; simpl; [reflexivity|].
  intros H. apply andb_true_iff in H as [H1 H2].
  now rewrite (Hpq _ H1), IH.
Qed.

Lemma all_chars_substring (p : ascii -> bool) (s : string) :
  all_chars p s = true ->
  forall i n, all_chars p (substring i n s) = true.
Proof.
  induction s as [|x s IH]; intros H i n.
  - destruct i, n; reflexivity.
  - simpl in H. apply andb_true_iff in H as [H1 H2].
    destruct i as [|i]; simpl.
    + destruct n as [|n]; simpl; [reflexivity|].
      now rewrite H1, IH.
    + now apply IH.
Qed.

Lemma prefix_app (w s : string) : prefix w (w ++ s) = true.
Proof.
  induction w as [|x w IH]; simpl; [now destruct s|].
  destruct (ascii_dec x x); [exact IH | congruence].
Qed.

Lemma consumed_app (a rest : string) : consumed (a ++ rest) rest = a.
Proof.
  unfold consumed. rewrite length_append.
  replace (String.length a + String.length rest - String.length rest)%nat
    with (String.length a) by lia.
  induction a as [|x a IH]; simpl.
  - now destruct rest.
  - now rewrite IH.
Qed.

(** ** The matcher *)

(** A literal is matched character by character. *)
Lemma exec_literal (w s : string) (c : Captures) (k : Continuation) :
  exec_from (literal w) (w ++ s) c k = k s c.
Proof.
  induction w as [|x w IH]; simpl; [reflexivity|].
  now rewrite Ascii.eqb_refl.
Qed.

(** Greedy repetition of a class takes the whole run when the rest of the
    pattern accepts what follows. *)
Lemma repeat_class_greedy (p : ascii -> bool) (a rest : string)
  (c : Captures) (k : Continuation) (out : Captures) :
  all_chars p a = true -> stops p rest -> k rest c = Some out ->
  forall fuel, (String.length a <= fuel)%nat ->
  repeat_greedy (exec_from (Char p)) fuel (a ++ rest) c k = Some out.
Proof.
  intros Ha Hstop Hk. induction a as [|x a IH]; intros fuel Hf.
  - simpl. destruct fuel as [|f]; simpl; [exact Hk|].
    destruct rest as [|y rest]; simpl; [exact Hk|].
    simpl in Hstop. rewrite Hstop. exact Hk.
  - simpl in Ha. apply andb_true_iff in Ha as [Hx Ha].
    destruct fuel as [|f]; [simpl in Hf; lia|].
    cbn [repeat_greedy append exec_from]. rewrite Hx.
    unfold progress at 1. cbn [String.length].
    replace (String.length (a ++ rest) <? S (String.length (a ++ rest)))%nat
      with true by (symmetry; apply Nat.ltb_lt; lia).
    rewrite IH; [reflexivity | exact Ha | simpl in Hf; lia].
Qed.

Lemma star_class_greedy (p : ascii -> bool) (a rest : string)
  (c : Captures) (k : Continuation) (out : Captures) :
  all_chars p a = true -> stops p rest -> k rest c = Some out ->
  exec_from (Star (Char p)) (a ++ rest) c k = Some out.
Proof.
  intros Ha Hs Hk. cbn [exec_from].
  apply repeat_class_greedy; try assumption.
  rewrite length_append. lia.
Qed.

Lemma plus_class_greedy (p : ascii -> bool) (x : ascii) (a rest : string)
  (c : Captures) (k : Continuation) (out : Captures) :
  all_chars p (String x a) = true -> stops p rest -> k rest c = Some out ->
  exec_from (Plus (Char p)) (String x a ++ rest) c k = Some out.
Proof.
  intros Ha Hs Hk. simpl in Ha. apply andb_true_iff in Ha as [Hx Ha].
  cbn [exec_from append]. rewrite Hx.
  apply repeat_class_greedy; try assumption.
  rewrite length_append. lia.
Qed.

(** What a successful greedy repetition of a class consumed. *)
Lemma repeat_class_sound (p : ascii -> bool) (k : Continuation)
  (out : Captures) :
  forall fuel s c,
  repeat_greedy (exec_from (Char p)) fuel s c k = Some out ->
  exists a rest, s = a ++ rest /\ all_chars p a = true /\ k rest c = Some out.
Proof.
  induction fuel as [|f IH]; intros s c H.
  - exists "", s. simpl in H. now repeat split.
  - cbn [repeat_greedy] in H.
    destruct (exec_from (Char p) s c
                (progress s (fun s' c' =>
                   repeat_greedy (exec_from (Char p)) f s' c' k)))
      as [o|] eqn:E.
    + injection H as ->. destruct s as [|x s]; [discriminate E|].
      cbn [exec_from] in E. destruct (p x) eqn:Hx; [|discriminate E].
      unfold progress in E.
      destruct (String.length s <? String.length (String x s))%nat;
        [|discriminate E].
      destruct (IH _ _ E) as (a & rest & -> & Ha & Hk).
      exists (String x a), rest. simpl. rewrite Hx, Ha. now repeat split.
    + exists "", s. now repeat split.
Qed.

Lemma star_class_sound (p : ascii -> bool) (k : Continuation)
  (out : Captures) (s : string) (c : Captures) :
  exec_from (Star (Char p)) s c k = Some out ->
  exists a rest, s = a ++ rest /\ all_chars p a = true /\ k rest c = Some out.
Proof. cbn [exec_from]. apply repeat_class_sound. Qed.

Lemma plus_class_sound (p : ascii -> bool) (k : Continuation)
  (out : Captures) (s : string) (c : Captures) :
  exec_from (Plus (Char p)) s c k = Some out ->
  exists a rest, s = a ++ rest /\ a <> "" /\ all_chars p a = true
                 /\ k rest c = Some out.
Proof.
  cbn [exec_from]. destruct s as [|x s]; [discriminate|].
  destruct (p x) eqn:Hx; [|discriminate].
  intros H. destruct (repeat_class_sound _ _ _ _ _ _ H)
    as (a & rest & -> & Ha & Hk).
  exists (String x a), rest. simpl. rewrite Hx, Ha.
  repeat split; [discriminate | exact Hk].
Qed.

Lemma prefix_split (w s : string) :
  prefix w s = true -> exists r, s = w ++ r.
Proof.
  revert s. induction w as [|x w IH]; intros s H.
  - exists s. reflexivity.
  - destruct s as [|y s]; [discriminate H|]. simpl in H.
    destruct (ascii_dec x y) as [->|]; [|discriminate H].
    destruct (IH _ H) as [r ->]. now exists r.
Qed.

Lemma opt_cases (r : Pattern) (s : string) (c : Captures) (k : Continuation)
  (out : Captures) :
  exec_from (Opt r) s c k = Some out ->
  exec_from r s c (progress s k) = Some out \/ k s c = Some out.
Proof.
  cbn [exec_from]. destruct (exec_from r s c (progress s k)) as [o|].
  - intros H. left. exact H.
  - intros H. right. exact H.
Qed.

Lemma opt_taken (r : Pattern) (s : string) (c : Captures) (k : Continuation)
  (out : Captures) :
  exec_from r s c (progress s k) = Some out ->
  exec_from (Opt r) s c k = Some out.
Proof. cbn [exec_from]. now intros ->. Qed.

Lemma progress_app (x : ascii) (a rest : string) (k : Continuation)
  (c : Captures) :
  progress (String x a ++ rest) k rest c = k rest c.
Proof.
  unfold progress. simpl. rewrite length_append.
  replace (String.length rest <? S (String.length a + String.length rest))%nat
    with true by (symmetry; apply Nat.ltb_lt; lia).
  reflexivity.
Qed.

Lemma progress_inv (s s' : string) (k : Continuation) (c out : Captures) :
  progress s k s' c = Some out -> k s' c = Some out.
Proof.
  unfold progress.
  destruct (String.length s' <? String.length s)%nat; [auto | discriminate].
Qed.

(** ** The EIP-681 pattern of [validatePaymentQR] *)

Lemma prefix_nil (w : string) : prefix "" w = true.
Proof. now destruct w. Qed.

Lemma replace_slash (w : string) : replace "/" "" ("/" ++ w) = w.
Proof.
  cbn [append replace prefix]. destruct (ascii_dec "/" "/"); [|congruence].
  rewrite prefix_nil. simpl. rewrite Nat.sub_0_r. apply substring_all.
Qed.

(** The optional [@]. *)
Lemma opt_at_taken (s : string) (c : Captures) (k : Continuation)
  (out : Captures) :
  k s c = Some out ->
  exec_from (Opt (Char (Ascii.eqb "@"))) ("@" ++ s) c k = Some out.
Proof.
  intros H. apply opt_taken. cbn [append exec_from].
  rewrite Ascii.eqb_refl.
  change (String "@" s) with (String "@" "" ++ s).
  now rewrite progress_app.
Qed.

(** An optional group holding a non-empty run of a class. *)
Lemma opt_group_plus_taken (i : nat) (p : ascii -> bool) (run rest : string)
  (c : Captures) (k : Continuation) (out : Captures) :
  run <> "" -> all_chars p run = true -> stops p rest ->
  k rest (capture i run c) = Some out ->
  exec_from (Opt (Group i (Plus (Char p)))) (run ++ rest) c k = Some out.
Proof.
  intros Hne Hrun Hstop Hk. destruct run as [|x run]; [congruence|].
  apply opt_taken. cbn [exec_from].
  apply (plus_class_greedy p x run rest c _ out Hrun Hstop).
  now rewrite progress_app, consumed_app.
Qed.

(** An optional group that starts with the character [sep], on an input
    that does not. *)
Lemma opt_group_skipped (i : nat) (sep : ascii) (r : Pattern) (s : string)
  (c : Captures) (k : Continuation) :
  stops (Ascii.eqb sep) s ->
  exec_from (Opt (Group i (Seq (Char (Ascii.eqb sep)) r))) s c k = k s c.
Proof.
  intros Hs. cbn [exec_from]. destruct s as [|x s]; [reflexivity|].
  simpl in Hs. now rewrite Hs.
Qed.

Lemma opt_group_plus_skipped (i : nat) (p : ascii -> bool) (s : string)
  (c : Captures) (k : Continuation) :
  stops p s ->
  exec_from (Opt (Group i (Plus (Char p)))) s c k = k s c.
Proof.
  intros Hs. cbn [exec_from]. destruct s as [|x s]; [reflexivity|].
  simpl in Hs. now rewrite Hs.
Qed.

(** The optional function group. *)
Lemma opt_function_taken (w rest : string) (c : Captures) (k : Continuation)
  (out : Captures) :
  w <> "" -> all_chars word w = true -> stops word rest ->
  k rest (capture 3 ("/" ++ w) c) = Some out ->
  exec_from (Opt (Group 3 (Seq (Char (Ascii.eqb "/")) (Plus (Char word)))))
    ("/" ++ w ++ rest) c k = Some out.
Proof.
  intros Hne Hw Hstop Hk. destruct w as [|x w]; [congruence|].
  apply opt_taken. cbn [exec_from append]. rewrite Ascii.eqb_refl.
  change (String x (w ++ rest)) with (String x w ++ rest).
  apply (plus_class_greedy word x w rest c _ out Hw Hstop).
  change (String "/" (String x w ++ rest))
    with (String "/" (String x w) ++ rest).
  now rewrite progress_app, consumed_app.
Qed.

Lemma exec_seq (a b : Pattern) (s : string) (c : Captures) (k : Continuation) :
  exec_from (Seq a b) s c k
  = exec_from a s c (fun s' c' => exec_from b s' c' k).
Proof. reflexivity. Qed.

Lemma exec_group (i : nat) (a : Pattern) (s : string) (c : Captures)
  (k : Continuation) :
  exec_from (Group i a) s c k
  = exec_from a s c (fun s' c' => k s' (capture i (consumed s s') c')).
Proof. reflexivity. Qed.

Lemma exec_char (p : ascii -> bool) (x : ascii) (s : string) (c : Captures)
  (k : Continuation) :
  exec_from (Char p) (String x s) c k = if p x then k s c else None.
Proof. reflexivity. Qed.

(** The optional query group, which runs to the end of the input. *)
Lemma opt_query_taken (r : string) (c : Captures) (k : Continuation)
  (out : Captures) :
  all_chars dot r = true ->
  k "" (capture 4 ("?" ++ r) c) = Some out ->
  exec_from (Opt (Group 4 (Seq (Char (Ascii.eqb "?")) (Star (Char dot)))))
    ("?" ++ r) c k = Some out.
Proof.
  intros Hr Hk. apply opt_taken.
  rewrite exec_group, exec_seq. cbn [append]. rewrite exec_char.
  rewrite Ascii.eqb_refl.
  rewrite <- (append_nil_r r) at 1.
  apply (star_class_greedy dot r "" c _ out Hr I).
  rewrite <- (append_nil_r r) at 1 2.
  change (String "?" (r ++ "")) with (String "?" r ++ "").
  now rewrite progress_app, consumed_app.
Qed.

(** The captures of a content of the EIP-681 shape. *)
Lemma eip681_accepts (addr digits : string) (fn query : option string) :
  addr <> "" -> all_chars not_at_or_slash addr = true ->
  digits <> "" -> all_chars digit digits = true ->
  (forall w, fn = Some w -> w <> "" /\ all_chars word w = true) ->
  (forall r, query = Some r -> all_chars dot r = true) ->
  exists m,
    exec eip681_pattern
      ("ethereum:" ++ addr ++ "@" ++ digits
       ++ optional_part "/" fn ++ optional_part "?" query) = Some m
    /\ m 1%nat = Some addr /\ m 2%nat = Some digits
    /\ m 3%nat = option_map (append "/") fn
    /\ m 4%nat = option_map (append "?") query.
Proof.
  intros Ha1 Ha2 Hd1 Hd2 Hfn Hq.
  set (c1 := capture 1 addr no_captures).
  set (c2 := capture 2 digits c1).
  set (c3 := match fn with Some w => capture 3 ("/" ++ w) c2 | None => c2 end).
  set (c4 := match query with Some r => capture 4 ("?" ++ r) c3 | None => c3 end).
  exists c4. split.
  - unfold exec, eip681_pattern.
    rewrite exec_seq, exec_literal, exec_seq, exec_group.
    destruct addr as [|a0 addr]; [congruence|].
    apply (plus_class_greedy not_at_or_slash a0 addr _ no_captures _ c4 Ha2);
      [exact eq_refl|].
    rewrite consumed_app. fold c1.
    rewrite exec_seq. apply opt_at_taken.
    rewrite exec_seq.
    assert (Hstop2 : stops digit
                       (optional_part "/" fn ++ optional_part "?" query)).
    { destruct fn as [w|]; [exact eq_refl|].
      destruct query as [r|]; [exact eq_refl | exact I]. }
    apply (opt_group_plus_taken 2 digit digits _ c1 _ c4 Hd1 Hd2 Hstop2).
    fold c2.
    assert (Hlast : forall c, exec_from
              (Seq (Opt (Group 4 (Seq (Char (Ascii.eqb "?")) (Star (Char dot)))))
                   EndOfInput)
              (optional_part "?" query) c (fun _ c' => Some c')
              = Some match query with
                     | Some r => capture 4 ("?" ++ r) c
                     | None => c
                     end).
    { intros c. rewrite exec_seq. destruct query as [r|].
      - apply opt_query_taken; [now apply Hq | reflexivity].
      - now rewrite opt_group_skipped. }
    assert (Hstop3 : stops word (optional_part "?" query)).
    { destruct query; [exact eq_refl | exact I]. }
    rewrite exec_seq. unfold c4, c3. destruct fn as [w|].
    + destruct (Hfn w eq_refl) as [Hw1 Hw2].
      cbn [optional_part]. rewrite append_assoc.
      apply (opt_function_taken w _ c2 _ _ Hw1 Hw2 Hstop3).
      apply Hlast.
    + cbn [optional_part append]. rewrite opt_group_skipped.
      * apply Hlast.
      * destruct query; [exact eq_refl | exact I].
  - unfold c4, c3, c2, c1.
    destruct fn, query; repeat split.
Qed.

(** [validatePaymentQR] on a content of the EIP-681 shape: it reports the
    parts of the content. *)
Lemma validatePaymentQR_accepts (addr digits : string)
  (fn query : option string) :
  addr <> "" -> all_chars not_at_or_slash addr = true ->
  digits <> "" -> all_chars digit digits = true ->
  (forall w, fn = Some w -> w <> "" /\ all_chars word w = true) ->
  (forall r, query = Some r -> all_chars dot r = true) ->
  validatePaymentQR
    ("ethereum:" ++ addr ++ "@" ++ digits
     ++ optional_part "/" fn ++ optional_part "?" query)
  = {| isValid := true; type := Some "eip-681";
       data := Some (Eip681Data
                       {| address := Some addr;
                          chainId := Some (parseInt digits);
                          functionName := fn;
                          params := option_map (append "?") query |}) |}.
Proof.
  intros Ha1 Ha2 Hd1 Hd2 Hfn Hq.
  destruct (eip681_accepts addr digits fn query Ha1 Ha2 Hd1 Hd2 Hfn Hq)
    as (m & Hm & H1 & H2 & H3 & H4).
  unfold validatePaymentQR.
  replace (prefix "https://metamask.app.link/"
             ("ethereum:" ++ addr ++ "@" ++ digits
              ++ optional_part "/" fn ++ optional_part "?" query))
    with false by reflexivity.
  rewrite prefix_app, Hm.
  unfold eip681_data. rewrite H1, H2, H3, H4.
  destruct digits as [|d0 digits]; [congruence|].
  do 3 f_equal. f_equal.
  destruct fn as [w|]; [|reflexivity].
  cbn [option_map]. now rewrite replace_slash.
Qed.

(** What a match of the pattern says about the input. *)
Lemma eip681_sound (q : string) (m : Captures) :
  exec eip681_pattern q = Some m ->
  exists addr sep (digits fn query : option string),
    q = "ethereum:" ++ addr ++ sep ++ optional_part "" digits
        ++ optional_part "/" fn ++ optional_part "?" query
    /\ addr <> "" /\ all_chars not_at_or_slash addr = true
    /\ (sep = "" \/ sep = "@")
    /\ (forall d, digits = Some d -> d <> "" /\ all_chars digit d = true)
    /\ (forall w, fn = Some w -> w <> "" /\ all_chars word w = true)
    /\ (forall r, query = Some r -> all_chars dot r = true)
    /\ m 1%nat = Some addr /\ m 2%nat = digits
    /\ m 3%nat = option_map (append "/") fn
    /\ m 4%nat = option_map (append "?") query.
Proof.
  unfold exec, eip681_pattern. intros H.
  (* the scheme *)
  rewrite exec_seq in H.
  assert (Hq : exists s0, q = "ethereum:" ++ s0).
  { revert H.
    do 9 (destruct q as [|? q]; [discriminate|];
          cbn [literal exec_from];
          match goal with
          | |- context [Ascii.eqb ?a ?b] =>
              destruct (Ascii.eqb a b) eqn:?E; [|discriminate];
              apply Ascii.eqb_eq in E; subst
          end).
    intros _. now exists q. }
  destruct Hq as [s0 ->]. rewrite exec_literal in H.
  (* group 1 *)
  rewrite exec_seq, exec_group in H.
  apply plus_class_sound in H as (addr & s1 & -> & Hne & Haddr & H).
  rewrite consumed_app in H. set (c1 := capture 1 addr no_captures) in H.
  (* the optional @ *)
  rewrite exec_seq in H.
  assert (Hat : exists sep s2, s1 = sep ++ s2 /\ (sep = "" \/ sep = "@") /\
            exec_from
              (Seq (Opt (Group 2 (Plus (Char digit))))
                 (Seq (Opt (Group 3 (Seq (Char (Ascii.eqb "/"))
                                         (Plus (Char word)))))
                    (Seq (Opt (Group 4 (Seq (Char (Ascii.eqb "?"))
                                            (Star (Char dot)))))
                       EndOfInput))) s2 c1 (fun _ c => Some c) = Some m).
  { apply opt_cases in H as [H|H].
    - destruct s1 as [|x s1]; [discriminate H|].
      rewrite exec_char in H.
      destruct (Ascii.eqb "@" x) eqn:E; [|discriminate H].
      apply Ascii.eqb_eq in E. subst x.
      apply progress_inv in H. exists "@", s1. auto.
    - exists "", s1. auto. }
  clear H. destruct Hat as (sep & s2 & -> & Hsep & H).
  (* group 2 *)
  rewrite exec_seq in H.
  assert (H2 : exists digits s3 c2,
            s2 = optional_part "" digits ++ s3 /\
            (forall d, digits = Some d -> d <> "" /\ all_chars digit d = true) /\
            c2 1%nat = Some addr /\ c2 2%nat = digits /\
            c2 3%nat = None /\ c2 4%nat = None /\
            exec_from
              (Seq (Opt (Group 3 (Seq (Char (Ascii.eqb "/"))
                                      (Plus (Char word)))))
                 (Seq (Opt (Group 4 (Seq (Char (Ascii.eqb "?"))
                                         (Star (Char dot)))))
                    EndOfInput)) s3 c2 (fun _ c => Some c) = Some m).
  { apply opt_cases in H as [H|H].
    - rewrite exec_group in H.
      apply plus_class_sound in H as (d & s3 & -> & Hd1 & Hd2 & H).
      apply progress_inv in H. rewrite consumed_app in H.
      exists (Some d), s3, (capture 2 d c1).
      split; [reflexivity|].
      split; [intros d' E; injection E as <-; now split|].
      repeat (split; [reflexivity|]). exact H.
    - exists None, s2, c1.
      split; [reflexivity|]. split; [discriminate|].
      repeat (split; [reflexivity|]). exact H. }
  clear H. destruct H2 as (digits & s3 & c2 & -> & Hdig & E1 & E2 & E3 & E4 & H).
  (* group 3 *)
  rewrite exec_seq in H.
  assert (H3 : exists fn s4 c3,
            s3 = optional_part "/" fn ++ s4 /\
            (forall w, fn = Some w -> w <> "" /\ all_chars word w = true) /\
            c3 1%nat = Some addr /\ c3 2%nat = digits /\
            c3 3%nat = option_map (append "/") fn /\ c3 4%nat = None /\
            exec_from
              (Seq (Opt (Group 4 (Seq (Char (Ascii.eqb "?"))
                                      (Star (Char dot)))))
                 EndOfInput) s4 c3 (fun _ c => Some c) = Some m).
  { apply opt_cases in H as [H|H].
    - rewrite exec_group, exec_seq in H.
      destruct s3 as [|x s3]; [discriminate H|].
      rewrite exec_char in H.
      destruct (Ascii.eqb "/" x) eqn:E; [|discriminate H].
      apply Ascii.eqb_eq in E. subst x.
      apply plus_class_sound in H as (w & s4 & -> & Hw1 & Hw2 & H).
      apply progress_inv in H.
      change (String "/" (w ++ s4)) with (String "/" w ++ s4) in H.
      rewrite consumed_app in H.
      exists (Some w), s4, (capture 3 (String "/" w) c2).
      split; [reflexivity|].
      split; [intros w' E; injection E as <-; now split|].
      split; [exact E1|]. split; [exact E2|].
      split; [reflexivity|]. split; [exact E4|]. exact H.
    - exists None, s3, c2.
      split; [reflexivity|]. split; [discriminate|].
      split; [exact E1|]. split; [exact E2|].
      split; [exact E3|]. split; [exact E4|]. exact H. }
  clear H. destruct H3 as (fn & s4 & c3 & -> & Hfn & F1 & F2 & F3 & F4 & H).
  (* group 4 and the end of the input *)
  rewrite exec_seq in H.
  assert (H4 : exists query,
            s4 = optional_part "?" query /\
            (forall r, query = Some r -> all_chars dot r = true) /\
            m 1%nat = Some addr /\ m 2%nat = digits /\
            m 3%nat = option_map (append "/") fn /\
            m 4%nat = option_map (append "?") query).
  { apply opt_cases in H as [H|H].
    - rewrite exec_group, exec_seq in H.
      destruct s4 as [|x s4]; [discriminate H|].
      rewrite exec_char in H.
      destruct (Ascii.eqb "?" x) eqn:E; [|discriminate H].
      apply Ascii.eqb_eq in E. subst x.
      apply star_class_sound in H as (r & s5 & -> & Hr & H).
      apply progress_inv in H.
      destruct s5 as [|y s5]; [|discriminate H].
      cbn [exec_from] in H. injection H as <-.
      change (String "?" (r ++ "")) with (String "?" r ++ "").
      rewrite consumed_app, append_nil_r.
      exists (Some r).
      split; [reflexivity|].
      split; [intros r' E; now injection E as <-|].
      split; [exact F1|]. split; [exact F2|]. split; [exact F3|].
      reflexivity.
    - destruct s4 as [|y s4]; [|discriminate H].
      cbn [exec_from] in H. injection H as <-.
      exists None.
      split; [reflexivity|]. split; [discriminate|].
      split; [exact F1|]. split; [exact F2|]. split; [exact F3|].
      exact F4. }
  destruct H4 as (query & -> & Hquery & G1 & G2 & G3 & G4).
  exists addr, sep, digits, fn, query.
  split; [reflexivity|]. split; [exact Hne|]. split; [exact Haddr|].
  split; [exact Hsep|]. split; [exact Hdig|]. split; [exact Hfn|].
  split; [exact Hquery|]. auto.
Qed.

(** ** The characters of printed numbers and of encoded queries *)

Lemma radix10_is_digit (a : ascii) : is_radix_digit 10 a = true -> digit a = true.
Proof.
  destruct a as [[] [] [] [] [] [] [] []]; vm_compute; congruence.
Qed.

Lemma digit_is_numeral (a : ascii) : digit a = true -> numeral_char a = true.
Proof. unfold numeral_char. now intros ->. Qed.

Lemma numeral_is_dot (a : ascii) : numeral_char a = true -> dot a = true.
Proof.
  destruct a as [[] [] [] [] [] [] [] []]; vm_compute; congruence.
Qed.

Lemma Z_to_radix10_numeral (n : Z) :
  all_chars numeral_char (Z_to_radix 10 n) = true.
Proof.
  apply (all_chars_weaken (is_radix_digit 10)).
  - intros a H. now apply digit_is_numeral, radix10_is_digit.
  - apply Z_to_radix_all. lia.
Qed.

Lemma layout_digits_numeral (ds : string) (n : Z) :
  all_chars numeral_char ds = true ->
  all_chars numeral_char (layout_digits ds n) = true.
Proof.
  intros H. unfold layout_digits.
  repeat match goal with
         | |- context [if ?b then _ else _] => destruct b
         end;
    rewrite ?all_chars_app, ?H, ?all_chars_substring, ?Z_to_radix10_numeral,
      ?all_chars_repeat by (exact H || reflexivity);
    reflexivity.
Qed.

(** Every character [toString] prints is one of the numeral characters. *)
Lemma Number_toString_numeral (x : Number) :
  all_chars numeral_char (Number_toString x) = true.
Proof.
  destruct x as [s| s | |s m e]; cbn [Number_toString];
    try (destruct s; reflexivity); try reflexivity.
  destruct (shortest_digits 20 (S754_finite false m e) _ _ _ 1) as [d n].
  rewrite all_chars_app, layout_digits_numeral by apply Z_to_radix10_numeral.
  destruct s; reflexivity.
Qed.

Lemma urlencode_char_shape (a : ascii) :
  all_chars urlencoded_char (urlencode_char a) = true.
Proof.
  destruct a as [[] [] [] [] [] [] [] []]; vm_compute; reflexivity.
Qed.

Lemma urlencode_shape (s : string) :
  all_chars urlencoded_char (urlencode s) = true.
Proof.
  induction s as [|a s IH]; [reflexivity|].
  cbn [urlencode]. now rewrite all_chars_app, urlencode_char_shape, IH.
Qed.

Lemma urlencoded_is_dot (a : ascii) : urlencoded_char a = true -> dot a = true.
Proof.
  destruct a as [[] [] [] [] [] [] [] []]; vm_compute; congruence.
Qed.

Lemma some_inj {A : Type} (a b : A) : Some a = Some b -> a = b.
Proof. congruence. Qed.

(** ** The validator on what the builders emit *)

Section BuildersChecked.

Variable isAddress : string -> bool.
Variable toDataURL : string -> QROptions -> Result string.

(** X1.  Every URI the token-transfer builder emits is accepted by the
    validator of the same service as an EIP-681 content, and the validator
    reads back the token address, the Sepolia chain id, the function
    [transfer] and the query with the recipient, the base-unit amount and
    the gas parameter (for a recipient without a line break). *)
Theorem validatePaymentQR_reads_token_transfer (invoiceId : Z)
  (amount contractAddress u : string) (options : QRCodeOptions) :
  all_chars dot contractAddress = true ->
  uri (generatePYUSDPaymentQR isAddress toDataURL invoiceId amount
         contractAddress options) = Some u ->
  validatePaymentQR u
  = {| isValid := true; type := Some "eip-681";
       data := Some (Eip681Data
         {| address := Some "0xCaC524BcA292aaade2DF8A05cC58F0a65B1B3bB9";
            chainId := Some (Number_of_Z 11155111);
            functionName := Some "transfer";
            params := Some ("?address=" ++ contractAddress ++ "&uint256="
                            ++ amountInWei amount ++ "&gas=100000") |}) |}.
Proof.
  intros Hdot Hu.
  unfold generatePYUSDPaymentQR, generatePYUSDPaymentQR_logged in Hu.
  destruct (generatePYUSDPaymentQR_uri isAddress amount contractAddress)
    as [[u' wei]|e] eqn:E; [|discriminate Hu].
  destruct (token_transfer_uri_form isAddress _ _ _ _ E) as [-> ->].
  destruct (toDataURL _ _); [|discriminate Hu].
  cbn [uri fst] in Hu. injection Hu as <-.
  apply (validatePaymentQR_accepts
           "0xCaC524BcA292aaade2DF8A05cC58F0a65B1B3bB9" "11155111"
           (Some "transfer")
           (Some ("address=" ++ contractAddress ++ "&uint256="
                  ++ amountInWei amount ++ "&gas=100000")));
    try reflexivity; try discriminate.
  - intros w Hw. injection Hw as <-. split; [discriminate | reflexivity].
  - intros r Hr. injection Hr as <-.
    cbn [all_chars]. rewrite all_chars_app. cbn [all_chars].
    rewrite all_chars_app, Hdot.
    unfold amountInWei.
    rewrite (all_chars_weaken numeral_char dot _ numeral_is_dot
               (Number_toString_numeral _)).
    reflexivity.
Qed.

(** X2.  Every URI the generic builder emits for a recipient that is not
    empty and holds no [@] and no [/] is read back by the validator: the
    recipient as address, the chain id, no function, and the query when
    there is one. *)
Theorem validatePaymentQR_reads_generic (to amount u : string) (chain : Z)
  (calldata : option string) (options : QRCodeOptions) :
  to <> "" -> all_chars not_at_or_slash to = true ->
  uri (generateGenericPaymentQR toDataURL to amount chain calldata options)
  = Some u ->
  exists query,
    u = "ethereum:" ++ to ++ "@" ++ Z_to_radix 10 chain
        ++ optional_part "?" query /\
    validatePaymentQR u
    = {| isValid := true; type := Some "eip-681";
         data := Some (Eip681Data
           {| address := Some to;
              chainId := Some (Number_of_Z chain);
              functionName := None;
              params := option_map (append "?") query |}) |}.
Proof.
  intros Hne Hto Hu. unfold generateGenericPaymentQR in Hu.
  destruct (find _ _) as [n|] eqn:Hfind; [|discriminate Hu].
  match type of Hu with
  | context [URLSearchParams_toString ?l] => set (params := l) in *
  end.
  destruct (toDataURL _ _); [|discriminate Hu].
  cbn [uri] in Hu. apply some_inj in Hu. subst u.
  assert (Hshape : all_chars dot (URLSearchParams_toString params) = true).
  { apply (all_chars_weaken urlencoded_char dot _ urlencoded_is_dot).
    assert (Hp : forall ps, all_chars urlencoded_char
                              (URLSearchParams_toString ps) = true).
    { induction ps as [|[k v] ps IH]; [reflexivity|].
      cbn [URLSearchParams_toString]. destruct ps as [|p ps].
      - now rewrite !all_chars_app, !urlencode_shape.
      - now rewrite !all_chars_app, !urlencode_shape, IH. }
    apply Hp. }
  assert (Hchain : chain = 11155111 \/ chain = 1).
  { cbn [map snd Networks.WEB3_NETWORKS find] in Hfind.
    cbn [Networks.chainId Networks.sepolia Networks.ethereum] in Hfind.
    destruct (11155111 =? chain) eqn:E1; [left; apply Z.eqb_eq in E1; lia|].
    destruct (1 =? chain) eqn:E2; [right; apply Z.eqb_eq in E2; lia|].
    discriminate Hfind. }
  exists (if truthy (Some (URLSearchParams_toString params))
          then Some (URLSearchParams_toString params) else None).
  assert (Hopt : (if truthy (Some (URLSearchParams_toString params))
                  then "?" ++ URLSearchParams_toString params else "")
                 = optional_part "?"
                     (if truthy (Some (URLSearchParams_toString params))
                      then Some (URLSearchParams_toString params) else None)).
  { destruct (truthy (Some (URLSearchParams_toString params)));
      reflexivity. }
  rewrite Hopt. split; [reflexivity|].
  replace (Number_of_Z chain) with (parseInt (Z_to_radix 10 chain))
    by (destruct Hchain as [-> | ->]; reflexivity).
  apply (validatePaymentQR_accepts to (Z_to_radix 10 chain) None
           (if truthy (Some (URLSearchParams_toString params))
            then Some (URLSearchParams_toString params) else None) Hne Hto).
  - destruct Hchain as [-> | ->]; discriminate.
  - destruct Hchain as [-> | ->]; reflexivity.
  - discriminate.
  - intros r Hr.
    destruct (truthy (Some (URLSearchParams_toString params)));
      [|discriminate Hr].
    apply some_inj in Hr. subst r. exact Hshape.
Qed.

End BuildersChecked.

Lemma validatePaymentQR_reads_token_transfer_witness :
  all_chars dot Examples.recipient = true /\
  uri (generatePYUSDPaymentQR is_hex_address Examples.toDataURL_ok 123
         "100.50" Examples.recipient noOptions)
  = Some (Examples.scenario_uri ++ "&gas=100000") /\
  validatePaymentQR (Examples.scenario_uri ++ "&gas=100000")
  = {| isValid := true; type := Some "eip-681";
       data := Some (Eip681Data
         {| address := Some "0xCaC524BcA292aaade2DF8A05cC58F0a65B1B3bB9";
            chainId := Some (Number_of_Z 11155111);
            functionName := Some "transfer";
            params := Some ("?address=" ++ Examples.recipient ++ "&uint256="
                            ++ amountInWei "100.50" ++ "&gas=100000") |}) |}.
Proof.
  split; [reflexivity|]. split; [vm_compute; reflexivity|].
  apply (validatePaymentQR_reads_token_transfer is_hex_address
           Examples.toDataURL_ok 123 "100.50" Examples.recipient _ noOptions).
  - reflexivity.
  - vm_compute. reflexivity.
Defined.

Lemma validatePaymentQR_reads_generic_witness :
  Examples.recipient <> "" /\
  all_chars not_at_or_slash Examples.recipient = true /\
  uri (generateGenericPaymentQR Examples.toDataURL_ok Examples.recipient
         "100.50" 11155111 None noOptions)
  = Some ("ethereum:" ++ Examples.recipient ++ "@11155111?value=100.50") /\
  exists query,
    "ethereum:" ++ Examples.recipient ++ "@11155111?value=100.50"
    = "ethereum:" ++ Examples.recipient ++ "@" ++ Z_to_radix 10 11155111
      ++ optional_part "?" query /\
    validatePaymentQR
      ("ethereum:" ++ Examples.recipient ++ "@11155111?value=100.50")
    = {| isValid := true; type := Some "eip-681";
         data := Some (Eip681Data
           {| address := Some Examples.recipient;
              chainId := Some (Number_of_Z 11155111);
              functionName := None;
              params := option_map (append "?") query |}) |}.
Proof.
  split; [discriminate|]. split; [reflexivity|].
  split; [vm_compute; reflexivity|].
  apply (validatePaymentQR_reads_generic Examples.toDataURL_ok
           Examples.recipient "100.50" _ 11155111 None noOptions).
  - discriminate.
  - reflexivity.
  - vm_compute. reflexivity.
Defined.

(** X3.  Whatever [validatePaymentQR] accepts as EIP-681 has the shape
    [ethereum:], a non-empty address without [@] and [/], an optional [@],
    optional decimal digits, an optional [/] and function name, an optional
    query up to the end; and the fields it reports are exactly these parts
    (the chain id as [parseInt] reads the digits). *)
Theorem validatePaymentQR_eip681_shape (qrContent : string) (d : Eip681) :
  data (validatePaymentQR qrContent) = Some (Eip681Data d) ->
  exists addr sep (digits fn query : option string),
    qrContent = "ethereum:" ++ addr ++ sep ++ optional_part "" digits
                ++ optional_part "/" fn ++ optional_part "?" query
    /\ addr <> "" /\ all_chars not_at_or_slash addr = true
    /\ (sep = "" \/ sep = "@")
    /\ (forall ds, digits = Some ds -> ds <> "" /\ all_chars digit ds = true)
    /\ (forall w, fn = Some w -> w <> "" /\ all_chars word w = true)
    /\ (forall r, query = Some r -> all_chars dot r = true)
    /\ d = {| address := Some addr;
              chainId := option_map parseInt digits;
              functionName := fn;
              params := option_map (append "?") query |}.
Proof.
  unfold validatePaymentQR.
  destruct (prefix "https://metamask.app.link/" qrContent); [discriminate|].
  destruct (prefix "ethereum:" qrContent).
  2:{ destruct (prefix "http://" qrContent || prefix "https://" qrContent);
        discriminate. }
  destruct (exec eip681_pattern qrContent) as [m|] eqn:E.
  2:{ destruct (prefix "http://" qrContent || prefix "https://" qrContent);
        discriminate. }
  cbn [data]. intros H. apply some_inj in H. injection H as <-.
  destruct (eip681_sound _ _ E)
    as (addr & sep & digits & fn & query & Hq & Hne & Haddr & Hsep & Hd & Hf
        & Hr & M1 & M2 & M3 & M4).
  exists addr, sep, digits, fn, query.
  repeat (split; [assumption|]).
  unfold eip681_data. rewrite M1, M2, M3, M4. f_equal.
  - destruct digits as [ds|]; [|reflexivity].
    destruct (Hd ds eq_refl) as [Hne' _].
    destruct ds; [congruence | reflexivity].
  - destruct fn as [w|]; [|reflexivity].
    cbn [option_map]. now rewrite replace_slash.
Qed.

Lemma validatePaymentQR_eip681_shape_witness :
  data (validatePaymentQR "ethereum:0xabc?value=1")
  = Some (Eip681Data {| address := Some "0xabc?value=1"; chainId := None;
                        functionName := None; params := None |})
  /\ exists addr sep (digits fn query : option string),
    "ethereum:0xabc?value=1"
    = "ethereum:" ++ addr ++ sep ++ optional_part "" digits
      ++ optional_part "/" fn ++ optional_part "?" query
    /\ addr <> "" /\ all_chars not_at_or_slash addr = true
    /\ (sep = "" \/ sep = "@")
    /\ (forall ds, digits = Some ds -> ds <> "" /\ all_chars digit ds = true)
    /\ (forall w, fn = Some w -> w <> "" /\ all_chars word w = true)
    /\ (forall r, query = Some r -> all_chars dot r = true)
    /\ {| address := Some "0xabc?value=1"; chainId := None;
          functionName := None; params := None |}
       = {| address := Some addr;
            chainId := option_map parseInt digits;
            functionName := fn;
            params := option_map (append "?") query |}.
Proof.
  split; [reflexivity|].
  apply (validatePaymentQR_eip681_shape "ethereum:0xabc?value=1").
  reflexivity.
Defined.

(** X4.  The recommended size never shrinks as the content grows, and it
    stays between 128 and 384. *)
Theorem getRecommendedSize_monotone (a b : string) :
  (String.length a <= String.length b)%nat ->
  128 <= getRecommendedSize a <= getRecommendedSize b
  /\ getRecommendedSize b <= 384.
Proof.
  intros H. unfold getRecommendedSize.
  repeat match goal with
         | |- context [?x <? ?y] =>
             let E := fresh "E" in
             destruct (x <? y) eqn:E;
             [apply Z.ltb_lt in E | apply Z.ltb_ge in E]
         end; lia.
Qed.

Lemma getRecommendedSize_monotone_witness :
  (String.length Examples.scenario_uri
   <= String.length (Examples.scenario_uri ++ "&gas=100000"))%nat
  /\ 128 <= getRecommendedSize Examples.scenario_uri
         <= getRecommendedSize (Examples.scenario_uri ++ "&gas=100000")
  /\ getRecommendedSize (Examples.scenario_uri ++ "&gas=100000") <= 384.
Proof.
  split; [vm_compute; lia|].
  apply getRecommendedSize_monotone. vm_compute. lia.
Defined.

Section GenericBuilder.

Variable toDataURL : string -> QROptions -> Result string.


End GenericBuilder.

(** ** Links of the invoice card and of the provider *)

Lemma urlencode_unreserved (s : string) :
  all_chars unreserved s = true -> urlencode s = s.
Proof.
  induction s as [|a s IH]; [reflexivity|].
  cbn [all_chars urlencode]. intros H. apply andb_true_iff in H as [Ha Hs].
  unfold unreserved in Ha. apply String.eqb_eq in Ha.
  rewrite Ha, IH by assumption. reflexivity.
Qed.

Lemma hex_digit_unreserved (a : ascii) :
  is_hex_digit a = true -> unreserved a = true.
Proof.
  destruct a as [[] [] [] [] [] [] [] []]; vm_compute; congruence.
Qed.

Lemma Z_to_radix16_unreserved (n : Z) :
  all_chars unreserved (Z_to_radix 16 n) = true.
Proof.
  apply (all_chars_weaken is_hex_digit unreserved _ hex_digit_unreserved).
  apply (Z_to_radix_all 16). lia.
Qed.

Lemma Number_toString16_unreserved (x : Number) :
  all_chars unreserved (Number_toString16 x) = true.
Proof.
  destruct x as [s|s| |s m e]; cbn [Number_toString16];
    try (destruct s; reflexivity); try reflexivity.
  destruct (integer_part (S754_finite s m e)) as [[b v]|]; [|reflexivity].
  cbv zeta.
  rewrite !all_chars_app, Z_to_radix16_unreserved, all_chars_repeat
    by reflexivity.
  now destruct s.
Qed.

Lemma padStart_unreserved (s : string) (n : nat) :
  all_chars unreserved s = true ->
  all_chars unreserved (padStart s n "0") = true.
Proof.
  intros H. unfold padStart.
  now rewrite all_chars_app, H, all_chars_repeat.
Qed.

Lemma URLSearchParams_cons (k v : string) (rest : list (string * string)) :
  rest <> [] ->
  URLSearchParams_toString ((k, v) :: rest)
  = urlencode k ++ "=" ++ urlencode v ++ "&" ++ URLSearchParams_toString rest.
Proof. destruct rest; [congruence | reflexivity]. Qed.

Lemma URLSearchParams_app (l1 l2 : list (string * string)) :
  l1 <> [] -> l2 <> [] ->
  URLSearchParams_toString (l1 ++ l2)
  = URLSearchParams_toString l1 ++ "&" ++ URLSearchParams_toString l2.
Proof.
  intros H1 H2. induction l1 as [|[k v] l1 IH]; [congruence|].
  destruct l1 as [|p l1].
  - cbn [app]. rewrite URLSearchParams_cons by assumption.
    cbn [URLSearchParams_toString]. now rewrite !append_assoc.
  - change (((k, v) :: p :: l1) ++ l2)%list
      with ((k, v) :: ((p :: l1) ++ l2))%list.
    rewrite !URLSearchParams_cons by discriminate.
    rewrite IH by discriminate. now rewrite !append_assoc.
Qed.

(** X6.  The deep link of the mobile builder, for a hexadecimal address:
    the fixed dapp host and Sepolia description, then the token, then the
    call data of [transfer] exactly as [encodeTransferFunction] builds it
    (the serializer escapes none of its characters), then the gas and a
    zero value; and the validator classifies it as a MetaMask deep link. *)
Theorem mobileDeepLink_carries_calldata (amount contractAddress pyusd : string) :
  is_hex_address contractAddress = true ->
  mobileDeepLink amount contractAddress pyusd
  = mobileDeepLink_head ++ urlencode pyusd ++ "&data="
    ++ encodeTransferFunction contractAddress (amountInWei amount)
    ++ "&gas=100000&value=0x0"
  /\ validatePaymentQR (mobileDeepLink amount contractAddress pyusd)
     = {| isValid := true; type := Some "metamask-deeplink";
          data := Some (UrlData (mobileDeepLink amount contractAddress pyusd)) |}.
Proof.
  intros Ha. split.
  - destruct (hex_address_shape _ Ha) as (h & -> & Hlen & Hhex).
    assert (Hdata : urlencode (encodeTransferFunction (String "0" (String "x" h))
                                 (amountInWei amount))
                    = encodeTransferFunction (String "0" (String "x" h))
                        (amountInWei amount)).
    { apply urlencode_unreserved. unfold encodeTransferFunction.
      rewrite replace_0x.
      rewrite !all_chars_app.
      rewrite !padStart_unreserved.
      - reflexivity.
      - apply Number_toString16_unreserved.
      - apply (all_chars_weaken is_hex_digit unreserved _
                 hex_digit_unreserved Hhex). }
    unfold mobileDeepLink.
    set (calldata := encodeTransferFunction _ _) in *.
    clearbody calldata.
    match goal with
    | |- context [URLSearchParams_toString ?l] =>
        change l with
          (firstn 7 l ++ [("to", pyusd); ("data", calldata)]
           ++ [("gas", "100000"); ("value", "0x0")])%list
    end.
    rewrite !URLSearchParams_app by discriminate.
    cbn [URLSearchParams_toString]. rewrite Hdata.
    change (urlencode "to") with "to".
    change (urlencode "data") with "data".
    change (urlencode "gas") with "gas".
    change (urlencode "100000") with "100000".
    change (urlencode "value") with "value".
    change (urlencode "0x0") with "0x0".
    match goal with
    | |- context [URLSearchParams_toString ?l] =>
        let v := eval vm_compute in (URLSearchParams_toString l) in
        change (URLSearchParams_toString l) with v
    end.
    unfold mobileDeepLink_head.
    rewrite !append_assoc. reflexivity.
  - unfold validatePaymentQR, mobileDeepLink.
    replace (prefix "https://metamask.app.link/" _) with true; [reflexivity|].
    symmetry.
    change "https://metamask.app.link/dapp/localhost:5174/?"
      with ("https://metamask.app.link/" ++ "dapp/localhost:5174/?").
    rewrite append_assoc. apply prefix_app.
Qed.

Lemma mobileDeepLink_carries_calldata_witness :
  is_hex_address Examples.recipient = true /\
  mobileDeepLink "100.50" Examples.recipient Examples.token
  = mobileDeepLink_head ++ urlencode Examples.token ++ "&data="
    ++ encodeTransferFunction Examples.recipient (amountInWei "100.50")
    ++ "&gas=100000&value=0x0"
  /\ validatePaymentQR (mobileDeepLink "100.50" Examples.recipient Examples.token)
     = {| isValid := true; type := Some "metamask-deeplink";
          data := Some (UrlData (mobileDeepLink "100.50" Examples.recipient
                                   Examples.token)) |}.
Proof.
  split; [reflexivity|].
  apply (mobileDeepLink_carries_calldata "100.50" Examples.recipient
           Examples.token).
  reflexivity.
Defined.

Section ProviderLinks.

Variable toDataURL : string -> QROptions -> Result string.

(** X7.  The QR action of the provider names the zero address as the
    recipient, for every invoice: whenever it produces a deep link, the link
    is a [transfer] on the Sepolia token to
    0x0000000000000000000000000000000000000000 of the amount as it was
    given (not converted to base units), and the validator reads it so. *)
Theorem BlockchainProvider_generatePaymentQR_zero_address (invoiceId : Z)
  (amount link : string) :
  all_chars dot amount = true ->
  deepLink (BlockchainProvider.generatePaymentQR toDataURL invoiceId amount)
  = Some link ->
  link = "ethereum:0xCaC524BcA292aaade2DF8A05cC58F0a65B1B3bB9@11155111/transfer?address=0x0000000000000000000000000000000000000000&uint256="
         ++ amount
  /\ validatePaymentQR link
     = {| isValid := true; type := Some "eip-681";
          data := Some (Eip681Data
            {| address := Some "0xCaC524BcA292aaade2DF8A05cC58F0a65B1B3bB9";
               chainId := Some (Number_of_Z 11155111);
               functionName := Some "transfer";
               params := Some ("?address=0x0000000000000000000000000000000000000000&uint256="
                               ++ amount) |}) |}.
Proof.
  intros Hdot H.
  unfold BlockchainProvider.generatePaymentQR, generatePaymentQR in H.
  destruct (toDataURL _ _); [|discriminate H].
  cbn [deepLink] in H. apply some_inj in H. subst link.
  split; [reflexivity|].
  apply (validatePaymentQR_accepts
           "0xCaC524BcA292aaade2DF8A05cC58F0a65B1B3bB9" "11155111"
           (Some "transfer")
           (Some ("address=0x0000000000000000000000000000000000000000&uint256="
                  ++ amount)));
    try reflexivity; try discriminate.
  - intros w Hw. apply some_inj in Hw. subst w.
    split; [discriminate | reflexivity].
  - intros r Hr. apply some_inj in Hr. subst r.
    rewrite all_chars_app, Hdot. reflexivity.
Qed.

End ProviderLinks.

Lemma BlockchainProvider_generatePaymentQR_zero_address_witness :
  all_chars dot "100.50" = true /\
  deepLink (BlockchainProvider.generatePaymentQR Examples.toDataURL_ok 123
              "100.50")
  = Some "ethereum:0xCaC524BcA292aaade2DF8A05cC58F0a65B1B3bB9@11155111/transfer?address=0x0000000000000000000000000000000000000000&uint256=100.50" /\
  validatePaymentQR "ethereum:0xCaC524BcA292aaade2DF8A05cC58F0a65B1B3bB9@11155111/transfer?address=0x0000000000000000000000000000000000000000&uint256=100.50"
  = {| isValid := true; type := Some "eip-681";
       data := Some (Eip681Data
         {| address := Some "0xCaC524BcA292aaade2DF8A05cC58F0a65B1B3bB9";
            chainId := Some (Number_of_Z 11155111);
            functionName := Some "transfer";
            params := Some ("?address=0x0000000000000000000000000000000000000000&uint256="
                            ++ "100.50") |}) |}.
Proof.
  split; [reflexivity|]. split; [reflexivity|].
  apply (BlockchainProvider_generatePaymentQR_zero_address
           Examples.toDataURL_ok 123 "100.50" _ eq_refl eq_refl).
Defined.

(** ** The links of the invoice card *)

(** The call data of [payInvoice]: the fixed word and 64 digits that hold
    the id. *)
Lemma encodePayInvoiceData_word (invoiceId : Z) :
  0 <= invoiceId < 2 ^ 53 ->
  PaymentLinks.encodePayInvoiceData invoiceId
  = "0x8b5d1d1a" ++ padStart (Z_to_radix 16 invoiceId) 64 "0"
  /\ padStart (Z_to_radix 16 invoiceId) 64 "0"
     = repeat_char "0" (64 - String.length (Z_to_radix 16 invoiceId))
       ++ Z_to_radix 16 invoiceId
  /\ String.length (padStart (Z_to_radix 16 invoiceId) 64 "0") = 64%nat.
Proof.
  intros Hn. unfold PaymentLinks.encodePayInvoiceData.
  assert (Hn256 : 0 <= invoiceId < 2 ^ 256).
  { split; [lia|]. eapply Z.lt_trans; [apply Hn|]. reflexivity. }
  assert (E : Number_of_Z invoiceId = Number_of_decimal false invoiceId 0).
  { unfold Number_of_Z.
    replace (invoiceId <? 0) with false by (symmetry; apply Z.ltb_ge; lia).
    now rewrite Z.abs_eq by lia. }
  rewrite E, toString16_exact by assumption.
  destruct (padStart_short (Z_to_radix 16 invoiceId) 64 "0"
              (hex_length_bound invoiceId Hn256)) as [Hpad Hlen].
  split; [reflexivity|]. split; [exact Hpad | exact Hlen].
Qed.

Lemma padded_hex_value (n : Z) (j : nat) :
  0 <= n ->
  all_chars is_hex_digit (repeat_char "0" j ++ Z_to_radix 16 n) = true
  /\ hex_value (repeat_char "0" j ++ Z_to_radix 16 n) = n.
Proof.
  intros Hn. split.
  - rewrite all_chars_app, all_chars_repeat by reflexivity.
    apply (Z_to_radix_all 16). lia.
  - unfold hex_value. rewrite scan_zeros by lia.
    destruct (Z_to_radix_scan 16 n ltac:(lia) Hn) as (k & _ & _ & _ & Hscan).
    specialize (Hscan 0 (0 + j)%nat "").
    rewrite append_nil_r in Hscan. rewrite Hscan. reflexivity.
Qed.

(** X8.  The call data of [payInvoice] built for an invoice id below 2^53
    is the fixed 4-byte word followed by exactly 64 hexadecimal digits whose
    value is the id: the id can be read back from the data. *)
Theorem encodePayInvoiceData_round_trip (invoiceId : Z) :
  0 <= invoiceId < 2 ^ 53 ->
  exists word,
    PaymentLinks.encodePayInvoiceData invoiceId = "0x8b5d1d1a" ++ word
    /\ String.length word = 64%nat
    /\ all_chars is_hex_digit word = true
    /\ hex_value word = invoiceId.
Proof.
  intros Hn.
  destruct (encodePayInvoiceData_word invoiceId Hn) as (Hdata & Hpad & Hlen).
  exists (padStart (Z_to_radix 16 invoiceId) 64 "0").
  split; [exact Hdata|]. split; [exact Hlen|].
  rewrite Hpad. apply padded_hex_value. lia.
Qed.

Lemma encodePayInvoiceData_round_trip_witness :
  0 <= 123 < 2 ^ 53 /\
  PaymentLinks.encodePayInvoiceData 123
  = "0x8b5d1d1a000000000000000000000000000000000000000000000000000000000000007b"
  /\ exists word,
    PaymentLinks.encodePayInvoiceData 123 = "0x8b5d1d1a" ++ word /\
    String.length word = 64%nat /\
    all_chars is_hex_digit word = true /\
    hex_value word = 123.
Proof.
  split; [lia|]. split; [vm_compute; reflexivity|].
  apply (encodePayInvoiceData_round_trip 123). lia.
Defined.

(** X9.  The deep link of the invoice card carries the contract, the chain
    and the invoice id only: for the chain of any network of the registry
    and a contract address that is not empty and holds no [@] and no [/], the
    validator reads it back as a call of [payInvoice] with the single
    parameter [uint256=<id>], whatever the amount and the recipient of the
    QR data are. *)
Theorem createMetaMaskDeepLink_reads_back (qrData : PaymentLinks.QRCodeData)
  (network : Networks.Network) :
  In network (map snd Networks.NETWORKS) ->
  PaymentLinks.chainId qrData = Networks.chainId network ->
  PaymentLinks.contractAddress qrData <> "" ->
  all_chars not_at_or_slash (PaymentLinks.contractAddress qrData) = true ->
  validatePaymentQR (PaymentLinks.createMetaMaskDeepLink qrData)
  = {| isValid := true; type := Some "eip-681";
       data := Some (Eip681Data
         {| address := Some (PaymentLinks.contractAddress qrData);
            chainId := Some (Number_of_Z (Networks.chainId network));
            functionName := Some "payInvoice";
            params := Some ("?uint256="
                            ++ Builtins.integer_text
                                 (PaymentLinks.invoiceId qrData)) |}) |}.
Proof.
  intros Hnet Hchain Hne Haddr.
  unfold PaymentLinks.createMetaMaskDeepLink. rewrite Hchain.
  set (id_text := Builtins.integer_text (PaymentLinks.invoiceId qrData)).
  assert (Hid : all_chars dot id_text = true).
  { apply (all_chars_weaken numeral_char dot _ numeral_is_dot).
    apply Number_toString_numeral. }
  clearbody id_text.
  assert (Hcases : exists digits,
            Builtins.integer_text (Networks.chainId network) = digits /\
            digits <> "" /\ all_chars digit digits = true /\
            parseInt digits = Number_of_Z (Networks.chainId network)).
  { cbn [map snd Networks.NETWORKS In] in Hnet.
    destruct Hnet as [<- | [<- | [<- | []]]]; eexists;
      (split; [vm_compute; reflexivity|]);
      (split; [discriminate|]); split; vm_compute; reflexivity. }
  destruct Hcases as (digits & -> & Hd1 & Hd2 & <-).
  apply (validatePaymentQR_accepts (PaymentLinks.contractAddress qrData)
           digits (Some "payInvoice") (Some ("uint256=" ++ id_text))
           Hne Haddr Hd1 Hd2).
  - intros w Hw. apply some_inj in Hw. subst w.
    split; [discriminate | reflexivity].
  - intros r Hr. apply some_inj in Hr. subst r.
    rewrite all_chars_app, Hid. reflexivity.
Qed.

Lemma createMetaMaskDeepLink_reads_back_witness :
  let qrData :=
    {| PaymentLinks.invoiceId := 123;
       PaymentLinks.contractAddress :=
         "0x66bCb1F1cdf4f0338E79E3685CEe1144954B5a2b";
       PaymentLinks.amount := "100500000";
       PaymentLinks.chainId := 11155111;
       PaymentLinks.recipient := Examples.recipient |} in
  In Networks.sepolia (map snd Networks.NETWORKS) /\
  PaymentLinks.createMetaMaskDeepLink qrData
  = "ethereum:0x66bCb1F1cdf4f0338E79E3685CEe1144954B5a2b@11155111/payInvoice?uint256=123"
  /\ validatePaymentQR (PaymentLinks.createMetaMaskDeepLink qrData)
  = {| isValid := true; type := Some "eip-681";
       data := Some (Eip681Data
         {| address := Some "0x66bCb1F1cdf4f0338E79E3685CEe1144954B5a2b";
            chainId := Some (Number_of_Z 11155111);
            functionName := Some "payInvoice";
            params := Some ("?uint256=" ++ Builtins.integer_text 123) |}) |}.
Proof.
  intros qrData. split; [left; reflexivity|].
  split; [vm_compute; reflexivity|].
  apply (createMetaMaskDeepLink_reads_back qrData Networks.sepolia).
  - left. reflexivity.
  - reflexivity.
  - discriminate.
  - reflexivity.
Defined.

(** X10.  The payment address of the invoice card service, for a contract
    that is a hexadecimal address, the chain of a network of the registry
    and an invoice id below 2^53: the MetaMask host, then the contract, the
    chain id and the call data of [payInvoice], none of whose characters
    the serializer escapes, so that the invoice id can be read back from
    the last 64 digits; the validator classifies it as a MetaMask deep
    link. *)
Theorem createMetaMaskPaymentURL_carries_calldata
  (qrData : PaymentLinks.QRCodeData) (network : Networks.Network) :
  In network (map snd Networks.NETWORKS) ->
  PaymentLinks.chainId qrData = Networks.chainId network ->
  is_hex_address (PaymentLinks.contractAddress qrData) = true ->
  0 <= PaymentLinks.invoiceId qrData < 2 ^ 53 ->
  exists word,
    PaymentLinks.createMetaMaskPaymentURL qrData
    = "https://metamask.app.link/send/?address="
      ++ PaymentLinks.contractAddress qrData
      ++ "&chainId=" ++ Z_to_radix 10 (Networks.chainId network)
      ++ "&data=0x8b5d1d1a" ++ word
    /\ String.length word = 64%nat
    /\ all_chars is_hex_digit word = true
    /\ hex_value word = PaymentLinks.invoiceId qrData
    /\ validatePaymentQR (PaymentLinks.createMetaMaskPaymentURL qrData)
       = {| isValid := true; type := Some "metamask-deeplink";
            data := Some (UrlData
                            (PaymentLinks.createMetaMaskPaymentURL qrData)) |}.
Proof.
  intros Hnet Hchain Haddr Hid.
  destruct (encodePayInvoiceData_word _ Hid) as (Hdata & Hpad & Hlen).
  destruct (padded_hex_value (PaymentLinks.invoiceId qrData)
              (64 - String.length
                      (Z_to_radix 16 (PaymentLinks.invoiceId qrData)))
              ltac:(lia)) as [Hhex Hval].
  rewrite <- Hpad in Hhex, Hval.
  set (word := padStart (Z_to_radix 16 (PaymentLinks.invoiceId qrData)) 64 "0")
    in *.
  exists word.
  assert (Hc : urlencode (PaymentLinks.contractAddress qrData)
               = PaymentLinks.contractAddress qrData).
  { apply urlencode_unreserved.
    destruct (hex_address_shape _ Haddr) as (h & -> & _ & Hh).
    cbn [all_chars].
    rewrite (all_chars_weaken is_hex_digit unreserved _
               hex_digit_unreserved Hh).
    reflexivity. }
  assert (Hd : urlencode ("0x8b5d1d1a" ++ word) = "0x8b5d1d1a" ++ word).
  { apply urlencode_unreserved. rewrite all_chars_app.
    rewrite (all_chars_weaken is_hex_digit unreserved _
               hex_digit_unreserved Hhex).
    reflexivity. }
  assert (Hn : urlencode (Builtins.integer_text (Networks.chainId network))
               = Z_to_radix 10 (Networks.chainId network)).
  { cbn [map snd Networks.NETWORKS In] in Hnet.
    destruct Hnet as [<- | [<- | [<- | []]]]; vm_compute; reflexivity. }
  assert (Hurl : PaymentLinks.createMetaMaskPaymentURL qrData
                 = "https://metamask.app.link/send/?address="
                   ++ PaymentLinks.contractAddress qrData
                   ++ "&chainId=" ++ Z_to_radix 10 (Networks.chainId network)
                   ++ "&data=0x8b5d1d1a" ++ word).
  { unfold PaymentLinks.createMetaMaskPaymentURL. cbv zeta.
    rewrite Hdata, Hchain.
    rewrite !URLSearchParams_cons by discriminate.
    cbn [URLSearchParams_toString]. rewrite Hc, Hd, Hn.
    change (urlencode "address") with "address".
    change (urlencode "chainId") with "chainId".
    change (urlencode "data") with "data".
    change ("https://metamask.app.link/send/?address="
            ++ PaymentLinks.contractAddress qrData
            ++ "&chainId=" ++ Z_to_radix 10 (Networks.chainId network)
            ++ "&data=0x8b5d1d1a" ++ word)
      with ("https://metamask.app.link/send/?address"
            ++ "=" ++ PaymentLinks.contractAddress qrData
            ++ "&" ++ "chainId" ++ "=" ++ Z_to_radix 10 (Networks.chainId network)
            ++ "&" ++ "data" ++ "=" ++ "0x8b5d1d1a" ++ word).
    change ("https://metamask.app.link/send/" ++ "?" ++ "address"
            ++ "=" ++ PaymentLinks.contractAddress qrData
            ++ "&" ++ "chainId" ++ "=" ++ Z_to_radix 10 (Networks.chainId network)
            ++ "&" ++ "data" ++ "=" ++ "0x8b5d1d1a" ++ word)
      with ("https://metamask.app.link/send/?address"
            ++ "=" ++ PaymentLinks.contractAddress qrData
            ++ "&" ++ "chainId" ++ "=" ++ Z_to_radix 10 (Networks.chainId network)
            ++ "&" ++ "data" ++ "=" ++ "0x8b5d1d1a" ++ word).
    reflexivity. }
  split; [exact Hurl|]. split; [exact Hlen|]. split; [exact Hhex|].
  split; [exact Hval|].
  unfold validatePaymentQR.
  replace (prefix "https://metamask.app.link/"
             (PaymentLinks.createMetaMaskPaymentURL qrData)) with true;
    [reflexivity|].
  symmetry. rewrite Hurl.
  change "https://metamask.app.link/send/?address="
    with ("https://metamask.app.link/" ++ "send/?address=").
  rewrite append_assoc. apply prefix_app.
Qed.

Lemma createMetaMaskPaymentURL_carries_calldata_witness :
  let qrData :=
    {| PaymentLinks.invoiceId := 123;
       PaymentLinks.contractAddress :=
         "0x66bCb1F1cdf4f0338E79E3685CEe1144954B5a2b";
       PaymentLinks.amount := "100500000";
       PaymentLinks.chainId := 11155111;
       PaymentLinks.recipient := Examples.recipient |} in
  PaymentLinks.createMetaMaskPaymentURL qrData
  = "https://metamask.app.link/send/?address=0x66bCb1F1cdf4f0338E79E3685CEe1144954B5a2b&chainId=11155111&data=0x8b5d1d1a000000000000000000000000000000000000000000000000000000000000007b"
  /\ exists word,
       PaymentLinks.createMetaMaskPaymentURL qrData
       = "https://metamask.app.link/send/?address="
         ++ "0x66bCb1F1cdf4f0338E79E3685CEe1144954B5a2b"
         ++ "&chainId=" ++ Z_to_radix 10 11155111
         ++ "&data=0x8b5d1d1a" ++ word
       /\ String.length word = 64%nat
       /\ all_chars is_hex_digit word = true
       /\ hex_value word = 123
       /\ validatePaymentQR (PaymentLinks.createMetaMaskPaymentURL qrData)
          = {| isValid := true; type := Some "metamask-deeplink";
               data := Some (UrlData
                               (PaymentLinks.createMetaMaskPaymentURL qrData)) |}.
Proof.
  intros qrData. split; [vm_compute; reflexivity|].
  apply (createMetaMaskPaymentURL_carries_calldata qrData Networks.sepolia).
  - left. reflexivity.
  - reflexivity.
  - reflexivity.
  - cbn. lia.
Defined.

(** ** The metadata store *)

Lemma exec_times_class (p : ascii -> bool) (n : nat) :
  forall (s rest : string) (c : Captures) (k : Continuation),
  String.length s = n ->
  exec_from (Times n (Char p)) (s ++ rest) c k
  = if all_chars p s then k rest c else None.
Proof.
  induction n as [|n IH]; intros s rest c k Hlen.
  - destruct s; [reflexivity | discriminate Hlen].
  - destruct s as [|x s]; [discriminate Hlen|].
    injection Hlen as Hlen.
    change (exec_from (Times (S n) (Char p)) (String x s ++ rest) c k)
      with (if p x then exec_from (Times n (Char p)) (s ++ rest) c k else None).
    cbn [all_chars]. destruct (p x); [|reflexivity].
    now rewrite IH.
Qed.

Lemma exec_times_short (p : ascii -> bool) (n : nat) :
  forall (s : string) (c : Captures) (k : Continuation),
  (String.length s < n)%nat ->
  exec_from (Times n (Char p)) s c k = None.
Proof.
  induction n as [|n IH]; intros s c k Hlen; [lia|].
  destruct s as [|x s]; [reflexivity|].
  change (exec_from (Times (S n) (Char p)) (String x s) c k)
    with (if p x then exec_from (Times n (Char p)) s c k else None).
  destruct (p x); [|reflexivity].
  apply IH. simpl in Hlen. lia.
Qed.

(** What [isValidIPFSHash] accepts on a text that starts with [Qm] and has
    44 more characters. *)
Lemma isValidIPFSHash_body (body : string) :
  String.length body = 44%nat ->
  IPFSService.isValidIPFSHash ("Qm" ++ body)
  = all_chars IPFSService.base58 body.
Proof.
  intros Hlen.
  unfold IPFSService.isValidIPFSHash, test, exec, IPFSService.ipfs_hash_pattern.
  rewrite exec_seq, exec_literal, exec_seq.
  rewrite <- (append_nil_r body) at 1.
  rewrite exec_times_class by exact Hlen.
  destruct (all_chars IPFSService.base58 body); reflexivity.
Qed.

Lemma charAt_cases (s : string) (pos : Number) :
  Builtins.charAt s pos = ""
  \/ exists (k : nat) (a : ascii),
       String.get k s = Some a /\ Builtins.charAt s pos = String a "".
Proof.
  assert (H : forall z,
             (if z <? 0 then ""
              else match String.get (Z.to_nat z) s with
                   | Some a => String a ""
                   | None => ""
                   end) = ""
             \/ exists (k : nat) (a : ascii),
                  String.get k s = Some a
                  /\ (if z <? 0 then ""
                      else match String.get (Z.to_nat z) s with
                           | Some a => String a ""
                           | None => ""
                           end) = String a "").
  { intros z. destruct (z <? 0); [now left|].
    destruct (String.get (Z.to_nat z) s) as [a|] eqn:E; [|now left].
    right. now exists (Z.to_nat z), a. }
  unfold Builtins.charAt.
  destruct pos as [sg | sg | | sg m e]; cbn [integer_part];
    first [ now left | apply H ].
Qed.

(** The characters of the mock alphabet that a hash may not contain. *)
Lemma chars_base58 (k : nat) (a : ascii) :
  String.get k IPFSService.chars = Some a ->
  IPFSService.base58 a = true
  <-> ~ In (String a "") ["I"; "O"; "l"; "0"].
Proof.
  unfold IPFSService.chars.
  do 62 (destruct k as [|k];
         [ intros H; injection H as <-; vm_compute; split;
           [ intros E;
             first [ discriminate E
                   | intros [F|[F|[F|[F|[]]]]]; discriminate F ]
           | intros N;
             first [ reflexivity
                   | exfalso; apply N; simpl; tauto ] ]
         | ]).
  intros H. discriminate H.
Qed.

Lemma drawn_base58 (x : Number) :
  String.length (IPFSService.drawn x) = 1%nat ->
  all_chars IPFSService.base58 (IPFSService.drawn x) = true
  <-> ~ In (IPFSService.drawn x) ["I"; "O"; "l"; "0"].
Proof.
  intros Hlen. unfold IPFSService.drawn in *.
  destruct (charAt_cases IPFSService.chars
              (Math_floor (Number_mul x
                 (Number_of_Z (Z.of_nat (String.length IPFSService.chars))))))
    as [E | (k & a & Hget & E)]; rewrite E in *.
  - discriminate Hlen.
  - cbn [all_chars]. rewrite andb_true_r. exact (chars_base58 k a Hget).
Qed.

Lemma mock_rounds_shape (random : nat -> Number) (n : nat) :
  forall (i : nat) (result : string),
  (forall j, (i <= j < i + n)%nat ->
             String.length (IPFSService.drawn (random j)) = 1%nat) ->
  exists body,
    IPFSService.mock_rounds random i n result = result ++ body
    /\ String.length body = n
    /\ (all_chars IPFSService.base58 body = true
        <-> forall j, (i <= j < i + n)%nat ->
                      ~ In (IPFSService.drawn (random j)) ["I"; "O"; "l"; "0"]).
Proof.
  induction n as [|n IH]; intros i result H.
  - exists "". split; [now rewrite append_nil_r|]. split; [reflexivity|].
    split; [intros _ j Hj; lia | reflexivity].
  - cbn [IPFSService.mock_rounds].
    destruct (IH (S i) (result ++ IPFSService.drawn (random i)))
      as (body & E & Hlen & Hiff).
    { intros j Hj. apply H. lia. }
    exists (IPFSService.drawn (random i) ++ body).
    split; [now rewrite E, append_assoc|].
    split; [rewrite length_append, Hlen, (H i) by lia; reflexivity|].
    rewrite all_chars_app, andb_true_iff, Hiff,
            (drawn_base58 (random i) (H i ltac:(lia))).
    split.
    + intros [H0 Hrest] j Hj.
      destruct (Nat.eq_dec j i) as [->|Hne]; [exact H0|].
      apply Hrest. lia.
    + intros Hall. split; [apply Hall; lia|].
      intros j Hj. apply Hall. lia.
Qed.

(** X11.  The mock hash of an upload has [Qm] and 44 more characters,
    whenever every draw of [Math.random] selects a character of the
    alphabet; the upload reports success with it, whatever the invoice
    data are, together with the two gateway addresses that [getIPFSUrl]
    gives for it; and [isValidIPFSHash] accepts it exactly when none of
    the 44 draws is one of [I], [O], [l] and [0], which the alphabet of the
    generator holds and the class of the validator leaves out. *)
Theorem generateMockIPFSHash_validity (timestamp : string)
  (random : nat -> Number) (invoiceData : IPFSService.InvoiceInput) :
  (forall i, (i < 44)%nat ->
             String.length (IPFSService.drawn (random i)) = 1%nat) ->
  let hash := IPFSService.generateMockIPFSHash random in
  String.length hash = 46%nat
  /\ prefix "Qm" hash = true
  /\ IPFSService.uploadInvoiceData timestamp random invoiceData
     = {| ipfs_success := true;
          ipfsHash := Some hash;
          pinataUrl := Some (IPFSService.getIPFSUrl hash false);
          publicUrl := Some (IPFSService.getIPFSUrl hash true);
          ipfs_error := None |}
  /\ (IPFSService.isValidIPFSHash hash = true
      <-> forall i, (i < 44)%nat ->
                    ~ In (IPFSService.drawn (random i)) ["I"; "O"; "l"; "0"]).
Proof.
  intros H hash. subst hash. unfold IPFSService.generateMockIPFSHash.
  destruct (mock_rounds_shape random 44 0 "Qm") as (body & E & Hlen & Hiff).
  { intros j Hj. apply H. lia. }
  unfold IPFSService.uploadInvoiceData, IPFSService.uploadInvoiceData_logged,
    IPFSService.generateMockIPFSHash.
  cbn [fst]. rewrite E.
  split; [rewrite length_append, Hlen; reflexivity|].
  split; [apply prefix_app|].
  split; [reflexivity|].
  rewrite isValidIPFSHash_body by exact Hlen.
  rewrite Hiff. split; intros Hall i Hi; apply Hall; lia.
Qed.

(** A hash made of the character [f]: every draw is 0.5. *)
Lemma generateMockIPFSHash_validity_witness :
  (forall i, (i < 44)%nat ->
     String.length (IPFSService.drawn (Number_of_decimal false 5 (-1))) = 1%nat)
  /\ IPFSService.generateMockIPFSHash (fun _ => Number_of_decimal false 5 (-1))
     = "Qmffffffffffffffffffffffffffffffffffffffffffff"
  /\ IPFSService.isValidIPFSHash
       (IPFSService.generateMockIPFSHash
          (fun _ => Number_of_decimal false 5 (-1))) = true
  /\ (IPFSService.isValidIPFSHash
        (IPFSService.generateMockIPFSHash
           (fun _ => Number_of_decimal false 5 (-1))) = true
      <-> forall i, (i < 44)%nat ->
            ~ In (IPFSService.drawn (Number_of_decimal false 5 (-1)))
                 ["I"; "O"; "l"; "0"]).
Proof.
  split; [intros i _; vm_compute; reflexivity|].
  split; [vm_compute; reflexivity|].
  split; [vm_compute; reflexivity|].
  apply (generateMockIPFSHash_validity "2025-01-01T00:00:00.000Z"
           (fun _ => Number_of_decimal false 5 (-1))
           IPFSService.no_input).
  intros i _. vm_compute. reflexivity.
Defined.

(** With every draw 0.13 the hash is made of the character [I]: the upload
    reports success with a hash that [isValidIPFSHash] rejects. *)
Example uploadInvoiceData_invalid_hash :
  let random := fun _ : nat => Number_of_decimal false 13 (-2) in
  let result :=
    IPFSService.uploadInvoiceData "2025-01-01T00:00:00.000Z" random
      IPFSService.no_input in
  ipfs_success result = true
  /\ ipfsHash result = Some "QmIIIIIIIIIIIIIIIIIIIIIIIIIIIIIIIIIIIIIIIIIIII"
  /\ IPFSService.isValidIPFSHash
       "QmIIIIIIIIIIIIIIIIIIIIIIIIIIIIIIIIIIIIIIIIIIII" = false.
Proof. vm_compute. repeat split; reflexivity. Qed.

(** X12.  [retrieveFromIPFS] asks the Pinata gateway first and the public
    gateway only when that request itself fails: a response of the Pinata
    gateway that is not [ok] ends the retrieval with its status in the
    error, and the public gateway is not asked.  A success carries the JSON
    body of an [ok] response of the gateway asked last. *)
Theorem retrieveFromIPFS_fallback (Data : Type)
  (fetch : string -> Result (IPFSService.Response Data)) (ipfsHash : string) :
  let first := IPFSService.PINATA_GATEWAY ++ ipfsHash in
  let second := IPFSService.PUBLIC_GATEWAY ++ ipfsHash in
  let result := fst (IPFSService.retrieveFromIPFS Data fetch ipfsHash) in
  let fetched := snd (IPFSService.retrieveFromIPFS Data fetch ipfsHash) in
  (fetched = [first] \/ fetched = [first; second])
  /\ (fetched = [first; second] <-> exists e, fetch first = inr e)
  /\ (forall r, fetch first = inl r -> IPFSService.ok r = false ->
        fetched = [first]
        /\ result = {| IPFSService.success := false;
                       IPFSService.data := None;
                       IPFSService.error :=
                         Some ("HTTP error! status: "
                               ++ Builtins.integer_text (IPFSService.status r)) |})
  /\ (IPFSService.success result = true ->
        exists r d,
          (fetch first = inl r
           \/ ((exists e, fetch first = inr e) /\ fetch second = inl r))
          /\ IPFSService.ok r = true
          /\ IPFSService.json r = inl d
          /\ IPFSService.data result = Some d).
Proof.
  intros first second result fetched.
  subst result fetched. unfold IPFSService.retrieveFromIPFS.
  fold first. fold second.
  assert (Hne : [first] <> [first; second]) by discriminate.
  destruct (fetch first) as [r|e] eqn:E1.
  - destruct (IPFSService.ok r) eqn:Hok; cbn [negb].
    + destruct (IPFSService.json r) as [d|e] eqn:Hj; cbn [fst snd].
      * split; [now left|]. split.
        { split; [intros H; now apply Hne in H | intros [e H]; discriminate H]. }
        split; [intros r' H; injection H as <-; congruence|].
        intros _. exists r, d. repeat split; auto.
      * split; [now left|]. split.
        { split; [intros H; now apply Hne in H | intros [e' H]; discriminate H]. }
        split; [intros r' H; injection H as <-; congruence|].
        intros H. discriminate H.
    + cbn [fst snd]. split; [now left|]. split.
      { split; [intros H; now apply Hne in H | intros [e' H]; discriminate H]. }
      split.
      * intros r' H _. injection H as <-. split; reflexivity.
      * intros H. discriminate H.
  - destruct (fetch second) as [r|e2] eqn:E2.
    + destruct (IPFSService.ok r) eqn:Hok; cbn [negb].
      * destruct (IPFSService.json r) as [d|e3] eqn:Hj; cbn [fst snd].
        -- split; [now right|]. split; [split; [now exists e | reflexivity]|].
           split; [intros r' H; discriminate H|].
           intros _. exists r, d. repeat split; auto.
           right. split; [now exists e | reflexivity].
        -- split; [now right|]. split; [split; [now exists e | reflexivity]|].
           split; [intros r' H; discriminate H|].
           intros H. discriminate H.
      * cbn [fst snd]. split; [now right|].
        split; [split; [now exists e | reflexivity]|].
        split; [intros r' H; discriminate H|].
        intros H. discriminate H.
    + cbn [fst snd]. split; [now right|].
      split; [split; [now exists e | reflexivity]|].
      split; [intros r' H; discriminate H|].
      intros H. discriminate H.
Qed.

(** ** Wallet detection *)

(** X13.  WalletConnect is always listed among the installed wallets, and
    a connection to it never succeeds: whatever the page holds, the result
    is the failure "WalletConnect integration not yet implemented", no
    request is sent to any wallet and the listeners are left as they were. *)
Theorem connectWallet_walletconnect_unavailable
  (listed window : WalletDetectionService.Window) (listeners : list string) :
  (exists wallet,
     In wallet (WalletDetectionService.getInstalledWallets listed)
     /\ WalletDetectionService.id wallet = "walletconnect")
  /\ WalletDetectionService.connectWallet
       (WalletDetectionService.initializeWalletProviders listed) window
       listeners "walletconnect"
     = {| WalletDetectionService.outcome :=
            inl {| WalletDetectionService.success := false;
                   WalletDetectionService.accounts := None;
                   WalletDetectionService.chainId := None;
                   WalletDetectionService.error :=
                     Some "WalletConnect integration not yet implemented" |};
          WalletDetectionService.requests := [];
          WalletDetectionService.listening := listeners |}.
Proof.
  split.
  - eexists. split.
    + unfold WalletDetectionService.getInstalledWallets,
        WalletDetectionService.getAvailableWallets,
        WalletDetectionService.initializeWalletProviders.
      apply filter_In. split; [right; left; reflexivity | reflexivity].
    + reflexivity.
  - reflexivity.
Qed.

(** X14.  Trust Wallet is listed as installed when [window.ethereum]
    carries its flag, but a connection uses [window.trustwallet] only: with
    the flag set and no [window.trustwallet], the wallet is among the
    installed ones and connecting to it fails with "Trust Wallet provider
    not available" without any request. *)
Theorem connectWallet_trust_flag_only
  (listed window : WalletDetectionService.Window)
  (p : WalletDetectionService.Provider) (listeners : list string) :
  WalletDetectionService.ethereum listed = Some p ->
  WalletDetectionService.isTrust p = true ->
  WalletDetectionService.trustwallet listed = None ->
  (exists wallet,
     In wallet (WalletDetectionService.getInstalledWallets listed)
     /\ WalletDetectionService.id wallet = "trust")
  /\ WalletDetectionService.connectWallet
       (WalletDetectionService.initializeWalletProviders listed) window
       listeners "trust"
     = {| WalletDetectionService.outcome :=
            inl {| WalletDetectionService.success := false;
                   WalletDetectionService.accounts := None;
                   WalletDetectionService.chainId := None;
                   WalletDetectionService.error :=
                     Some "Trust Wallet provider not available" |};
          WalletDetectionService.requests := [];
          WalletDetectionService.listening := listeners |}.
Proof.
  intros He Hflag Hnone.
  assert (Hinst : WalletDetectionService.isTrustWalletInstalled listed = true).
  { unfold WalletDetectionService.isTrustWalletInstalled.
    rewrite He, Hnone. cbn. exact Hflag. }
  split.
  - eexists. split.
    + unfold WalletDetectionService.getInstalledWallets,
        WalletDetectionService.getAvailableWallets,
        WalletDetectionService.initializeWalletProviders.
      apply filter_In.
      split; [right; right; right; left; reflexivity | exact Hinst].
    + reflexivity.
  - unfold WalletDetectionService.connectWallet,
      WalletDetectionService.connectWallet_try,
      WalletDetectionService.getWalletById,
      WalletDetectionService.initializeWalletProviders.
    cbn [find WalletDetectionService.id String.eqb Ascii.eqb Bool.eqb].
    cbn [WalletDetectionService.installed]. rewrite Hinst. cbn [negb].
    unfold WalletDetectionService.connectGenericWallet.
    cbn [WalletDetectionService.provider]. rewrite Hnone.
    reflexivity.
Qed.

Lemma connectWallet_trust_flag_only_witness :
  let p :=
    {| WalletDetectionService.isMetaMask := false;
       WalletDetectionService.isCoinbaseWallet := false;
       WalletDetectionService.isTrust := true;
       WalletDetectionService.isRainbow := false;
       WalletDetectionService.eth_requestAccounts :=
         inl ["0x3BEa30431539669E94B2E79149654586F7746A16"];
       WalletDetectionService.eth_chainId := inl "0xaa36a7" |} in
  let window :=
    {| WalletDetectionService.ethereum := Some p;
       WalletDetectionService.coinbaseWalletExtension := None;
       WalletDetectionService.trustwallet := None;
       WalletDetectionService.rainbow := None |} in
  map WalletDetectionService.id
      (WalletDetectionService.getInstalledWallets window)
  = ["walletconnect"; "trust"]
  /\ (exists wallet,
        In wallet (WalletDetectionService.getInstalledWallets window)
        /\ WalletDetectionService.id wallet = "trust")
  /\ WalletDetectionService.connectWallet
       (WalletDetectionService.initializeWalletProviders window) window
       [] "trust"
     = {| WalletDetectionService.outcome :=
            inl {| WalletDetectionService.success := false;
                   WalletDetectionService.accounts := None;
                   WalletDetectionService.chainId := None;
                   WalletDetectionService.error :=
                     Some "Trust Wallet provider not available" |};
          WalletDetectionService.requests := [];
          WalletDetectionService.listening := [] |}.
Proof.
  intros p window. split; [reflexivity|].
  apply (connectWallet_trust_flag_only window window p []); reflexivity.
Defined.



(** ** The invoice form *)

Lemma truthy_nonempty (s : string) :
  truthy (Some s) = negb (String.eqb s "").
Proof. destruct s; reflexivity. Qed.

Lemma gt_zero_not_le (x : Number) :
  Builtins.Number_gt_zero x = true -> Number_le_zero x = false.
Proof.
  unfold Builtins.Number_gt_zero, Number_le_zero, SFltb, SFleb.
  destruct x as [[]|[]| |[] m e]; cbn; congruence.
Qed.

Lemma not_le_zero (x : Number) :
  Number_le_zero x = false ->
  Builtins.Number_gt_zero x = negb (isNaN x).
Proof.
  unfold Builtins.Number_gt_zero, Number_le_zero, SFltb, SFleb.
  destruct x as [[]|[]| |[] m e]; cbn; congruence.
Qed.

(** X16.  The submit button and the validation of the form agree on the
    header fields: when [canSubmit] holds, [validateForm] can only report
    an error of the items; and a form that [validateForm] accepts can be
    submitted by a connected wallet on a supported network exactly when its
    amount is not [NaN] (the validation tests [amount <= 0], the button
    [amount > 0]). *)
Theorem canSubmit_and_validateForm (isConnected : bool)
  (network : option Networks.Network) (isSubmitting : bool)
  (formData : InvoiceCreationData) :
  (BlockchainInvoiceForm.canSubmit isConnected network isSubmitting formData
   = true ->
   BlockchainInvoiceForm.validateForm formData
   = if (List.length (items _ formData) =? 0)%nat
     then Some "At least one item is required"
     else BlockchainInvoiceForm.item_error (items _ formData))
  /\ (BlockchainInvoiceForm.validateForm formData = None ->
      BlockchainInvoiceForm.canSubmit isConnected network isSubmitting formData
      = isConnected && BlockchainInvoiceForm.network_supported network
        && negb isSubmitting && negb (isNaN (amount formData))).
Proof.
  unfold BlockchainInvoiceForm.canSubmit, BlockchainInvoiceForm.validateForm.
  rewrite !truthy_nonempty. split.
  - intros H.
    apply andb_true_iff in H as [H H6]. apply andb_true_iff in H as [H H5].
    apply andb_true_iff in H as [_ H4].
    rewrite H5, H6, (gt_zero_not_le _ H4). reflexivity.
  - destruct (negb (String.eqb (Builtins.trim (companyName _ formData)) ""))
      eqn:E1; cbn [negb]; [|intros H; discriminate H].
    destruct (negb (String.eqb (Builtins.trim (clientName _ formData)) ""))
      eqn:E2; cbn [negb]; [|intros H; discriminate H].
    destruct (Number_le_zero (amount formData)) eqn:E3;
      [intros H; discriminate H|].
    intros _. rewrite (not_le_zero _ E3), !andb_true_r. reflexivity.
Qed.

(** A form with the amount [NaN] passes the validation and cannot be
    submitted. *)
Example validateForm_accepts_NaN :
  let formData : InvoiceCreationData :=
    {| amount := NaN;
       companyName := "Acme"; companyAddress := "";
       clientName := "Bob"; clientAddress := "";
       description := Some "";
       items := [ {| item_description := "work"; quantity := NaN;
                     rate := Number_of_Z 10; item_amount := NaN |} ];
       notes := Some ""; terms := Some ""; dueDate := None |} in
  BlockchainInvoiceForm.validateForm formData = None
  /\ BlockchainInvoiceForm.canSubmit true (Some Networks.sepolia) false formData
     = false.
Proof. vm_compute. split; reflexivity. Qed.

Section FormRuns.

Variable env : Env.
Variable svc : Service.

Lemma createInvoice_success_no_error (formData : InvoiceCreationData)
  (result : TxResult) :
  fst (run (BlockchainService.createInvoice svc formData) env) = inl result ->
  Gateway.success result = true -> Gateway.error result = None.
Proof.
  unfold BlockchainService.createInvoice, BlockchainService.createInvoice_try.
  unfold_run.
  answer_cases; cbn [fst snd]; intros H Hs; injection H as <-;
    first [ discriminate Hs | reflexivity ].
Qed.

Lemma createInvoice_resolves (formData : InvoiceCreationData) :
  exists result,
    fst (run (BlockchainService.createInvoice svc formData) env) = inl result.
Proof.
  unfold BlockchainService.createInvoice, BlockchainService.createInvoice_try.
  unfold_run.
  answer_cases; cbn [fst snd]; eexists; reflexivity.
Qed.

(** X17.  [handleSubmit] sends nothing when the form does not validate, the
    wallet is not connected or the network is not supported: it shows the
    alert of the first check that fails and leaves the form.  When the
    checks pass it creates the invoice; a creation that succeeds with no
    invoice id, or with the id 0, is shown as the alert "Failed to create
    invoice", the form is left as it is and no toast is shown. *)
Theorem handleSubmit_outcomes (isConnected : bool) (address : option string)
  (network : option Networks.Network) (formData : InvoiceCreationData) :
  let out :=
    run (BlockchainInvoiceForm.handleSubmit isConnected address network svc
           formData) env in
  (forall msg, BlockchainInvoiceForm.validateForm formData = Some msg ->
     out = (inl (BlockchainInvoiceForm.Alert msg, formData), []))
  /\ (BlockchainInvoiceForm.validateForm formData = None ->
      isConnected && truthy address = false ->
      out = (inl (BlockchainInvoiceForm.Alert
                    "Please connect your wallet first", formData), []))
  /\ (BlockchainInvoiceForm.validateForm formData = None ->
      isConnected && truthy address = true ->
      BlockchainInvoiceForm.network_supported network = false ->
      out = (inl (BlockchainInvoiceForm.Alert
                    "Please switch to a supported network (Sepolia)",
                  formData), []))
  /\ (BlockchainInvoiceForm.validateForm formData = None ->
      isConnected && truthy address = true ->
      BlockchainInvoiceForm.network_supported network = true ->
      forall result,
        fst (run (BlockchainService.createInvoice svc formData) env)
        = inl result ->
        Gateway.success result = true ->
        invoiceId result = None \/ invoiceId result = Some 0 ->
        out = (inl (BlockchainInvoiceForm.Alert "Failed to create invoice",
                    formData),
               snd (run (BlockchainService.createInvoice svc formData) env))).
Proof.
  intros out. subst out. unfold BlockchainInvoiceForm.handleSubmit.
  split; [|split; [|split]].
  - intros msg ->. reflexivity.
  - intros -> Hc. apply andb_false_iff in Hc.
    destruct Hc as [-> | ->]; cbn [negb orb]; [reflexivity|].
    rewrite orb_true_r. reflexivity.
  - intros -> Hc Hn. apply andb_true_iff in Hc as [-> ->]. rewrite Hn.
    reflexivity.
  - intros -> Hc Hn result Hr Hs Hid.
    apply andb_true_iff in Hc as [-> ->]. rewrite Hn. cbn [negb orb].
    pose proof (createInvoice_success_no_error formData result Hr Hs) as He.
    unfold run in *.
    unfold try_catch at 1. unfold bind at 1.
    destruct (BlockchainService.createInvoice svc formData env [])
      as [[r|e] tr] eqn:E; cbn [fst snd] in *; [|discriminate Hr].
    injection Hr as ->. rewrite Hs, He.
    destruct Hid as [-> | ->]; [reflexivity|].
    destruct (transactionHash result) as [[|c h]|]; reflexivity.
Qed.

End FormRuns.

(** An invoice created with the id 0: the transaction is sent and
    confirmed, and the form reports a failure. *)
Lemma handleSubmit_outcomes_witness :
  let formData : InvoiceCreationData :=
    {| amount := Number_of_decimal false 1005 (-1);
       companyName := "Acme"; companyAddress := "";
       clientName := "Bob"; clientAddress := "";
       description := Some "";
       items := [ {| item_description := "work"; quantity := Number_of_Z 1;
                     rate := Number_of_decimal false 1005 (-1);
                     item_amount := Number_of_decimal false 1005 (-1) |} ];
       notes := Some ""; terms := Some ""; dueDate := None |} in
  let env :=
    {| contract_getInvoice := (Examples.chain 0 0 0 Examples.pinned).(contract_getInvoice);
       signer_getAddress := (Examples.chain 0 0 0 Examples.pinned).(signer_getAddress);
       pyusd_balanceOf := (Examples.chain 0 0 0 Examples.pinned).(pyusd_balanceOf);
       pyusd_allowance := (Examples.chain 0 0 0 Examples.pinned).(pyusd_allowance);
       pyusd_approve := (Examples.chain 0 0 0 Examples.pinned).(pyusd_approve);
       approve_wait := (Examples.chain 0 0 0 Examples.pinned).(approve_wait);
       estimateGas_payInvoice := (Examples.chain 0 0 0 Examples.pinned).(estimateGas_payInvoice);
       contract_payInvoice := (Examples.chain 0 0 0 Examples.pinned).(contract_payInvoice);
       pay_wait := (Examples.chain 0 0 0 Examples.pinned).(pay_wait);
       upload_typed := (Examples.chain 0 0 0 Examples.pinned).(upload_typed);
       upload_form := (Examples.chain 0 0 0 Examples.pinned).(upload_form);
       parseUnits := (Examples.chain 0 0 0 Examples.pinned).(parseUnits);
       estimateGas_createInvoice :=
         (Examples.chain 0 0 0 Examples.pinned).(estimateGas_createInvoice);
       contract_createInvoice := fun _ _ _ => inl {| hash := "0xc1" |};
       create_wait :=
         inl {| events := Some [ {| event := Some "InvoiceCreated";
                                    arg_invoiceId := Some 0 |} ] |} |} in
  let svc :=
    {| invoiceContract := Some "0x66bCb1F1cdf4f0338E79E3685CEe1144954B5a2b";
       pyusdContract := Some "0xCaC524BcA292aaade2DF8A05cC58F0a65B1B3bB9";
       signer := true |} in
  run (BlockchainInvoiceForm.handleSubmit true
         (Some "0x3BEa30431539669E94B2E79149654586F7746A16")
         (Some Networks.sepolia) svc formData) env
  = (inl (BlockchainInvoiceForm.Alert "Failed to create invoice", formData),
     [ ok UploadInvoiceData;
       ok (CreateInvoice "100500000"
             (Some "QmT5NvUtoM5nWFfrQdVrFtvGfKFmG7AHE8P34isapyhCxX") None);
       ok CreateWait ]).
Proof.
  intros formData env svc.
  pose proof (handleSubmit_outcomes env svc true
                (Some "0x3BEa30431539669E94B2E79149654586F7746A16")
                (Some Networks.sepolia) formData) as H.
  cbv zeta in H. destruct H as (_ & _ & _ & H).
  rewrite (H eq_refl eq_refl eq_refl
             {| Gateway.success := true; invoiceId := Some 0;
                transactionHash := Some "0xc1"; Gateway.error := None |}
             eq_refl eq_refl (or_intror eq_refl)).
  reflexivity.
Defined.

Lemma without_nonempty (index : nat) (l : list InvoiceItem) :
  (1 < List.length l)%nat -> BlockchainInvoiceForm.without index l <> [].
Proof.
  destruct l as [|x [|y l]]; cbn [List.length]; try lia.
  intros _. destruct index as [|i]; cbn; discriminate.
Qed.

Lemma assign_nonempty (index : nat) (change : BlockchainInvoiceForm.ItemChange)
  (l l' : list InvoiceItem) :
  BlockchainInvoiceForm.assign index change l = Some l' -> l' <> [].
Proof.
  destruct l as [|x l]; [destruct index; intros H; discriminate H|].
  destruct index as [|i]; cbn [BlockchainInvoiceForm.assign].
  - intros H. injection H as <-. intros F. discriminate F.
  - destruct (BlockchainInvoiceForm.assign i change l);
      intros H; [injection H as <-; intros F; discriminate F|discriminate H].
Qed.

Lemma edit_keeps_items (e : BlockchainInvoiceForm.Edit)
  (formData formData' : InvoiceCreationData) :
  items _ formData <> [] ->
  BlockchainInvoiceForm.edit e formData = Some formData' ->
  items _ formData' <> [].
Proof.
  intros Hne. destruct e as [|index|index change|field value]; cbn.
  - intros H. injection H as <-. cbn.
    destruct (items _ formData); discriminate.
  - intros H. injection H as <-.
    unfold BlockchainInvoiceForm.removeItem.
    destruct (1 <? List.length (items _ formData))%nat eqn:E; [|exact Hne].
    cbn. apply without_nonempty. now apply Nat.ltb_lt.
  - unfold BlockchainInvoiceForm.updateItem.
    destruct (BlockchainInvoiceForm.assign index change (items _ formData))
      as [newItems|] eqn:E; [|discriminate].
    intros H. injection H as <-. cbn. exact (assign_nonempty _ _ _ _ E).
  - intros H. injection H as <-. exact Hne.
Qed.

Lemma item_error_not_missing (l : list InvoiceItem) :
  BlockchainInvoiceForm.item_error l <> Some "At least one item is required".
Proof.
  induction l as [|item l IH]; cbn; [discriminate|].
  destruct (negb _); [discriminate|].
  destruct (Number_le_zero _); [discriminate|].
  destruct (Builtins.Number_lt_zero _); [discriminate | exact IH].
Qed.

(** X18.  The form never loses its last item: starting from the initial
    form, after any sequence of edits (rows added, removed, changed, text
    fields set) the list of items is not empty, so that [validateForm]
    never reports "At least one item is required". *)
Theorem form_items_never_empty (l : list BlockchainInvoiceForm.Edit)
  (formData : InvoiceCreationData) :
  BlockchainInvoiceForm.edits l BlockchainInvoiceForm.initial_form
  = Some formData ->
  items _ formData <> []
  /\ BlockchainInvoiceForm.validateForm formData
     <> Some "At least one item is required".
Proof.
  assert (G : forall l f f',
             items _ f <> [] ->
             BlockchainInvoiceForm.edits l f = Some f' -> items _ f' <> []).
  { clear. induction l as [|e l IH]; intros f f' Hne; cbn.
    - intros H. injection H as <-. exact Hne.
    - destruct (BlockchainInvoiceForm.edit e f) as [f1|] eqn:E;
        [|discriminate].
      apply IH. exact (edit_keeps_items e f f1 Hne E). }
  intros H.
  assert (Hne : items _ formData <> []).
  { apply (G l BlockchainInvoiceForm.initial_form formData); [|exact H].
    discriminate. }
  split; [exact Hne|].
  unfold BlockchainInvoiceForm.validateForm.
  destruct (negb _); [discriminate|].
  destruct (negb _); [discriminate|].
  destruct (Number_le_zero _); [discriminate|].
  destruct (items _ formData) as [|x rest] eqn:E; [contradiction|].
  cbn [List.length Nat.eqb]. apply item_error_not_missing.
Qed.

(** The only row is removed (which does nothing), a row is added, the
    first one is removed, and the quantity of the remaining one is set. *)
Lemma form_items_never_empty_witness :
  let l :=
    [ BlockchainInvoiceForm.RemoveItem 0;
      BlockchainInvoiceForm.AddItem;
      BlockchainInvoiceForm.RemoveItem 0;
      BlockchainInvoiceForm.UpdateItem 0
        (BlockchainInvoiceForm.SetRate (Number_of_Z 5)) ] in
  exists formData,
    BlockchainInvoiceForm.edits l BlockchainInvoiceForm.initial_form
    = Some formData
    /\ List.length (items _ formData) = 1%nat
    /\ amount formData = Number_of_Z 5
    /\ items _ formData <> []
    /\ BlockchainInvoiceForm.validateForm formData
       <> Some "At least one item is required".
Proof.
  intros l. eexists. split; [vm_compute; reflexivity|].
  split; [reflexivity|]. split; [vm_compute; reflexivity|].
  apply (form_items_never_empty l). vm_compute. reflexivity.
Defined.

(** ** Listeners of the wallet provider *)

Lemma count_removed (name r : string) (l : list string) :
  List.length (filter (String.eqb name)
                 (filter (fun n => negb (String.eqb n r)) l))
  = if String.eqb name r then O
    else List.length (filter (String.eqb name) l).
Proof.
  induction l as [|x l IH]; cbn [filter].
  - now destruct (String.eqb name r).
  - destruct (String.eqb x r) eqn:Exr; cbn [negb].
    + rewrite IH. destruct (String.eqb name r) eqn:Enr; [reflexivity|].
      destruct (String.eqb name x) eqn:Enx; [|reflexivity].
      apply String.eqb_eq in Enx, Exr. subst.
      rewrite String.eqb_refl in Enr. discriminate Enr.
    + cbn [filter]. destruct (String.eqb name x) eqn:Enx.
      * cbn [List.length]. rewrite IH.
        destruct (String.eqb name r) eqn:Enr; [|reflexivity].
        apply String.eqb_eq in Enx, Enr. subst.
        rewrite String.eqb_refl in Exr. discriminate Exr.
      * exact IH.
Qed.

Lemma count_app (name : string) (a b : list string) :
  List.length (filter (String.eqb name) (a ++ b))
  = (List.length (filter (String.eqb name) a)
     + List.length (filter (String.eqb name) b))%nat.
Proof. now rewrite filter_app, length_app. Qed.

Lemma setupEventListeners_step (name : string) (w : WalletContext.World) :
  WalletContext.ethereum w = true ->
  WalletContext.ethereum (WalletContext.setupEventListeners w) = true
  /\ WalletContext.walletState (WalletContext.setupEventListeners w)
     = WalletContext.walletState w
  /\ WalletChecks.listeners_for name (WalletContext.setupEventListeners w)
     = if String.eqb name "accountsChanged" || String.eqb name "chainChanged"
       then 1%nat
       else if String.eqb name "connect" || String.eqb name "disconnect"
       then S (WalletChecks.listeners_for name w)
       else WalletChecks.listeners_for name w.
Proof.
  intros He. unfold WalletContext.setupEventListeners. rewrite He.
  cbn [negb]. split; [exact He|]. split; [reflexivity|].
  unfold WalletChecks.listeners_for, WalletContext.on,
    WalletContext.removeAllListeners.
  cbn [WalletContext.listeners].
  rewrite !count_app, !count_removed. cbn [filter].
  destruct (String.eqb name "accountsChanged") eqn:E1.
  { apply String.eqb_eq in E1. subst name. reflexivity. }
  destruct (String.eqb name "chainChanged") eqn:E2.
  { apply String.eqb_eq in E2. subst name. reflexivity. }
  destruct (String.eqb name "connect") eqn:E3.
  { apply String.eqb_eq in E3. subst name. cbn. lia. }
  destruct (String.eqb name "disconnect") eqn:E4.
  { apply String.eqb_eq in E4. subst name. cbn. lia. }
  cbn. lia.
Qed.

Lemma removeEventListeners_clears (name : string) (w : WalletContext.World) :
  WalletContext.ethereum w = true ->
  In name ["accountsChanged"; "chainChanged"; "connect"; "disconnect"] ->
  WalletChecks.listeners_for name (WalletContext.removeEventListeners w) = O.
Proof.
  intros He Hin. unfold WalletContext.removeEventListeners. rewrite He.
  cbn [negb]. unfold WalletChecks.listeners_for,
    WalletContext.removeAllListeners.
  cbn [WalletContext.listeners]. rewrite !count_removed.
  destruct Hin as [<-|[<-|[<-|[<-|[]]]]]; reflexivity.
Qed.

(** X19.  Every run of [setupEventListeners] adds one more listener for
    [connect] and one more for [disconnect], while [accountsChanged] and
    [chainChanged] keep exactly one: after [n] runs in a row on a page with
    a wallet there are [n] more listeners for each of the first two events
    than before.  The wallet state is not touched, and
    [removeEventListeners] leaves none of the four. *)
Theorem setupEventListeners_accumulates (n : nat) (w : WalletContext.World) :
  WalletContext.ethereum w = true ->
  let w' := WalletChecks.setups n w in
  WalletChecks.listeners_for "connect" w'
  = (n + WalletChecks.listeners_for "connect" w)%nat
  /\ WalletChecks.listeners_for "disconnect" w'
     = (n + WalletChecks.listeners_for "disconnect" w)%nat
  /\ ((0 < n)%nat ->
      WalletChecks.listeners_for "accountsChanged" w' = 1%nat
      /\ WalletChecks.listeners_for "chainChanged" w' = 1%nat)
  /\ WalletContext.walletState w' = WalletContext.walletState w
  /\ (forall name,
        In name ["accountsChanged"; "chainChanged"; "connect"; "disconnect"] ->
        WalletChecks.listeners_for name (WalletContext.removeEventListeners w')
        = O).
Proof.
  intros He w'. subst w'.
  assert (G : WalletContext.ethereum (WalletChecks.setups n w) = true
              /\ WalletChecks.listeners_for "connect" (WalletChecks.setups n w)
                 = (n + WalletChecks.listeners_for "connect" w)%nat
              /\ WalletChecks.listeners_for "disconnect"
                   (WalletChecks.setups n w)
                 = (n + WalletChecks.listeners_for "disconnect" w)%nat
              /\ WalletContext.walletState (WalletChecks.setups n w)
                 = WalletContext.walletState w).
  { induction n as [|n (IHe & IHc & IHd & IHs)]; cbn [WalletChecks.setups].
    - repeat split; [exact He].
    - destruct (setupEventListeners_step "connect" _ IHe) as (H1 & H2 & H3).
      destruct (setupEventListeners_step "disconnect" _ IHe) as (_ & _ & H4).
      split; [exact H1|]. split; [rewrite H3, IHc; reflexivity|].
      split; [rewrite H4, IHd; reflexivity|].
      now rewrite H2. }
  destruct G as (Ge & Gc & Gd & Gs).
  split; [exact Gc|]. split; [exact Gd|]. split; [|split; [exact Gs|]].
  - intros Hn. destruct n as [|n]; [lia|]. cbn [WalletChecks.setups].
    assert (IHe : WalletContext.ethereum (WalletChecks.setups n w) = true).
    { clear -He. induction n as [|n IH]; cbn [WalletChecks.setups];
        [exact He|].
      now apply (setupEventListeners_step "connect"). }
    split.
    + now destruct (setupEventListeners_step "accountsChanged" _ IHe)
        as (_ & _ & ->).
    + now destruct (setupEventListeners_step "chainChanged" _ IHe)
        as (_ & _ & ->).
  - intros name Hin. now apply removeEventListeners_clears.
Qed.

(** Two connections in a row on the wallet of the examples, which holds
    one listener for each event. *)
Lemma setupEventListeners_accumulates_witness :
  WalletContext.ethereum Examples.wallet = true
  /\ WalletContext.listeners (WalletChecks.setups 2 Examples.wallet)
     = ["connect"; "disconnect"; "connect"; "disconnect";
        "accountsChanged"; "chainChanged"; "connect"; "disconnect"]
  /\ WalletChecks.listeners_for "connect" (WalletChecks.setups 2 Examples.wallet)
     = 3%nat.
Proof.
  split; [reflexivity|]. split; [reflexivity|].
  exact (proj1 (setupEventListeners_accumulates 2 Examples.wallet eq_refl)).
Defined.

(** ** Reading an invoice *)

(** X20.  [BlockchainService.getInvoice] always resolves and issues at most
    the one read of the contract.  What it returns is the contract's
    struct, the amount as a decimal string from which [BigNumber.from]
    recovers the amount; an invoice whose id or one of whose time stamps
    does not fit in 53 bits is returned as [null], like a failed read, and
    the [exists] flag of the struct is not looked at. *)
Theorem BlockchainService_getInvoice_reads (env : Env) (svc : Service)
  (invoiceId : Z) :
  let out := run (BlockchainService.getInvoice svc invoiceId) env in
  exists found,
    fst out = inl found
    /\ (snd out = []
        \/ exists b, snd out = [ {| call := GetInvoice invoiceId;
                                    returned := b |} ])
    /\ (forall invoice, found = Some invoice ->
          exists address raw,
            invoiceContract svc = Some address
            /\ contract_getInvoice env invoiceId = inl raw
            /\ Z.abs (raw_id raw) < 2 ^ 53
            /\ Z.abs (raw_createdAt raw) < 2 ^ 53
            /\ Z.abs (raw_paidAt raw) < 2 ^ 53
            /\ Types.id invoice = raw_id raw
            /\ Types.creator invoice = raw_creator raw
            /\ Types.payer invoice = raw_payer raw
            /\ BigNumber_from (Types.amount invoice) = inl (raw_amount raw)
            /\ Types.status invoice = raw_status raw
            /\ Types.exists_ invoice = raw_exists raw)
    /\ (forall address raw,
          invoiceContract svc = Some address ->
          contract_getInvoice env invoiceId = inl raw ->
          Z.abs (raw_id raw) < 2 ^ 53 ->
          Z.abs (raw_createdAt raw) < 2 ^ 53 ->
          Z.abs (raw_paidAt raw) < 2 ^ 53 ->
          found <> None)
    /\ (found = None
        <-> invoiceContract svc = None
            \/ (exists e, contract_getInvoice env invoiceId = inr e)
            \/ exists raw,
                 contract_getInvoice env invoiceId = inl raw
                 /\ (2 ^ 53 <= Z.abs (raw_id raw)
                     \/ 2 ^ 53 <= Z.abs (raw_createdAt raw)
                     \/ 2 ^ 53 <= Z.abs (raw_paidAt raw))).
Proof.
  intros out. subst out.
  unfold BlockchainService.getInvoice. unfold_run.
  destruct (invoiceContract svc) as [address|] eqn:Ec.
  2:{ exists None. cbn [fst snd]. split; [reflexivity|]. split; [now left|].
      split; [intros i H; discriminate H|].
      split; [intros a raw H; discriminate H|].
      split; [now left | reflexivity]. }
  destruct (contract_getInvoice env invoiceId) as [raw|e] eqn:Er;
    cbn [fst snd app is_ok].
  2:{ exists None. split; [reflexivity|]. split; [right; now eexists|].
      split; [intros i H; discriminate H|].
      split; [intros a raw H1 H2; discriminate H2|].
      split; [intros _; right; left; now exists e | reflexivity]. }
  unfold BigNumber_toNumber.
  destruct (Z.abs (raw_id raw) <? 2 ^ 53) eqn:E1; cbn [fst snd].
  2:{ apply Z.ltb_ge in E1.
      exists None. split; [reflexivity|]. split; [right; now eexists|].
      split; [intros i H; discriminate H|].
      split; [intros a r _ Hr Hlt _ _; injection Hr as <-; lia|].
      split; [intros _; right; right; exists raw; auto | reflexivity]. }
  destruct (Z.abs (raw_createdAt raw) <? 2 ^ 53) eqn:E2; cbn [fst snd].
  2:{ apply Z.ltb_ge in E2.
      exists None. split; [reflexivity|]. split; [right; now eexists|].
      split; [intros i H; discriminate H|].
      split; [intros a r _ Hr _ Hlt _; injection Hr as <-; lia|].
      split; [intros _; right; right; exists raw; auto | reflexivity]. }
  destruct (Z.abs (raw_paidAt raw) <? 2 ^ 53) eqn:E3; cbn [fst snd].
  2:{ apply Z.ltb_ge in E3.
      exists None. split; [reflexivity|]. split; [right; now eexists|].
      split; [intros i H; discriminate H|].
      split; [intros a r _ Hr _ _ Hlt; injection Hr as <-; lia|].
      split; [intros _; right; right; exists raw; auto | reflexivity]. }
  apply Z.ltb_lt in E1, E2, E3.
  eexists. split; [reflexivity|]. split; [right; now eexists|].
  split.
  { intros i H. injection H as <-. exists address, raw.
    cbn. rewrite BigNumber_from_toString. repeat split; auto. }
  split; [intros a r _ _ _ _ _ H; discriminate H|].
  split; [intros H; discriminate H|].
  intros [H | [[e H] | (r & Hr & Hbig)]]; try discriminate H.
  injection Hr as <-. lia.
Qed.

(** ** Network set-up *)



(** X21.  [setupSepoliaEnvironment] succeeds exactly when the wallet
    accepts the switch to chain [0xaa36a7], or rejects it with code 4902
    and accepts the chain description; what the wallet answers about the
    token does not matter.  The first request is always the switch; the
    chain is described only after a rejection with code 4902; the token is
    proposed, last, exactly when the set-up succeeds.  A failure carries a
    message that is not empty. *)
Theorem setupSepoliaEnvironment_requests
  (ethereum : option WalletRequests.Wallet) :
  let result := fst (NetworkManager.setupSepoliaEnvironment ethereum) in
  let sent := snd (NetworkManager.setupSepoliaEnvironment ethereum) in
  (NetworkManager.success result = true
   <-> exists wallet,
         ethereum = Some wallet
         /\ ((exists u,
                WalletRequests.switchEthereumChain wallet "0xaa36a7" = inl u)
             \/ exists r u,
                  WalletRequests.switchEthereumChain wallet "0xaa36a7" = inr r
                  /\ WalletRequests.code r = Some 4902
                  /\ WalletRequests.addEthereumChain wallet
                       NetworkManager.sepolia_params = inl u))
  /\ (ethereum = None -> sent = [])
  /\ (ethereum <> None ->
      exists rest,
        sent = WalletRequests.wallet_switchEthereumChain "0xaa36a7" :: rest)
  /\ (forall params,
        In (WalletRequests.wallet_addEthereumChain params) sent ->
        params = NetworkManager.sepolia_params
        /\ exists wallet r,
             ethereum = Some wallet
             /\ WalletRequests.switchEthereumChain wallet "0xaa36a7" = inr r
             /\ WalletRequests.code r = Some 4902)
  /\ (NetworkManager.success result = true ->
      exists before,
        sent = (before ++
                [WalletRequests.wallet_watchAsset
                   (NetworkManager.pyusd_asset
                      "0xCaC524BcA292aaade2DF8A05cC58F0a65B1B3bB9")])%list
        /\ forall options, ~ In (WalletRequests.wallet_watchAsset options) before)
  /\ (NetworkManager.success result = false ->
      (forall options, ~ In (WalletRequests.wallet_watchAsset options) sent)
      /\ exists c msg, NetworkManager.error result = Some (String c msg)).
Proof.
  intros result sent. subst result sent.
  unfold NetworkManager.setupSepoliaEnvironment, NetworkManager.switchToSepolia,
    NetworkManager.addSepoliaNetwork, NetworkManager.addPYUSDToken.
  change (WalletRequests.chainIdHex Networks.sepolia) with "0xaa36a7".
  change (Networks.pyusdAddress Networks.sepolia)
    with (Some "0xCaC524BcA292aaade2DF8A05cC58F0a65B1B3bB9").
  cbv iota beta.
  assert (Hcode : forall r, WalletRequests.unrecognized_chain r = true
                            <-> WalletRequests.code r = Some 4902).
  { intros r. unfold WalletRequests.unrecognized_chain.
    destruct (WalletRequests.code r) as [c|]; [|split; discriminate].
    rewrite Z.eqb_eq. split; [now intros -> | now intros [= ->]]. }
  destruct ethereum as [wallet|].
  2:{ cbn. split.
      - split; [discriminate | intros (w & H & _); discriminate H].
      - split; [reflexivity|]. split; [intros H; now contradiction H|].
        split; [intros p []|]. split; [discriminate|].
        intros _. split; [intros o []|]. now eexists; eexists. }
  destruct (WalletRequests.switchEthereumChain wallet "0xaa36a7")
    as [u|r] eqn:Es.
  - (* the switch is accepted *)
    cbn [fst snd negb NetworkManager.success NetworkManager.done].
    destruct (WalletRequests.watchAsset wallet _) as [b|e];
      cbn [fst snd app NetworkManager.success NetworkManager.done].
    all: split;
      [ split; [intros _; exists wallet; split; [reflexivity|];
                left; now exists u | reflexivity] |].
    all: split; [discriminate|].
    all: split; [intros _; now eexists|].
    all: split; [intros p [H|[H|[]]]; discriminate H|].
    all: split; [|discriminate].
    all: intros _;
      exists [WalletRequests.wallet_switchEthereumChain "0xaa36a7"];
      split; [reflexivity|]; intros o [H|[]]; discriminate H.
  - destruct (WalletRequests.unrecognized_chain r) eqn:Ec.
    + apply Hcode in Ec.
      destruct (WalletRequests.addEthereumChain wallet
                  NetworkManager.sepolia_params) as [u|e] eqn:Ea.
      * (* the chain is described and accepted *)
        cbn [fst snd negb NetworkManager.success NetworkManager.done].
        destruct (WalletRequests.watchAsset wallet _) as [b|e];
          cbn [fst snd app NetworkManager.success NetworkManager.done].
        all: split;
          [ split; [intros _; exists wallet; split; [reflexivity|];
                    right; now exists r, u | reflexivity] |].
        all: split; [discriminate|].
        all: split; [intros _; now eexists|].
        all: split;
          [ intros p [H|[H|[H|[]]]]; try discriminate H;
            injection H as <-; split; [reflexivity|];
            now exists wallet, r |].
        all: split; [|discriminate].
        all: intros _;
          exists [WalletRequests.wallet_switchEthereumChain "0xaa36a7";
                  WalletRequests.wallet_addEthereumChain
                    NetworkManager.sepolia_params];
          split; [reflexivity|]; intros o [H|[H|[]]]; discriminate H.
      * (* the chain description is rejected *)
        cbn [fst snd negb NetworkManager.success NetworkManager.failed
             NetworkManager.error].
        split.
        { split; [discriminate|].
          intros (w & Hw & [[u' H] | (r' & u' & H1 & _ & H3)]);
            injection Hw as <-; congruence. }
        split; [discriminate|].
        split; [intros _; now eexists|].
        split.
        { intros p [H|[H|[]]]; try discriminate H. injection H as <-.
          split; [reflexivity|]. now exists wallet, r. }
        split; [discriminate|].
        intros _. split; [intros o [H|[H|[]]]; discriminate H|].
        unfold message_or, string_or, Error. cbn [message].
        destruct (message (WalletRequests.thrown e)) as [[|c m]|];
          now eexists; eexists.
    + (* another rejection *)
      cbn [fst snd negb NetworkManager.success NetworkManager.failed
           NetworkManager.error].
      split.
      { split; [discriminate|].
        intros (w & Hw & [[u' H] | (r' & u' & H1 & H2 & _)]);
          injection Hw as <-; [congruence|].
        assert (r' = r) by congruence. subst r'.
        apply Hcode in H2. congruence. }
      split; [discriminate|].
      split; [intros _; now eexists|].
      split; [intros p [H|[]]; discriminate H|].
      split; [discriminate|].
      intros _. split; [intros o [H|[]]; discriminate H|].
      unfold message_or, string_or, Error. cbn [message].
      destruct (message (WalletRequests.thrown r)) as [[|c m]|];
        now eexists; eexists.
Qed.



(** ** Connection of the invoice service *)

Lemma detectProvider_is_ethereum
  (ethereum : option BlockchainSession.Provider) :
  BlockchainSession.detectProvider ethereum = ethereum.
Proof.
  destruct ethereum as [p|]; [|reflexivity].
  unfold BlockchainSession.detectProvider.
  destruct (BlockchainSession.isMetaMask p),
    (BlockchainSession.isCoinbaseWallet p),
    (BlockchainSession.isTrust p), (BlockchainSession.isRainbow p);
    reflexivity.
Qed.

(** The contracts are bound on Sepolia only. *)
Lemma initializeContracts_cases (st : BlockchainSession.State) :
  In (BlockchainSession.currentNetwork st) ["sepolia"; "ethereum"; "polygon"] ->
  (BlockchainSession.currentNetwork st = "sepolia"
   /\ BlockchainSession.initializeContracts st
      = inl {| BlockchainSession.provider := BlockchainSession.provider st;
               BlockchainSession.signer := BlockchainSession.signer st;
               BlockchainSession.invoiceContract :=
                 Some "0x66bCb1F1cdf4f0338E79E3685CEe1144954B5a2b";
               BlockchainSession.pyusdContract :=
                 Some "0xCaC524BcA292aaade2DF8A05cC58F0a65B1B3bB9";
               BlockchainSession.currentNetwork := "sepolia" |})
  \/ (BlockchainSession.currentNetwork st <> "sepolia"
      /\ exists e, BlockchainSession.initializeContracts st = inr e).
Proof.
  unfold BlockchainSession.initializeContracts.
  intros [H|[H|[H|[]]]]; rewrite <- H.
  - left. split; reflexivity.
  - right. split; [discriminate|]. cbn. now eexists.
  - right. split; [discriminate|]. cbn. now eexists.
Qed.

Lemma registry_key (network : BlockchainSession.NetworkInfo)
  (e : string * Networks.Network) :
  find (fun e => Networks.chainId (snd e)
                 =? BlockchainSession.net_chainId network)
       Networks.NETWORKS = Some e ->
  In (fst e) ["sepolia"; "ethereum"; "polygon"]
  /\ (fst e = "sepolia" <-> BlockchainSession.net_chainId network = 11155111).
Proof.
  unfold Networks.NETWORKS. cbn [find snd Networks.chainId Networks.sepolia
    Networks.ethereum Networks.polygon].
  destruct (11155111 =? _) eqn:E1.
  { intros H. injection H as <-. apply Z.eqb_eq in E1.
    split; [now left|]. split; [now intros _ | reflexivity]. }
  destruct (1 =? _) eqn:E2.
  { intros H. injection H as <-. apply Z.eqb_eq in E2. apply Z.eqb_neq in E1.
    split; [right; now left|]. split; [discriminate | intros H; lia]. }
  destruct (137 =? _) eqn:E3.
  { intros H. injection H as <-. apply Z.eqb_neq in E1.
    split; [right; right; now left|].
    split; [discriminate | intros H; lia]. }
  discriminate.
Qed.

Lemma registry_entry (name : string) (network : Networks.Network) :
  BlockchainSession.entry Networks.NETWORKS name = Some network ->
  In name ["sepolia"; "ethereum"; "polygon"].
Proof.
  unfold BlockchainSession.entry, Networks.NETWORKS. cbn [find fst].
  destruct (String.eqb "sepolia" name) eqn:E1;
    [apply String.eqb_eq in E1; intros _; now left|].
  destruct (String.eqb "ethereum" name) eqn:E2;
    [apply String.eqb_eq in E2; intros _; right; now left|].
  destruct (String.eqb "polygon" name) eqn:E3;
    [apply String.eqb_eq in E3; intros _; right; right; now left|].
  discriminate.
Qed.

(** What [initialize] leaves: the Sepolia contracts when it succeeds, the
    contracts it found when it fails; the current network is a key of the
    registry when it was one. *)
Lemma initialize_outcome
  (customProvider ethereum : option BlockchainSession.Provider)
  (st : BlockchainSession.State) :
  In (BlockchainSession.currentNetwork st) ["sepolia"; "ethereum"; "polygon"] ->
  let st' := snd (BlockchainSession.initialize customProvider ethereum st) in
  In (BlockchainSession.currentNetwork st') ["sepolia"; "ethereum"; "polygon"]
  /\ ((BlockchainSession.invoiceContract st'
       = Some "0x66bCb1F1cdf4f0338E79E3685CEe1144954B5a2b"
       /\ BlockchainSession.pyusdContract st'
          = Some "0xCaC524BcA292aaade2DF8A05cC58F0a65B1B3bB9")
      \/ (BlockchainSession.invoiceContract st'
          = BlockchainSession.invoiceContract st
          /\ BlockchainSession.pyusdContract st'
             = BlockchainSession.pyusdContract st)).
Proof.
  intros Hn st'. subst st'. unfold BlockchainSession.initialize.
  destruct (match customProvider with
            | Some p => Some p
            | None => BlockchainSession.detectProvider ethereum
            end) as [p|]; [|split; [exact Hn | right; split; reflexivity]].
  destruct (BlockchainSession.requestAccounts p);
    [|split; [exact Hn | right; split; reflexivity]].
  destruct (BlockchainSession.getNetwork p) as [network|];
    [|split; [exact Hn | right; split; reflexivity]].
  destruct (find _ Networks.NETWORKS) as [cfg|] eqn:Ef;
    [|split; [exact Hn | right; split; reflexivity]].
  destruct (registry_key network cfg Ef) as [Hin _].
  match goal with
  | |- context [BlockchainSession.initializeContracts ?s] =>
      destruct (initializeContracts_cases s Hin) as [[Hk ->] | [Hk [e' ->]]]
  end; cbn [snd BlockchainSession.currentNetwork
            BlockchainSession.invoiceContract BlockchainSession.pyusdContract].
  - split; [now left | left; split; reflexivity].
  - split; [exact Hin | right; split; reflexivity].
Qed.

Lemma switchNetwork_outcome (networkName : string)
  (ethereum : option BlockchainSession.Provider)
  (st : BlockchainSession.State) :
  In (BlockchainSession.currentNetwork st) ["sepolia"; "ethereum"; "polygon"] ->
  let st' :=
    BlockchainSession.state
      (BlockchainSession.switchNetwork networkName ethereum st) in
  In (BlockchainSession.currentNetwork st') ["sepolia"; "ethereum"; "polygon"]
  /\ ((BlockchainSession.invoiceContract st'
       = Some "0x66bCb1F1cdf4f0338E79E3685CEe1144954B5a2b"
       /\ BlockchainSession.pyusdContract st'
          = Some "0xCaC524BcA292aaade2DF8A05cC58F0a65B1B3bB9")
      \/ (BlockchainSession.invoiceContract st'
          = BlockchainSession.invoiceContract st
          /\ BlockchainSession.pyusdContract st'
             = BlockchainSession.pyusdContract st)).
Proof.
  intros Hn st'. subst st'. unfold BlockchainSession.switchNetwork.
  destruct ethereum as [p|];
    [|split; [exact Hn | right; split; reflexivity]].
  destruct (BlockchainSession.entry Networks.NETWORKS networkName)
    as [network|] eqn:En;
    [|split; [exact Hn | right; split; reflexivity]].
  pose proof (registry_entry networkName network En) as Hin.
  destruct (fst _); [|split; [exact Hn | right; split; reflexivity]].
  match goal with
  | |- context [BlockchainSession.initializeContracts ?s] =>
      destruct (initializeContracts_cases s Hin) as [[Hk ->] | [Hk [e' ->]]]
  end; cbn [BlockchainSession.state BlockchainSession.currentNetwork
            BlockchainSession.invoiceContract BlockchainSession.pyusdContract].
  - split; [now left | left; split; reflexivity].
  - split; [exact Hin | right; split; reflexivity].
Qed.

(** X23.  [initialize] succeeds exactly when there is a provider (the one
    given, else [window.ethereum]), it grants access to the accounts and
    its network is Sepolia.  Then the service holds the invoice contract
    and the token contract of Sepolia and is initialised.  When it fails,
    the two contracts are the ones the service held before. *)
Theorem initialize_only_on_sepolia
  (customProvider ethereum : option BlockchainSession.Provider)
  (st : BlockchainSession.State) :
  let chosen :=
    match customProvider with
    | Some p => Some p
    | None => ethereum
    end in
  let resolved := fst (BlockchainSession.initialize customProvider ethereum st) in
  let st' := snd (BlockchainSession.initialize customProvider ethereum st) in
  (resolved = true
   <-> exists p accounts network,
         chosen = Some p
         /\ BlockchainSession.requestAccounts p = inl accounts
         /\ BlockchainSession.getNetwork p = inl network
         /\ BlockchainSession.net_chainId network = 11155111)
  /\ (resolved = true ->
      st' = {| BlockchainSession.provider := chosen;
               BlockchainSession.signer := true;
               BlockchainSession.invoiceContract :=
                 Some "0x66bCb1F1cdf4f0338E79E3685CEe1144954B5a2b";
               BlockchainSession.pyusdContract :=
                 Some "0xCaC524BcA292aaade2DF8A05cC58F0a65B1B3bB9";
               BlockchainSession.currentNetwork := "sepolia" |}
      /\ BlockchainSession.isInitialized st' = true)
  /\ (resolved = false ->
      BlockchainSession.invoiceContract st'
      = BlockchainSession.invoiceContract st
      /\ BlockchainSession.pyusdContract st'
         = BlockchainSession.pyusdContract st).
Proof.
  intros chosen resolved st'. subst resolved st'.
  unfold BlockchainSession.initialize.
  rewrite detectProvider_is_ethereum. fold chosen.
  destruct chosen as [p|] eqn:Ech.
  2:{ cbn [fst snd]. split.
      - split; [discriminate | intros (p & a & n & H & _); discriminate H].
      - split; [discriminate | intros _; split; reflexivity]. }
  destruct (BlockchainSession.requestAccounts p) as [accounts|e] eqn:Ea.
  2:{ cbn [fst snd]. split.
      - split; [discriminate|].
        intros (p' & a & n & H & Ha & _). injection H as <-. congruence.
      - split; [discriminate | intros _; split; reflexivity]. }
  destruct (BlockchainSession.getNetwork p) as [network|e] eqn:En.
  2:{ cbn [fst snd]. split.
      - split; [discriminate|].
        intros (p' & a & n & H & _ & Hn & _). injection H as <-. congruence.
      - split; [discriminate | intros _; split; reflexivity]. }
  destruct (find _ Networks.NETWORKS) as [networkConfig|] eqn:Ef.
  2:{ cbn [fst snd]. split.
      - split; [discriminate|].
        intros (p' & a & n & H & _ & Hn & Hc). injection H as <-.
        assert (n = network) by congruence. subst n.
        unfold Networks.NETWORKS in Ef.
        cbn [find snd Networks.chainId Networks.sepolia] in Ef.
        rewrite Hc in Ef. discriminate Ef.
      - split; [discriminate | intros _; split; reflexivity]. }
  destruct (registry_key network networkConfig Ef) as [Hin Hsep].
  match goal with
  | |- context [BlockchainSession.initializeContracts ?s] =>
      destruct (initializeContracts_cases s Hin) as [[Hk ->] | [Hk [e ->]]]
  end; cbn [BlockchainSession.currentNetwork] in Hk; cbn [fst snd].
  - split.
    + split; [|reflexivity]. intros _. exists p, accounts, network.
      repeat split; try assumption. now apply Hsep.
    + split; [|discriminate]. intros _. split; reflexivity.
  - split.
    + split; [discriminate|].
      intros (p' & a & n & H & _ & Hn & Hc). injection H as <-.
      assert (n = network) by congruence. subst n.
      apply Hsep in Hc. contradiction.
    + split; [discriminate | intros _; split; reflexivity].
Qed.

(** X24.  [switchNetwork] resolves to [true] for Sepolia only.  When it
    resolves to [false] the two contracts, the provider and the signer are
    the ones the service held before; and when the wallet accepts a switch
    to another network of the registry, the service records that network
    as the current one all the same: it then has no contract address for
    the current network while it still holds the contracts it had. *)
Theorem switchNetwork_keeps_contracts (networkName : string)
  (ethereum : option BlockchainSession.Provider)
  (st : BlockchainSession.State) :
  let r := BlockchainSession.switchNetwork networkName ethereum st in
  (BlockchainSession.value r = true ->
   networkName = "sepolia"
   /\ BlockchainSession.currentNetwork (BlockchainSession.state r) = "sepolia"
   /\ BlockchainSession.invoiceContract (BlockchainSession.state r)
      = Some "0x66bCb1F1cdf4f0338E79E3685CEe1144954B5a2b"
   /\ BlockchainSession.pyusdContract (BlockchainSession.state r)
      = Some "0xCaC524BcA292aaade2DF8A05cC58F0a65B1B3bB9")
  /\ (BlockchainSession.value r = false ->
      BlockchainSession.service_of (BlockchainSession.state r)
      = BlockchainSession.service_of st
      /\ BlockchainSession.isInitialized (BlockchainSession.state r)
         = BlockchainSession.isInitialized st)
  /\ (forall p network,
        ethereum = Some p ->
        BlockchainSession.entry Networks.NETWORKS networkName = Some network ->
        networkName <> "sepolia" ->
        (exists u,
           WalletRequests.switchEthereumChain (BlockchainSession.wallet p)
             (WalletRequests.chainIdHex network) = inl u) ->
        BlockchainSession.value r = false
        /\ BlockchainSession.sent r
           = [WalletRequests.wallet_switchEthereumChain
                (WalletRequests.chainIdHex network)]
        /\ BlockchainSession.getCurrentNetwork (BlockchainSession.state r)
           = networkName
        /\ BlockchainSession.getContractAddress (BlockchainSession.state r)
           = None).
Proof.
  intros r. subst r. unfold BlockchainSession.switchNetwork.
  destruct ethereum as [p|].
  2:{ cbn. split; [discriminate|]. split; [intros _; split; reflexivity|].
      intros p n H. discriminate H. }
  destruct (BlockchainSession.entry Networks.NETWORKS networkName)
    as [network|] eqn:En.
  2:{ cbn. split; [discriminate|]. split; [intros _; split; reflexivity|].
      intros p' n _ H. discriminate H. }
  pose proof (registry_entry networkName network En) as Hin.
  set (st1 := {| BlockchainSession.provider := BlockchainSession.provider st;
                 BlockchainSession.signer := BlockchainSession.signer st;
                 BlockchainSession.invoiceContract :=
                   BlockchainSession.invoiceContract st;
                 BlockchainSession.pyusdContract :=
                   BlockchainSession.pyusdContract st;
                 BlockchainSession.currentNetwork := networkName |}).
  assert (Hst1 : (networkName = "sepolia"
                  /\ exists st2,
                       BlockchainSession.initializeContracts st1 = inl st2
                       /\ BlockchainSession.currentNetwork st2 = "sepolia"
                       /\ BlockchainSession.invoiceContract st2
                          = Some "0x66bCb1F1cdf4f0338E79E3685CEe1144954B5a2b"
                       /\ BlockchainSession.pyusdContract st2
                          = Some "0xCaC524BcA292aaade2DF8A05cC58F0a65B1B3bB9")
                 \/ (networkName <> "sepolia"
                     /\ exists e,
                          BlockchainSession.initializeContracts st1 = inr e)).
  { destruct (initializeContracts_cases st1 Hin) as [[Hk E] | [Hk E]].
    - left. split; [exact Hk|]. eexists. split; [exact E|].
      repeat split.
    - right. split; [exact Hk | exact E]. }
  assert (Hnone : networkName <> "sepolia" ->
                  BlockchainSession.getContractAddress st1 = None).
  { intros Hne. unfold BlockchainSession.getContractAddress.
    cbn [BlockchainSession.currentNetwork st1].
    destruct Hin as [H|[H|[H|[]]]]; subst networkName;
      [contradiction | reflexivity | reflexivity]. }
  assert (Hsame : BlockchainSession.service_of st1
                  = BlockchainSession.service_of st
                  /\ BlockchainSession.isInitialized st1
                     = BlockchainSession.isInitialized st)
    by (split; reflexivity).
  destruct (WalletRequests.switchEthereumChain (BlockchainSession.wallet p)
              (WalletRequests.chainIdHex network)) as [u|rej] eqn:Es.
  - cbn [fst snd].
    destruct Hst1 as [[Hk (st2 & -> & H1 & H2 & H3)] | [Hk [e ->]]];
      cbn [BlockchainSession.value BlockchainSession.state
           BlockchainSession.sent].
    + split; [intros _; repeat split; assumption|].
      split; [discriminate|].
      intros p' n' _ _ Hne. contradiction.
    + split; [discriminate|]. split; [intros _; exact Hsame|].
      intros p' n' _ Hn' _ _. injection Hn' as <-.
      repeat split. now apply Hnone.
  - destruct (WalletRequests.unrecognized_chain rej).
    + destruct (WalletRequests.addEthereumChain _ _) as [u|e]; cbn [fst snd].
      * destruct Hst1 as [[Hk (st2 & -> & H1 & H2 & H3)] | [Hk [e ->]]];
          cbn [BlockchainSession.value BlockchainSession.state
               BlockchainSession.sent].
        -- split; [intros _; repeat split; assumption|].
           split; [discriminate|].
           intros p' n' _ _ Hne. contradiction.
        -- split; [discriminate|]. split; [intros _; exact Hsame|].
           intros p' n' Hp Hn' _ [u' Hu]. injection Hp as <-.
           injection Hn' as <-. congruence.
      * cbn [BlockchainSession.value BlockchainSession.state].
        split; [discriminate|]. split; [intros _; split; reflexivity|].
        intros p' n' Hp Hn' _ [u' Hu]. injection Hp as <-.
           injection Hn' as <-. congruence.
    + cbn [fst snd BlockchainSession.value BlockchainSession.state].
      split; [discriminate|]. split; [intros _; split; reflexivity|].
      intros p' n' Hp Hn' _ [u' Hu]. injection Hp as <-.
           injection Hn' as <-. congruence.
Qed.

(** X25.  Whatever is done to the service (initialisations, network
    switches, changes of wallet, with any wallet and any answers), the
    contracts it holds are either none or the two contracts of Sepolia,
    and its current network is a key of the registry: an initialised
    service always addresses the Sepolia contracts, also when its current
    network is another one. *)
Theorem contracts_always_sepolia (ops : list BlockchainSession.Operation) :
  let st := BlockchainSession.after ops in
  ((BlockchainSession.invoiceContract st = None
    /\ BlockchainSession.pyusdContract st = None)
   \/ (BlockchainSession.invoiceContract st
       = Some "0x66bCb1F1cdf4f0338E79E3685CEe1144954B5a2b"
       /\ BlockchainSession.pyusdContract st
          = Some "0xCaC524BcA292aaade2DF8A05cC58F0a65B1B3bB9"))
  /\ In (BlockchainSession.currentNetwork st) ["sepolia"; "ethereum"; "polygon"]
  /\ (BlockchainSession.isInitialized st = true ->
      BlockchainSession.service_of st
      = {| Gateway.invoiceContract :=
             Some "0x66bCb1F1cdf4f0338E79E3685CEe1144954B5a2b";
           Gateway.pyusdContract :=
             Some "0xCaC524BcA292aaade2DF8A05cC58F0a65B1B3bB9";
           Gateway.signer := true |}).
Proof.
  intros st. subst st.
  set (I := fun st : BlockchainSession.State =>
              ((BlockchainSession.invoiceContract st = None
                /\ BlockchainSession.pyusdContract st = None)
               \/ (BlockchainSession.invoiceContract st
                   = Some "0x66bCb1F1cdf4f0338E79E3685CEe1144954B5a2b"
                   /\ BlockchainSession.pyusdContract st
                      = Some "0xCaC524BcA292aaade2DF8A05cC58F0a65B1B3bB9"))
              /\ In (BlockchainSession.currentNetwork st)
                    ["sepolia"; "ethereum"; "polygon"]).
  assert (Hinit : forall c e st, I st ->
                    I (snd (BlockchainSession.initialize c e st))).
  { intros c e st [Hc Hn].
    destruct (initialize_outcome c e st Hn) as [Hn' [Hs | [H1 H2]]].
    - split; [right; exact Hs | exact Hn'].
    - split; [now rewrite H1, H2 | exact Hn']. }
  assert (Hstep : forall op st, I st -> I (BlockchainSession.perform op st)).
  { intros [c e | name e | g e] st HI; cbn [BlockchainSession.perform].
    - now apply Hinit.
    - destruct HI as [Hc Hn].
      destruct (switchNetwork_outcome name e st Hn) as [Hn' [Hs | [H1 H2]]].
      + split; [right; exact Hs | exact Hn'].
      + split; [now rewrite H1, H2 | exact Hn'].
    - unfold BlockchainSession.switchWalletProvider.
      destruct g as [p|]; [|exact HI].
      apply Hinit. destruct HI as [_ Hn].
      split; [left; split; reflexivity | exact Hn]. }
  assert (G : forall ops st, I st ->
                I (fold_left (fun st op => BlockchainSession.perform op st)
                     ops st)).
  { induction ops0 as [|op ops0 IH]; intros st HI; cbn [fold_left];
      [exact HI|].
    apply IH. now apply Hstep. }
  assert (H0 : I BlockchainSession.created).
  { split; [left; split; reflexivity | now left]. }
  destruct (G ops BlockchainSession.created H0) as [Hc Hn].
  unfold BlockchainSession.after.
  split; [exact Hc|]. split; [exact Hn|].
  unfold BlockchainSession.isInitialized, BlockchainSession.service_of.
  destruct Hc as [[-> ->] | [-> ->]].
  - destruct (BlockchainSession.provider _); discriminate.
  - destruct (BlockchainSession.provider _); [|discriminate].
    intros ->. reflexivity.
Qed.

(** The service is initialised on Sepolia and the wallet then accepts a
    switch to the main network: the service still counts as initialised
    and holds the Sepolia contracts, its current network is [ethereum] and
    it has no contract address for it. *)
Example switchNetwork_stale_contracts :
  let p :=
    {| BlockchainSession.isMetaMask := true;
       BlockchainSession.isCoinbaseWallet := false;
       BlockchainSession.isTrust := false;
       BlockchainSession.isRainbow := false;
       BlockchainSession.wallet :=
         {| WalletRequests.switchEthereumChain := fun _ => inl tt;
            WalletRequests.addEthereumChain := fun _ => inl tt;
            WalletRequests.watchAsset := fun _ => inl true;
            WalletRequests.chainId_answer := inl "0xaa36a7" |};
       BlockchainSession.requestAccounts :=
         inl ["0x70997970C51812dc3A010C7d01b50e0d17dc79C8"];
       BlockchainSession.getNetwork :=
         inl {| BlockchainSession.net_chainId := 11155111;
                BlockchainSession.net_name := "sepolia" |} |} in
  let st :=
    BlockchainSession.after
      [ BlockchainSession.Initialize None (Some p);
        BlockchainSession.SwitchNetwork "ethereum" (Some p) ] in
  BlockchainSession.isInitialized st = true
  /\ BlockchainSession.getCurrentNetwork st = "ethereum"
  /\ BlockchainSession.getContractAddress st = None
  /\ BlockchainSession.invoiceContract st
     = Some "0x66bCb1F1cdf4f0338E79E3685CEe1144954B5a2b".
Proof. vm_compute. repeat split; reflexivity. Qed.

(** ** Connection of the web3 service *)

Section Web3Connection.

Variable formatEther : Z -> string.
Variable formatUnits : Z -> Z -> string.

(** X26.  After [disconnectWallet] the provider cannot connect again: the
    service was initialised once, when the provider was mounted, and the
    disconnection drops what the initialisation set.  Whatever the wallet
    would answer, [connectWallet] then sets the error "Web3 not
    initialized", leaves the wallet state empty and awaits nothing, and
    further attempts change nothing. *)
Theorem connectWallet_after_disconnect_fails
  (before : option Web3Session.Ethereum) (e e' : Web3Session.Ethereum)
  (w : BlockchainProviderWallet.World) :
  let w1 := BlockchainProviderWallet.disconnectWallet before w in
  let w2 :=
    fst (BlockchainProviderWallet.connectWallet formatEther formatUnits
           (Some e) w1) in
  BlockchainProviderWallet.error w2 = Some "Web3 not initialized"
  /\ BlockchainProviderWallet.walletState w2 = None
  /\ snd (BlockchainProviderWallet.connectWallet formatEther formatUnits
            (Some e) w1) = []
  /\ BlockchainProviderWallet.service w2 = Web3Session.created
  /\ BlockchainProviderWallet.listeners w2
     = BlockchainProviderWallet.listeners w1
  /\ BlockchainProviderWallet.connectWallet formatEther formatUnits
       (Some e') w2 = (w2, []).
Proof.
  intros w1 w2. subst w2 w1.
  unfold BlockchainProviderWallet.disconnectWallet,
    Web3Session.disconnectWallet.
  unfold BlockchainProviderWallet.connectWallet, Web3Session.connectWallet.
  cbn. repeat split.
Qed.

(** X27.  What a successful [connectWallet] of the service leaves: the
    service had been initialised; the wallet state holds the address, the
    chain id and the balance that were read; two listeners are added and
    none is removed.  On a chain other than Sepolia the token balance is
    "0" and the two contracts are the ones the service held before the
    connection; on Sepolia the token contract is the one of the network
    read again, and the invoice contract is bound when that is Sepolia. *)
Theorem connectWallet_resolves (e : Web3Session.Ethereum)
  (st : Web3Session.State) (listeners : list string)
  (ws : Web3Session.WalletState) :
  let r := Web3Session.connectWallet formatEther formatUnits (Some e) st
             listeners in
  Web3Session.outcome r = inl ws ->
  Web3Session.provider st = true
  /\ Web3Session.signer (Web3Session.state r) = true
  /\ Web3Session.listening r
     = (listeners ++ ["accountsChanged"; "chainChanged"])%list
  /\ (exists accounts a c b,
        Web3Session.requestAccounts e = inl accounts
        /\ Web3Session.getAddress e = inl a
        /\ Web3Session.getNetwork e = inl c
        /\ Web3Session.getBalance e a = inl b
        /\ ws = {| Web3Session.isConnected := true;
                   Web3Session.address := Some a;
                   Web3Session.chainId := Some c;
                   Web3Session.balance := formatEther b;
                   Web3Session.pyusdBalance := Web3Session.pyusdBalance ws;
                   Web3Session.isCorrectNetwork := (c =? 11155111) |}
        /\ (c <> 11155111 ->
            Web3Session.pyusdBalance ws = "0"
            /\ Web3Session.invoiceContract (Web3Session.state r)
               = Web3Session.invoiceContract st
            /\ Web3Session.pyusdContract (Web3Session.state r)
               = Web3Session.pyusdContract st
            /\ Web3Session.calls r
               = ["eth_requestAccounts"; "getAddress"; "getNetwork";
                  "getBalance"])
        /\ (c = 11155111 ->
            exists c2 network bal,
              Web3Session.getNetwork_again e = inl c2
              /\ In network (map snd Networks.WEB3_NETWORKS)
              /\ Networks.chainId network = c2
              /\ Web3Session.pyusdContract (Web3Session.state r)
                 = Networks.pyusdAddress network
              /\ Web3Session.invoiceContract (Web3Session.state r)
                 = (if c2 =? 11155111
                    then Some "0x66bCb1F1cdf4f0338E79E3685CEe1144954B5a2b"
                    else Web3Session.invoiceContract st)
              /\ Web3Session.balanceOf e a = inl bal
              /\ Web3Session.pyusdBalance ws = formatUnits bal 6
              /\ Web3Session.calls r
                 = ["eth_requestAccounts"; "getAddress"; "getNetwork";
                    "getBalance"; "getNetwork"; "balanceOf"])).
Proof.
  intros r. subst r. unfold Web3Session.connectWallet.
  destruct (Web3Session.provider st) eqn:Ep; cbn [negb];
    [|intros H; discriminate H].
  destruct (Web3Session.requestAccounts e) as [accounts|err] eqn:Ea;
    [|intros H; discriminate H].
  destruct (Web3Session.getAddress e) as [a|err] eqn:Eg;
    [|intros H; discriminate H].
  destruct (Web3Session.getNetwork e) as [c|err] eqn:En;
    [|intros H; discriminate H].
  destruct (Web3Session.getBalance e a) as [b|err] eqn:Eb;
    [|intros H; discriminate H].
  change (Networks.chainId Networks.sepolia) with 11155111.
  destruct (c =? 11155111) eqn:Ec.
  - apply Z.eqb_eq in Ec. subst c.
    unfold Web3Session.initializeContracts.
    cbn [Web3Session.signer negb].
    destruct (Web3Session.getNetwork_again e) as [c2|err] eqn:E2;
      [|intros H; discriminate H].
    destruct (find (fun n => Networks.chainId n =? c2)
                   (map snd Networks.WEB3_NETWORKS)) as [network|] eqn:Ef;
      [|intros H; discriminate H].
    assert (Hnet : In network (map snd Networks.WEB3_NETWORKS)
                   /\ Networks.chainId network = c2).
    { apply find_some in Ef. destruct Ef as [H1 H2].
      split; [exact H1 | now apply Z.eqb_eq]. }
    assert (Htruthy : truthy (Networks.pyusdAddress network) = true).
    { destruct Hnet as [[<-|[<-|[]]] _]; reflexivity. }
    cbn [Web3Session.pyusdContract]. rewrite Htruthy.
    destruct (Web3Session.balanceOf e a) as [bal|err] eqn:Ebal;
      [|intros H; discriminate H].
    cbn [Web3Session.outcome Web3Session.state Web3Session.listening
         Web3Session.calls Web3Session.signer Web3Session.pyusdContract
         Web3Session.invoiceContract].
    intros H. injection H as <-.
    split; [reflexivity|]. split; [reflexivity|]. split; [reflexivity|].
    exists accounts, a, 11155111, b.
    split; [first [exact Ea | reflexivity]|]. split; [first [exact Eg | reflexivity]|]. split; [first [exact En | reflexivity]|].
    split; [first [exact Eb | reflexivity]|]. split; [reflexivity|].
    split; [intros Hne; now contradiction Hne|].
    intros _. exists c2, network, bal.
    destruct Hnet as [Hin Hc].
    split; [reflexivity|]. split; [first [exact Hin | reflexivity]|]. split; [first [exact Hc | reflexivity]|].
    split; [reflexivity|]. split; [reflexivity|]. split; [first [exact Ebal | reflexivity]|].
    split; reflexivity.
  - cbn [Web3Session.outcome Web3Session.state Web3Session.listening
         Web3Session.calls Web3Session.signer Web3Session.pyusdContract
         Web3Session.invoiceContract].
    intros H. injection H as <-.
    split; [reflexivity|]. split; [reflexivity|]. split; [reflexivity|].
    exists accounts, a, c, b.
    pose proof (proj1 (Z.eqb_neq _ _) Ec) as Hne.
    do 4 (split; [first [assumption | reflexivity]|]).
    split; [rewrite Ec; reflexivity|].
    split; [intros _; repeat split|].
    intros Hc. contradiction.
Qed.

End Web3Connection.

(** The provider is mounted on a page with a wallet on Sepolia, connects,
    disconnects and connects again: the first connection succeeds, the
    second one ends with the error "Web3 not initialized". *)
Example reconnect_after_disconnect :
  let e :=
    {| Web3Session.wallet :=
         {| WalletRequests.switchEthereumChain := fun _ => inl tt;
            WalletRequests.addEthereumChain := fun _ => inl tt;
            WalletRequests.watchAsset := fun _ => inl true;
            WalletRequests.chainId_answer := inl "0xaa36a7" |};
       Web3Session.requestAccounts := inl [Examples.payer_address];
       Web3Session.getAddress := inl Examples.payer_address;
       Web3Session.getNetwork := inl 11155111;
       Web3Session.getNetwork_again := inl 11155111;
       Web3Session.getBalance := fun _ => inl 5;
       Web3Session.balanceOf := fun _ => inl 250500000 |} in
  let connect :=
    BlockchainProviderWallet.connectWallet (fun _ => "0.000000000000000005")
      (fun _ _ => "250.5") (Some e) in
  let w0 :=
    BlockchainProviderWallet.initialize_effect (Some e)
      BlockchainProviderWallet.mounted in
  let w1 := fst (connect w0) in
  let w2 := BlockchainProviderWallet.disconnectWallet (Some e) w1 in
  let w3 := fst (connect w2) in
  option_map Web3Session.pyusdBalance
    (BlockchainProviderWallet.walletState w1) = Some "250.5"
  /\ BlockchainProviderWallet.error w1 = None
  /\ Web3Session.invoiceContract (BlockchainProviderWallet.service w1)
     = Some "0x66bCb1F1cdf4f0338E79E3685CEe1144954B5a2b"
  /\ BlockchainProviderWallet.walletState w3 = None
  /\ BlockchainProviderWallet.error w3 = Some "Web3 not initialized".
Proof. vm_compute. repeat split; reflexivity. Qed.

(** A wallet on the main network: the connection resolves, the token
    balance is "0" and no contract is bound. *)
Lemma connectWallet_resolves_witness :
  let e :=
    {| Web3Session.wallet :=
         {| WalletRequests.switchEthereumChain := fun _ => inl tt;
            WalletRequests.addEthereumChain := fun _ => inl tt;
            WalletRequests.watchAsset := fun _ => inl true;
            WalletRequests.chainId_answer := inl "0x1" |};
       Web3Session.requestAccounts := inl [Examples.payer_address];
       Web3Session.getAddress := inl Examples.payer_address;
       Web3Session.getNetwork := inl 1;
       Web3Session.getNetwork_again := inl 1;
       Web3Session.getBalance := fun _ => inl 5;
       Web3Session.balanceOf := fun _ => inl 250500000 |} in
  let st := snd (Web3Session.initialize (Some e) Web3Session.created) in
  let ws :=
    {| Web3Session.isConnected := true;
       Web3Session.address := Some Examples.payer_address;
       Web3Session.chainId := Some 1;
       Web3Session.balance := "5 wei";
       Web3Session.pyusdBalance := "0";
       Web3Session.isCorrectNetwork := false |} in
  let r := Web3Session.connectWallet (fun _ => "5 wei") (fun _ _ => "250.5")
             (Some e) st [] in
  Web3Session.outcome r = inl ws
  /\ Web3Session.listening r = ["accountsChanged"; "chainChanged"]
  /\ Web3Session.invoiceContract (Web3Session.state r) = None.
Proof.
  intros e st ws r.
  assert (H : Web3Session.outcome r = inl ws) by reflexivity.
  split; [exact H|].
  destruct (connectWallet_resolves (fun _ => "5 wei") (fun _ _ => "250.5")
              e st [] ws H) as (_ & _ & Hl & _).
  split; [exact Hl | reflexivity].
Defined.

(** X28.  [switchToSepolia] of the service always resolves; it resolves to
    [true] exactly when the wallet accepts the switch to chain [0xaa36a7],
    or rejects it with code 4902 and accepts the chain description.  The
    switch is always the first request, and the chain is described only
    after a rejection with code 4902. *)
Theorem Web3Service_switchToSepolia_requests
  (ethereum : option Web3Session.Ethereum) :
  let switched := fst (Web3Session.switchToSepolia ethereum) in
  let sent := snd (Web3Session.switchToSepolia ethereum) in
  (switched = true
   <-> exists e,
         ethereum = Some e
         /\ ((exists u,
                WalletRequests.switchEthereumChain (Web3Session.wallet e)
                  "0xaa36a7" = inl u)
             \/ exists r u,
                  WalletRequests.switchEthereumChain (Web3Session.wallet e)
                    "0xaa36a7" = inr r
                  /\ WalletRequests.code r = Some 4902
                  /\ WalletRequests.addEthereumChain (Web3Session.wallet e)
                       Web3Session.sepolia_params = inl u))
  /\ (ethereum = None -> sent = [])
  /\ (ethereum <> None ->
      exists rest,
        sent = WalletRequests.wallet_switchEthereumChain "0xaa36a7" :: rest
        /\ (rest = []
            \/ rest = [WalletRequests.wallet_addEthereumChain
                         Web3Session.sepolia_params]))
  /\ (forall params,
        In (WalletRequests.wallet_addEthereumChain params) sent ->
        exists e r,
          ethereum = Some e
          /\ WalletRequests.switchEthereumChain (Web3Session.wallet e)
               "0xaa36a7" = inr r
          /\ WalletRequests.code r = Some 4902).
Proof.
  intros switched sent. subst switched sent.
  unfold Web3Session.switchToSepolia.
  assert (Hcode : forall r, WalletRequests.unrecognized_chain r = true
                            <-> WalletRequests.code r = Some 4902).
  { intros r. unfold WalletRequests.unrecognized_chain.
    destruct (WalletRequests.code r) as [c|]; [|split; discriminate].
    rewrite Z.eqb_eq. split; [now intros -> | now intros [= ->]]. }
  destruct ethereum as [e|].
  2:{ cbn. split.
      - split; [discriminate | intros (e & H & _); discriminate H].
      - split; [reflexivity|]. split; [intros H; now contradiction H|].
        intros p []. }
  destruct (WalletRequests.switchEthereumChain (Web3Session.wallet e)
              "0xaa36a7") as [u|r] eqn:Es.
  - cbn [fst snd]. split.
    + split; [|reflexivity]. intros _. exists e. split; [reflexivity|].
      left. now exists u.
    + split; [discriminate|]. split; [intros _; eexists; split;
                                      [reflexivity | now left]|].
      intros p [H|[]]. discriminate H.
  - destruct (WalletRequests.unrecognized_chain r) eqn:Ec.
    + apply Hcode in Ec.
      destruct (WalletRequests.addEthereumChain _ _) as [u|err] eqn:Ea;
        cbn [fst snd].
      * split.
        { split; [|reflexivity]. intros _. exists e. split; [reflexivity|].
          right. now exists r, u. }
        split; [discriminate|].
        split; [intros _; eexists; split; [reflexivity | now right]|].
        intros p _. now exists e, r.
      * split.
        { split; [discriminate|].
          intros (e' & He & [[u H] | (r' & u & H1 & _ & H3)]);
            injection He as <-; congruence. }
        split; [discriminate|].
        split; [intros _; eexists; split; [reflexivity | now right]|].
        intros p _. now exists e, r.
    + cbn [fst snd]. split.
      { split; [discriminate|].
        intros (e' & He & [[u H] | (r' & u & H1 & H2 & _)]);
          injection He as <-; [congruence|].
        assert (r' = r) by congruence. subst r'.
        apply Hcode in H2. congruence. }
      split; [discriminate|].
      split; [intros _; eexists; split; [reflexivity | now left]|].
      intros p [H|[]]. discriminate H.
Qed.

(** ** Reading an invoice, in the two services *)

Section TwoReaders.

Variable formatUnits : Z -> Z -> string.
Variable env : Env.
Variable svc : Service.

(** X29.  The two services read the same struct differently.  For a
    struct whose numbers fit in 53 bits, [Web3Service.getInvoice] returns
    [null] exactly when the [exists] flag of the struct is false, while
    [BlockchainService.getInvoice] returns the invoice whatever the flag
    is: an invoice that does not exist is an unpaid invoice of amount 0 to
    the second and nothing to the first. *)
Theorem getInvoice_exists_flag (invoiceId : Z) (address : string)
  (raw : RawInvoice) :
  invoiceContract svc = Some address ->
  contract_getInvoice env invoiceId = inl raw ->
  Z.abs (raw_id raw) < 2 ^ 53 ->
  Z.abs (raw_createdAt raw) < 2 ^ 53 ->
  Z.abs (raw_paidAt raw) < 2 ^ 53 ->
  (exists invoice,
     fst (run (BlockchainService.getInvoice svc invoiceId) env)
     = inl (Some invoice)
     /\ Types.exists_ invoice = raw_exists raw
     /\ Types.status invoice = raw_status raw)
  /\ (raw_exists raw = false ->
      fst (run (Web3Session.getInvoice formatUnits svc invoiceId) env)
      = inl None)
  /\ (raw_exists raw = true ->
      exists data,
        fst (run (Web3Session.getInvoice formatUnits svc invoiceId) env)
        = inl (Some data)
        /\ Web3Session.id data = raw_id raw
        /\ Web3Session.amount data = formatUnits (raw_amount raw) 6
        /\ Web3Session.status data = Web3Session.statusMap (raw_status raw)).
Proof.
  intros Hc Hr H1 H2 H3.
  apply Z.ltb_lt in H1, H2, H3.
  unfold BlockchainService.getInvoice, Web3Session.getInvoice. unfold_run.
  rewrite Hc, Hr. unfold BigNumber_toNumber. rewrite H1, H2, H3.
  cbn [fst snd is_ok app]. split; [|split].
  - eexists. split; [reflexivity|]. split; reflexivity.
  - intros ->. reflexivity.
  - intros ->. cbn [negb fst snd].
    eexists. split; [reflexivity|]. repeat split.
Qed.

End TwoReaders.

(** The struct the contract returns for an id that was never used: the
    invoice service reports an unpaid invoice, the web3 service nothing. *)
Lemma getInvoice_exists_flag_witness :
  let raw :=
    {| raw_id := 0;
       raw_creator := "0x0000000000000000000000000000000000000000";
       raw_payer := "0x0000000000000000000000000000000000000000";
       raw_amount := 0; raw_status := 0; raw_ipfsHash := "";
       raw_createdAt := 0; raw_paidAt := 0; raw_exists := false |} in
  let env :=
    {| contract_getInvoice := fun _ => inl raw;
       signer_getAddress := (Examples.chain 0 0 0 Examples.pinned).(signer_getAddress);
       pyusd_balanceOf := (Examples.chain 0 0 0 Examples.pinned).(pyusd_balanceOf);
       pyusd_allowance := (Examples.chain 0 0 0 Examples.pinned).(pyusd_allowance);
       pyusd_approve := (Examples.chain 0 0 0 Examples.pinned).(pyusd_approve);
       approve_wait := (Examples.chain 0 0 0 Examples.pinned).(approve_wait);
       estimateGas_payInvoice :=
         (Examples.chain 0 0 0 Examples.pinned).(estimateGas_payInvoice);
       contract_payInvoice :=
         (Examples.chain 0 0 0 Examples.pinned).(contract_payInvoice);
       pay_wait := (Examples.chain 0 0 0 Examples.pinned).(pay_wait);
       upload_typed := (Examples.chain 0 0 0 Examples.pinned).(upload_typed);
       upload_form := (Examples.chain 0 0 0 Examples.pinned).(upload_form);
       parseUnits := (Examples.chain 0 0 0 Examples.pinned).(parseUnits);
       estimateGas_createInvoice :=
         (Examples.chain 0 0 0 Examples.pinned).(estimateGas_createInvoice);
       contract_createInvoice :=
         (Examples.chain 0 0 0 Examples.pinned).(contract_createInvoice);
       create_wait := (Examples.chain 0 0 0 Examples.pinned).(create_wait) |} in
  fst (run (Web3Session.getInvoice (fun _ _ => "0.0") Examples.service 99) env)
  = inl None
  /\ exists invoice,
       fst (run (BlockchainService.getInvoice Examples.service 99) env)
       = inl (Some invoice)
       /\ Types.exists_ invoice = false
       /\ Types.status invoice = Types.UNPAID.
Proof.
  intros raw env.
  destruct (getInvoice_exists_flag (fun _ _ => "0.0") env Examples.service 99
              "0x66bCb1F1cdf4f0338E79E3685CEe1144954B5a2b" raw
              eq_refl eq_refl eq_refl eq_refl eq_refl)
    as ((invoice & Hb & He & Hs) & Hw & _).
  split; [exact (Hw eq_refl)|].
  exists invoice. split; [exact Hb|]. split; [exact He | exact Hs].
Defined.
